(** * update_all_podcast_details.py: resolution, enrichment and upsert pipeline

    A shallow embedding of [update_all_podcast_details.py].  Python values
    parsed from JSON are a tagged union; every [requests.get] and every
    SQLite statement is answered by an oracle indexed by a logical clock, so a
    run is a deterministic function of what the outside world replies.
    Exceptions are explicit results; each function returns what it returned
    or raised, the events it emitted (requests, sleeps, committed upserts)
    and the state it left behind.  The embedding covers the functions of
    the script; the credential check the module runs when it is loaded and
    the authentication headers are left out.  Of what the script prints,
    the prints that format a string of a reply are embedded, since such a
    string need not be printable; the other prints cannot fail and are left
    out. *)

From Stdlib Require Import ZArith QArith List String Ascii Bool Lia Sorted.
Import ListNotations.

Local Open Scope string_scope.
Local Open Scope list_scope.
Local Open Scope Z_scope.

(** ** Python values *)

(** A Python float: a finite double (taken as the rational it denotes), an
    infinity or a NaN. *)
Inductive pyfloat : Type :=
| FFinite (q : Q)
| FInf (negative : bool)
| FNaN.

#[local] Set Warnings "-register-all".

(** What [json.loads], a [dict.get] or a SQLite row can hand to the script.
    A dict is the list of its items; [json.loads] keeps one item per key. *)
Inductive value : Type :=
| VNone
| VBool (b : bool)
| VInt (z : Z)
| VFloat (f : pyfloat)
| VStr (s : string)
| VList (l : list value)
| VDict (d : list (string * value)).

(** Truth value of an object, as [if x], [not x] and [x or y] test it. *)
Definition truthy (v : value) : bool :=
  match v with
  | VNone => false
  | VBool b => b
  | VInt z => negb (z =? 0)
  | VFloat (FFinite q) => negb (Qeq_bool q 0)
  | VFloat _ => true
  | VStr s => negb (s =? "")%string
  | VList [] => false
  | VList (_ :: _) => true
  | VDict [] => false
  | VDict (_ :: _) => true
  end.

(** Exception classes the script can meet.  All of them derive from
    [Exception]; [SqliteError] stands for [sqlite3.Error] and its subclasses,
    [HTTPError] and the decode error of [response.json()] are
    [RequestException]s; [UnicodeEncodeError] is what [print] raises on a
    text that [stdout] cannot encode. *)
Inductive exn : Type :=
| RequestException
| HTTPError
| JSONDecodeError
| AttributeError
| TypeError
| KeyError
| IndexError
| OverflowError
| UnicodeEncodeError
| SqliteError.

Inductive result (A : Type) : Type :=
| Ok (a : A)
| Raise (e : exn).
Arguments Ok {A} a.
Arguments Raise {A} e.

Definition rbind {A B} (r : result A) (f : A -> result B) : result B :=
  match r with
  | Ok a => f a
  | Raise e => Raise e
  end.

Declare Scope py_scope.
Delimit Scope py_scope with py.
Notation "x <~ r ;; k" := (rbind r (fun x => k))
  (at level 61, r at next level, right associativity) : py_scope.
Local Open Scope py_scope.

Fixpoint lookup (k : string) (d : list (string * value)) : option value :=
  match d with
  | [] => None
  | (k', v) :: d' => if (k =? k')%string then Some v else lookup k d'
  end.

(** [obj.get(key, default)]: only a dict has the method. *)
Definition dict_get (obj : value) (key : string) (default : value) : result value :=
  match obj with
  | VDict d => Ok (match lookup key d with Some v => v | None => default end)
  | _ => Raise AttributeError
  end.

(** [a or b], with [b] evaluated only when [a] is falsy. *)
Definition py_or (a : value) (b : result value) : result value :=
  if truthy a then Ok a else b.

(** [for x in obj]: a list yields its elements, a dict its keys, a string its
    characters; nothing else parsed from JSON is iterable. *)
Definition py_iter (obj : value) : result (list value) :=
  match obj with
  | VList l => Ok l
  | VDict d => Ok (map (fun kv => VStr (fst kv)) d)
  | VStr s => Ok (map (fun c => VStr (String c EmptyString)) (list_ascii_of_string s))
  | _ => Raise TypeError
  end.

(** [obj[0]]. *)
Definition py_first (obj : value) : result value :=
  match obj with
  | VList (x :: _) => Ok x
  | VList [] => Raise IndexError
  | VStr (String c _) => Ok (VStr (String c EmptyString))
  | VStr EmptyString => Raise IndexError
  | VDict _ => Raise KeyError
  | _ => Raise TypeError
  end.

(** [isinstance(x, int)], with the integer [x] is: [bool] is a subclass of
    [int] and [True] is the integer 1. *)
Definition as_int (v : value) : option Z :=
  match v with
  | VInt z => Some z
  | VBool b => Some (Z.b2z b)
  | _ => None
  end.

(** ** The outside world *)

Inductive endpoint : Type :=
| SearchByTerm
| SearchByTitle
| PodcastsByFeedId
| PodcastsByFeedUrl
| EpisodesByFeedId.

(** What one [requests.get] leads to: the call itself raises (a transport
    failure), or a response arrives, with an error status for which
    [raise_for_status] raises or not, and a body that [response.json()]
    decodes or not. *)
Inductive http_outcome : Type :=
| ConnectionFailed
| Responded (error_status : bool) (body : option value).

Module Podcasts.
(** A row of the [Podcasts] table; [podcast_id] is the INTEGER PRIMARY
    KEY, the other columns hold the bound values. *)
Record row : Type := {
  podcast_id : Z;
  title : value;
  description : value;
  feed_url : value;
  image_url : value;
  episode_count : value;
  avg_duration_last_10 : value;
  latest_episode_title : value;
  last_update_time : value;
  categories : value;
  podcast_guid : value;
  original_url : value
}.
End Podcasts.

(** [INSERT OR REPLACE]: the row holding the same key, if there is one, is
    deleted and the new row inserted; the order of rows carries no meaning. *)
Definition upsert (r : Podcasts.row) (t : list Podcasts.row) : list Podcasts.row :=
  filter (fun x => negb (Podcasts.podcast_id x =? Podcasts.podcast_id r)) t ++ [r].

(** Outcome of the [INSERT OR REPLACE] and its [commit]. *)
Inductive db_outcome : Type :=
| Committed
| DbRaises (e : exn).

(** The calls to the database a run starts with, before its loop:
    [sqlite3.connect], [DROP TABLE IF EXISTS Podcasts], [CREATE TABLE
    Podcasts], [conn.commit()] and [SELECT DISTINCT title FROM
    Top100Lists] with its [fetchall]. *)
Inductive start_call : Type :=
| SqliteConnect
| DropTable
| CreateTable
| FirstCommit
| SelectTitles.

Inductive event : Type :=
| Request (ep : endpoint) (arg : value)
| Sleep (seconds : Q)
| Upsert (r : Podcasts.row).

Record state : Type := {
  clock : nat;
  table : list Podcasts.row
}.

Record outcome (A : Type) : Type := {
  res : result A;
  log : list event;
  final : state
}.
Arguments res {A} o.
Arguments log {A} o.
Arguments final {A} o.

(** ** The monad of the script: state, emitted events, exceptions *)

Definition M (A : Type) : Type := state -> outcome A.

Definition ret {A} (a : A) : M A :=
  fun s => {| res := Ok a; log := []; final := s |}.

Definition raise {A} (e : exn) : M A :=
  fun s => {| res := Raise e; log := []; final := s |}.

Definition bind {A B} (m : M A) (f : A -> M B) : M B :=
  fun s =>
    let o := m s in
    match res o with
    | Ok a =>
        let o' := f a (final o) in
        {| res := res o'; log := log o ++ log o'; final := final o' |}
    | Raise e => {| res := Raise e; log := log o; final := final o |}
    end.

Definition lift {A} (r : result A) : M A :=
  match r with
  | Ok a => ret a
  | Raise e => raise e
  end.

(** [try: body except <classes>: handler]; the handlers of the script only
    print, so a handler takes no argument. *)
Definition try_except {A} (catches : exn -> bool) (body handler : M A) : M A :=
  fun s =>
    let o := body s in
    match res o with
    | Ok _ => o
    | Raise e =>
        if catches e then
          let o' := handler (final o) in
          {| res := res o'; log := log o ++ log o'; final := final o' |}
        else o
    end.

Notation "x <- m ;; k" := (bind m (fun x => k))
  (at level 61, m at next level, right associativity) : py_scope.
Notation "m ;;; k" := (bind m (fun _ => k))
  (at level 61, right associativity) : py_scope.

(** [except Exception]: every class of [exn]. *)
Definition any_exception (_ : exn) : bool := true.

(** [except sqlite3.Error]. *)
Definition sqlite_error (e : exn) : bool :=
  match e with
  | SqliteError => true
  | _ => false
  end.

Definition emit (ev : event) : M unit :=
  fun s => {| res := Ok tt; log := [ev]; final := s |}.

Definition time_sleep (seconds : Q) : M unit := emit (Sleep seconds).

(** [best_ratio >= 0.4]: the literal is the double nearest to 0.4. *)
Definition threshold : Q := 3602879701896397 # 9007199254740992.

Definition Qlt_bool (x y : Q) : bool := negb (Qle_bool y x).

(** ** Integer arithmetic behind [int(a / b)] *)

(** Nearest integer to [n / d] for [0 <= n], [0 < d], ties to even. *)
Definition round_half_even (n d : Z) : Z :=
  let q := n / d in
  let r := n mod d in
  if 2 * r <? d then q
  else if d <? 2 * r then q + 1
  else if Z.even q then q else q + 1.

(** [int(a / b)] for Python integers [0 < b <= a].  [a / b] is the quotient
    correctly rounded to a double: a 53-bit significand [m] scaled by [2^e],
    ties to even, [OverflowError] from [2^1024] on; [int] then drops the
    fraction. *)
Definition int_truediv (a b : Z) : result Z :=
  let l := Z.log2 a - Z.log2 b in
  let e := (if a <? b * 2 ^ l then l - 1 else l) - 52 in
  if 0 <=? e then
    let m := round_half_even a (b * 2 ^ e) in
    if 2 ^ 1024 <=? m * 2 ^ e then Raise OverflowError else Ok (m * 2 ^ e)
  else
    let m := round_half_even (a * 2 ^ (- e)) b in
    Ok (m / 2 ^ (- e)).

(** ** The episode statistics as the specification words them *)






(** [d.get(key)] on the items of a dict. *)
Definition get_or_none (d : list (string * value)) (key : string) : value :=
  match lookup key d with
  | Some v => v
  | None => VNone
  end.

(** [a or b] for two values at hand. *)
Definition either (a b : value) : value := if truthy a then a else b.

(** What a log of events leaves in the table: its committed upserts, applied
    in order. *)
Definition replay (events : list event) (t : list Podcasts.row) : list Podcasts.row :=
  fold_left (fun t ev =>
               match ev with
               | Upsert r => upsert r t
               | _ => t
               end) events t.

(** * scrape_spotify_top100.py and scrape_apple_top100.py: the chart scrapers

    Each scraper sends one request and turns the reply into chart records;
    each script then saves its records to [Top100Lists], the table the
    update script reads its titles from.  A scraper is embedded as a
    function of what its request leads to and of the date
    [datetime.date.today()] gives; what the scripts log is left out, but for
    the counts of the last line of a save. *)

(** ** Python operations of the scrapers *)

(** [obj[key]] for a [str] key: a dict looks the key up, a list or a string
    wants an integer, the other values are not subscriptable. *)
Definition py_getitem (obj : value) (key : string) : result value :=
  match obj with
  | VDict d =>
      match lookup key d with
      | Some v => Ok v
      | None => Raise KeyError
      end
  | _ => Raise TypeError
  end.

(** [key in obj] for a [str] key: a key of the dict, an element of the list,
    a substring of the string; the other values are not iterable. *)
Definition py_contains (key : string) (obj : value) : result bool :=
  match obj with
  | VDict d => Ok (match lookup key d with Some _ => true | None => false end)
  | VList l =>
      Ok (existsb (fun x => match x with
                            | VStr s => (s =? key)%string
                            | _ => false
                            end) l)
  | VStr s => Ok (match index 0 key s with Some _ => true | None => false end)
  | _ => Raise TypeError
  end.

(** [all(key in obj for key in keys)], which stops at the first key that is
    missing. *)
Fixpoint py_all_in (keys : list string) (obj : value) : result bool :=
  match keys with
  | [] => Ok true
  | key :: rest =>
      present <~ py_contains key obj ;;
      if present then py_all_in rest obj else Ok false
  end.

(** [l[:stop]]: a negative [stop] counts from the end. *)
Definition py_upto (stop : Z) (l : list value) : list value :=
  if 0 <=? stop then firstn (Z.to_nat stop) l
  else firstn (List.length l - Z.to_nat (- stop)) l.

(** [s.split(sep)] for a separator of one character: the piece before the
    first separator and the pieces after it. *)
Fixpoint split_on (sep : ascii) (s : string) : string * list string :=
  match s with
  | EmptyString => (EmptyString, [])
  | String c rest =>
      let (piece, pieces) := split_on sep rest in
      if Ascii.eqb c sep then (EmptyString, piece :: pieces)
      else (String c piece, pieces)
  end.

Definition py_split (sep : ascii) (s : string) : list string :=
  let (piece, pieces) := split_on sep s in piece :: pieces.

(** [l[-1]] *)
Definition py_last {A} (l : list A) : result A :=
  match rev l with
  | x :: _ => Ok x
  | [] => Raise IndexError
  end.

(** ** The scrapers *)

(** [requests.get], [raise_for_status] and [response.json()] on what the
    request leads to. *)
Definition chart_json (reply : http_outcome) : result value :=
  match reply with
  | ConnectionFailed => Raise RequestException
  | Responded true _ => Raise HTTPError
  | Responded false None => Raise JSONDecodeError
  | Responded false (Some data) => Ok data
  end.

(** The dict both scrapers append to [records]. *)
Definition chart_record (platform : string) (rank : Z) (title podcast_id : value)
    (today : string) : value :=
  VDict [("platform", VStr platform); ("rank", VInt rank); ("title", title);
         ("podcast_id", podcast_id); ("date", VStr today)].

(** [show_uri.split(":")[-1] if show_uri else None] *)
Definition spotify_podcast_id (show_uri : value) : result value :=
  if truthy show_uri then
    match show_uri with
    | VStr s =>
        piece <~ py_last (py_split ":" s) ;;
        Ok (VStr piece)
    | _ => Raise AttributeError
    end
  else Ok VNone.

(** One pass of the Spotify loop body over item [i] of [enumerate]. *)
Definition spotify_step (today : string) (records : list value) (i : Z)
    (pod_data : value) : result (list value) :=
  match pod_data with
  | VDict _ =>
      show_uri <~ dict_get pod_data "showUri" (VStr "") ;;
      podcast_id <~ spotify_podcast_id show_uri ;;
      title <~ dict_get pod_data "showName" VNone ;;
      Ok (records ++ [chart_record "Spotify" (i + 1) title podcast_id today])
  | _ => Ok records
  end.

Fixpoint spotify_loop (today : string) (items : list value) (i : Z)
    (records : list value) : result (list value) :=
  match items with
  | [] => Ok records
  | pod_data :: rest =>
      records' <~ spotify_step today records i pod_data ;;
      spotify_loop today rest (i + 1) records'
  end.

(** Every handler of the [try] returns the empty list. *)
Definition scrape_spotify_top100 (today : string) (reply : http_outcome) : list value :=
  match (items <~ chart_json reply ;;
         match items with
         | VList l => spotify_loop today (py_upto 100 l) 0 []
         | _ => Ok []
         end) with
  | Ok records => records
  | Raise _ => []
  end.

(** One pass of the Apple loop body over item [i] of [enumerate]. *)
Definition apple_step (today : string) (records : list value) (i : Z)
    (pod_data : value) : result (list value) :=
  match pod_data with
  | VDict _ =>
      title <~ dict_get pod_data "name" VNone ;;
      podcast_id <~ dict_get pod_data "id" VNone ;;
      Ok (records ++ [chart_record "Apple" (i + 1) title podcast_id today])
  | _ => Ok records
  end.

Fixpoint apple_loop (today : string) (items : list value) (i : Z)
    (records : list value) : result (list value) :=
  match items with
  | [] => Ok records
  | pod_data :: rest =>
      records' <~ apple_step today records i pod_data ;;
      apple_loop today rest (i + 1) records'
  end.

(** [limit] is the integer the caller asks for; the two guards let a
    non-empty dict and a non-empty list through. *)
Definition scrape_apple_top_podcasts (today : string) (limit : Z)
    (reply : http_outcome) : list value :=
  match (data <~ chart_json reply ;;
         feed_data <~ dict_get data "feed" VNone ;;
         match feed_data with
         | VDict (_ :: _) =>
             results <~ dict_get feed_data "results" VNone ;;
             match results with
             | VList ((_ :: _) as l) => apple_loop today (py_upto limit l) 0 []
             | _ => Ok []
             end
         | _ => Ok []
         end) with
  | Ok records => records
  | Raise _ => []
  end.

(** ** The chart table *)

Module Top100Lists.
(** A row of [Top100Lists], without its AUTOINCREMENT [id], which no
    statement of the scripts sets or reads. *)
Record row : Type := {
  platform : value;
  rank : value;
  title : value;
  podcast_id : value;
  date : value
}.
End Top100Lists.

Inductive affinity : Type :=
| TEXT
| INTEGER.

(** What a save asks of SQLite. *)
Inductive db_call : Type :=
| Connect
| CreateTableIfNotExists
| InsertOrIgnore (bound : Top100Lists.row)
| Commit.

(** A call raises (a locked database, a value that cannot be bound) or is
    carried out. *)
Inductive call_outcome : Type :=
| Executed
| Failed (e : exn).

(** The inner [try] of both saves: [except sqlite3.Error] and
    [except KeyError]. *)
Definition caught_in_loop (e : exn) : bool :=
  match e with
  | SqliteError | KeyError => true
  | _ => false
  end.

Definition is_null (v : value) : bool :=
  match v with
  | VNone => true
  | _ => false
  end.

(** SQLite's comparison of two stored values that are not NULL: text with
    text, number with number. *)
Definition same_cell (a b : value) : bool :=
  match a, b with
  | VStr x, VStr y => (x =? y)%string
  | VInt x, VInt y => x =? y
  | VInt x, VFloat (FFinite q) | VFloat (FFinite q), VInt x => Qeq_bool (inject_Z x) q
  | VFloat (FFinite p), VFloat (FFinite q) => Qeq_bool p q
  | VFloat (FInf x), VFloat (FInf y) => Bool.eqb x y
  | _, _ => false
  end.

(** [UNIQUE(platform, rank, date)] *)
Definition same_key (x y : Top100Lists.row) : bool :=
  same_cell (Top100Lists.platform x) (Top100Lists.platform y)
  && same_cell (Top100Lists.rank x) (Top100Lists.rank y)
  && same_cell (Top100Lists.date x) (Top100Lists.date y).

(** The cursor of a save: the rows as its transaction sees them, the number
    of calls made to the database, the two counters of the loop. *)
Record cursor : Type := {
  rows : list Top100Lists.row;
  calls : nat;
  insert_count : Z;
  ignore_count : Z
}.

(** What a save leaves: what it returned or raised, the table as committed
    ([None] while it does not exist), and the counts of the last log line
    when the save got that far. *)
Record saved : Type := {
  returned : result unit;
  store : option (list Top100Lists.row);
  counts : option (Z * Z)
}.

Section Charts.

(** What a column of the given affinity stores for a bound value that is
    neither [None], nor a [str] bound to a TEXT column, nor an [int] bound
    to an INTEGER column. *)
Variable coerce : affinity -> value -> value.

(** The outcome of each call, by the number of calls the save has made. *)
Variable sqlite : nat -> db_call -> call_outcome.

Definition stored (a : affinity) (v : value) : value :=
  match a, v with
  | _, VNone => VNone
  | TEXT, VStr s => VStr s
  | INTEGER, VInt z => VInt z
  | _, _ => coerce a v
  end.

(** [INSERT OR IGNORE INTO Top100Lists(platform, rank, title, podcast_id,
    date)]: the row is skipped when it breaks a NOT NULL constraint or the
    UNIQUE constraint; returns the rows and [cursor.rowcount]. *)
Definition insert_or_ignore (bound : Top100Lists.row) (t : list Top100Lists.row)
    : list Top100Lists.row * Z :=
  let new := {| Top100Lists.platform := stored TEXT (Top100Lists.platform bound);
                Top100Lists.rank := stored INTEGER (Top100Lists.rank bound);
                Top100Lists.title := stored TEXT (Top100Lists.title bound);
                Top100Lists.podcast_id := stored TEXT (Top100Lists.podcast_id bound);
                Top100Lists.date := stored TEXT (Top100Lists.date bound) |} in
  if is_null (Top100Lists.platform new) || is_null (Top100Lists.rank new)
     || is_null (Top100Lists.date new)
  then (t, 0)
  else if existsb (same_key new) t then (t, 0)
  else (t ++ [new], 1).

(** The inner [try] of a loop body, from the tuple of parameters on: a
    [KeyError] of the tuple and a [sqlite3.Error] of the statement are
    logged and the record is given up; after the statement the counters
    follow [cursor.rowcount]. *)
Definition insert_record (params : result Top100Lists.row) (c : cursor) : result cursor :=
  match params with
  | Raise e => if caught_in_loop e then Ok c else Raise e
  | Ok bound =>
      match sqlite (calls c) (InsertOrIgnore bound) with
      | Failed e =>
          if caught_in_loop e
          then Ok {| rows := rows c; calls := S (calls c);
                     insert_count := insert_count c; ignore_count := ignore_count c |}
          else Raise e
      | Executed =>
          let (t, rowcount) := insert_or_ignore bound (rows c) in
          if 0 <? rowcount
          then Ok {| rows := t; calls := S (calls c);
                     insert_count := insert_count c + 1; ignore_count := ignore_count c |}
          else Ok {| rows := t; calls := S (calls c);
                     insert_count := insert_count c; ignore_count := ignore_count c + 1 |}
      end
  end.

(** [(r["platform"], r["rank"], r["title"], r["podcast_id"], r["date"])] *)
Definition spotify_params (r : value) : result Top100Lists.row :=
  platform <~ py_getitem r "platform" ;;
  rank <~ py_getitem r "rank" ;;
  title <~ py_getitem r "title" ;;
  podcast_id <~ py_getitem r "podcast_id" ;;
  date <~ py_getitem r "date" ;;
  Ok {| Top100Lists.platform := platform; Top100Lists.rank := rank;
        Top100Lists.title := title; Top100Lists.podcast_id := podcast_id;
        Top100Lists.date := date |}.

(** [(r["platform"], r["rank"], r.get("title"), r.get("podcast_id"),
    r["date"])] *)
Definition apple_params (r : value) : result Top100Lists.row :=
  platform <~ py_getitem r "platform" ;;
  rank <~ py_getitem r "rank" ;;
  title <~ dict_get r "title" VNone ;;
  podcast_id <~ dict_get r "podcast_id" VNone ;;
  date <~ py_getitem r "date" ;;
  Ok {| Top100Lists.platform := platform; Top100Lists.rank := rank;
        Top100Lists.title := title; Top100Lists.podcast_id := podcast_id;
        Top100Lists.date := date |}.

(** The loop body of [save_to_db]. *)
Definition save_to_db_step (c : cursor) (r : value) : result cursor :=
  insert_record (spotify_params r) c.

(** The loop body of [save_chart_data_to_db]: the check of the required keys
    stands before the [try]. *)
Definition save_chart_data_step (c : cursor) (r : value) : result cursor :=
  complete <~ py_all_in ["platform"; "rank"; "date"] r ;;
  if negb complete then Ok c else insert_record (apple_params r) c.

Fixpoint save_loop (step : cursor -> value -> result cursor) (records : list value)
    (c : cursor) : result cursor :=
  match records with
  | [] => Ok c
  | r :: rest =>
      c' <~ step c r ;;
      save_loop step rest c'
  end.

(** The outer [except sqlite3.Error] logs and lets the function return;
    anything else leaves the function. *)
Definition after_outer_handler (e : exn) : result unit :=
  if sqlite_error e then Ok tt else Raise e.

(** What both saves have in common: nothing is done for no records;
    [sqlite3.connect], then inside [with]: the [CREATE TABLE IF NOT EXISTS],
    which takes effect at once, the loop, whose inserts belong to one
    transaction, and the last log line; the [with] commits when its body
    ends and rolls the inserts back when an exception leaves it. *)
Definition save_with (step : cursor -> value -> result cursor)
    (last_log : list value -> result unit)
    (records : list value) (t : option (list Top100Lists.row)) : saved :=
  match records with
  | [] => {| returned := Ok tt; store := t; counts := None |}
  | _ :: _ =>
      match sqlite 0%nat Connect with
      | Failed e => {| returned := after_outer_handler e; store := t; counts := None |}
      | Executed =>
          match sqlite 1%nat CreateTableIfNotExists with
          | Failed e => {| returned := after_outer_handler e; store := t; counts := None |}
          | Executed =>
              let before := match t with Some before => before | None => [] end in
              match (c <~ save_loop step records
                            {| rows := before; calls := 2;
                               insert_count := 0; ignore_count := 0 |} ;;
                     _ <~ last_log records ;;
                     Ok c) with
              | Raise e =>
                  {| returned := after_outer_handler e; store := Some before;
                     counts := None |}
              | Ok c =>
                  match sqlite (calls c) Commit with
                  | Failed e =>
                      {| returned := after_outer_handler e; store := Some before;
                         counts := Some (insert_count c, ignore_count c) |}
                  | Executed =>
                      {| returned := Ok tt; store := Some (rows c);
                         counts := Some (insert_count c, ignore_count c) |}
                  end
              end
          end
      end
  end.

(** The last log line of [save_to_db] names the two counters only. *)
Definition save_to_db (records : list value) (t : option (list Top100Lists.row)) : saved :=
  save_with save_to_db_step (fun _ => Ok tt) records t.

(** The last log line of [save_chart_data_to_db] formats
    [records[0]['platform']] as well. *)
Definition save_chart_data_to_db (records : list value)
    (t : option (list Top100Lists.row)) : saved :=
  save_with save_chart_data_step
    (fun records =>
       first <~ py_first (VList records) ;;
       _ <~ py_getitem first "platform" ;;
       Ok tt)
    records t.

(** The main block of [scrape_spotify_top100.py]: save what was scraped, if
    anything was. *)
Definition spotify_main (today : string) (reply : http_outcome)
    (t : option (list Top100Lists.row)) : saved :=
  match scrape_spotify_top100 today reply with
  | [] => {| returned := Ok tt; store := t; counts := None |}
  | (_ :: _) as scraped_data => save_to_db scraped_data t
  end.

(** The main block of [scrape_apple_top100.py], with the defaults of the
    scraper: a limit of 100. *)
Definition apple_main (today : string) (reply : http_outcome)
    (t : option (list Top100Lists.row)) : saved :=
  match scrape_apple_top_podcasts today 100 reply with
  | [] => {| returned := Ok tt; store := t; counts := None |}
  | (_ :: _) as scraped_data => save_chart_data_to_db scraped_data t
  end.

End Charts.

(** ** What the proofs about the scrapers speak of *)

(** The title and the podcast id each scraper reads from an item. *)
Definition spotify_fields (pod_data : value) : result (value * value) :=
  show_uri <~ dict_get pod_data "showUri" (VStr "") ;;
  podcast_id <~ spotify_podcast_id show_uri ;;
  title <~ dict_get pod_data "showName" VNone ;;
  Ok (title, podcast_id).

Definition apple_fields (pod_data : value) : result (value * value) :=
  title <~ dict_get pod_data "name" VNone ;;
  podcast_id <~ dict_get pod_data "id" VNone ;;
  Ok (title, podcast_id).

(** What one pass of a loop appends for item [i]: one record for a dict,
    nothing for anything else. *)
Definition entry_of (platform : string) (fields : value -> result (value * value))
    (today : string) (i : Z) (pod_data : value) : result (list value) :=
  match pod_data with
  | VDict _ =>
      tp <~ fields pod_data ;;
      Ok [chart_record platform (i + 1) (fst tp) (snd tp) today]
  | _ => Ok []
  end.

(** What a loop appends for the items from position [i] on. *)
Fixpoint entries_from (platform : string) (fields : value -> result (value * value))
    (today : string) (items : list value) (i : Z) : result (list value) :=
  match items with
  | [] => Ok []
  | pod_data :: rest =>
      entry <~ entry_of platform fields today i pod_data ;;
      entries <~ entries_from platform fields today rest (i + 1) ;;
      Ok (entry ++ entries)
  end.

(** The ranks of a list of records, for those that have an integer one. *)
Definition ranks_of (records : list value) : list Z :=
  flat_map (fun r => match py_getitem r "rank" with
                     | Ok (VInt k) => [k]
                     | _ => []
                     end) records.

(** A record as both scrapers build them: the five keys, a platform and a
    date that are strings, a rank that is an integer. *)
Definition scraped (platform today : string) (r : value) : Prop :=
  exists rank title podcast_id, r = chart_record platform rank title podcast_id today.

(** A table that keeps its constraints: no NULL in the three NOT NULL
    columns, no two rows of one key. *)
Definition constraints_hold (t : list Top100Lists.row) : Prop :=
  Forall (fun x => is_null (Top100Lists.platform x) = false /\
                   is_null (Top100Lists.rank x) = false /\
                   is_null (Top100Lists.date x) = false) t /\
  ForallOrdPairs (fun x y => same_key y x = false) t.

(** What the five bound values are stored as. *)
Definition stored_row (coerce : affinity -> value -> value) (bound : Top100Lists.row)
    : Top100Lists.row :=
  {| Top100Lists.platform := stored coerce TEXT (Top100Lists.platform bound);
     Top100Lists.rank := stored coerce INTEGER (Top100Lists.rank bound);
     Top100Lists.title := stored coerce TEXT (Top100Lists.title bound);
     Top100Lists.podcast_id := stored coerce TEXT (Top100Lists.podcast_id bound);
     Top100Lists.date := stored coerce TEXT (Top100Lists.date bound) |}.

(** How a cursor moves on between two points of a save: rows are added at
    the end, as many as [insert_count] grows by, none is changed or lost,
    and the counters never go down. *)
Definition moves_on (c c' : cursor) : Prop :=
  exists added,
    rows c' = rows c ++ added /\
    Z.of_nat (List.length added) = insert_count c' - insert_count c /\
    0 <= ignore_count c' - ignore_count c /\
    (calls c <= calls c')%nat /\
    (constraints_hold (rows c) -> constraints_hold (rows c')).

(** The rows of a table, none while it does not exist. *)
Definition rows_of (t : option (list Top100Lists.row)) : list Top100Lists.row :=
  match t with
  | Some before => before
  | None => []
  end.

(** The tuple of parameters of a record that is a dict, a key it lacks
    read as [None]. *)
Definition params_of (d : list (string * value)) : Top100Lists.row :=
  {| Top100Lists.platform := get_or_none d "platform";
     Top100Lists.rank := get_or_none d "rank";
     Top100Lists.title := get_or_none d "title";
     Top100Lists.podcast_id := get_or_none d "podcast_id";
     Top100Lists.date := get_or_none d "date" |}.

(** A record that holds the five keys the scrapers set. *)
Definition complete (r : value) : Prop :=
  exists d,
    r = VDict d /\
    forall key, In key ["platform"; "rank"; "title"; "podcast_id"; "date"] ->
                lookup key d <> None.

(** A database without faults. *)
Definition never_fails (sqlite : nat -> db_call -> call_outcome) : Prop :=
  forall now call, sqlite now call = Executed.

(** The row a record of a scraper is stored as. *)
Definition row_of (platform : string) (rank : Z) (title podcast_id : value)
    (today : string) (coerce : affinity -> value -> value) : Top100Lists.row :=
  {| Top100Lists.platform := VStr platform;
     Top100Lists.rank := VInt rank;
     Top100Lists.title := stored coerce TEXT title;
     Top100Lists.podcast_id := stored coerce TEXT podcast_id;
     Top100Lists.date := VStr today |}.

(** The key of a scraped record is in the table. *)
Definition has_key (coerce : affinity -> value -> value) (platform today : string)
    (t : list Top100Lists.row) (r : value) : Prop :=
  exists rank title podcast_id,
    r = chart_record platform rank title podcast_id today /\
    existsb (same_key (row_of platform rank title podcast_id today coerce)) t = true.

(** ** Sample library functions and replies *)

Definition lower_ascii (c : ascii) : ascii :=
  let n := nat_of_ascii c in
  if ((65 <=? n) && (n <=? 90))%nat then ascii_of_nat (n + 32) else c.

Fixpoint ascii_lower (s : string) : string :=
  match s with
  | EmptyString => EmptyString
  | String c rest => String (lower_ascii c) (ascii_lower rest)
  end.

(** The ratios of the specification's scenario: 1.0 for equal strings and
    0.3 otherwise. *)
Definition scenario_ratio (a b : string) : Q :=
  if (a =? b)%string then 1%Q else (3 # 10)%Q.

Definition braces_dumps (_ : value) : option string := Some "{}".

Definition no_coercion (_ : value) : option Z := None.

(** A standard output that encodes as UTF-8.  The strings of this file
    have 256 characters where those of Python have more: in the samples the
    character of code 255 stands for a lone surrogate, the one character
    such a [stdout] cannot encode. *)
Definition lone_surrogate : ascii := ascii_of_nat 255.

Fixpoint utf8_stdout (s : string) : bool :=
  match s with
  | EmptyString => true
  | String c rest => negb (Ascii.eqb c lone_surrogate) && utf8_stdout rest
  end.

(** A lone surrogate between two letters, as [json.loads] reads it from an
    escape. *)
Definition surrogate_text : string := String "a" (String lone_surrogate "b").

(** Python 3.12 and later, where a slice is hashable. *)
Definition python_3_12 : bool := true.

(** A start that fails at the [SELECT]: the chart table does not exist. *)
Definition no_chart_table : start_call * exn := (SelectTitles, SqliteError).

(** A start that fails at the [DROP]: the database is locked. *)
Definition locked_database : start_call * exn := (DropTable, SqliteError).

Definition always_commits (_ : nat) (_ : Podcasts.row) : db_outcome := Committed.

Definition fresh : state := {| clock := 0; table := [] |}.

Definition the_daily_candidate : list (string * value) :=
  [("id", VInt 1); ("title", VStr "The Daily");
   ("url", VStr "https://feeds.example/the-daily")].

Definition daily_wire_candidate : list (string * value) :=
  [("id", VInt 2); ("title", VStr "Daily Wire")].

(** A second result titled like the first: a tie for the best ratio. *)
Definition the_daily_mirror : list (string * value) :=
  [("id", VInt 3); ("title", VStr "The Daily")].

Definition tie_results : list value :=
  [VDict daily_wire_candidate; VDict the_daily_candidate; VDict the_daily_mirror].

Definition the_daily_feed : list (string * value) :=
  [("id", VInt 1); ("title", VStr "The Daily"); ("description", VStr "News");
   ("originalUrl", VStr "https://example.org/the-daily.xml");
   ("episodeCount", VInt 3)].

(** The episodes of the specification's scenario: durations 600, 0, 900. *)
Definition scenario_episodes : list (list (string * value)) :=
  [[("title", VStr "Monday"); ("duration", VInt 600)];
   [("title", VStr "Tuesday"); ("duration", VInt 0)];
   [("title", VStr "Wednesday"); ("duration", VInt 900)]].

(** A directory that knows The Daily: two search results, its feed (without
    a feed URL of its own) and three episodes. *)
Definition the_daily_net (_ : nat) (ep : endpoint) (_ : value) : http_outcome :=
  match ep with
  | SearchByTerm =>
      Responded false
        (Some (VDict [("feeds", VList [VDict the_daily_candidate;
                                        VDict daily_wire_candidate])]))
  | PodcastsByFeedId =>
      Responded false (Some (VDict [("feed", VDict the_daily_feed)]))
  | EpisodesByFeedId =>
      Responded false
        (Some (VDict [("items", VList (map VDict scenario_episodes))]))
  | _ => ConnectionFailed
  end.

(** A directory whose episode endpoint is down, which resolves every title
    to feed 1 and stamps the feed with the time of the request. *)
Definition episodes_down_net (now : nat) (ep : endpoint) (arg : value) : http_outcome :=
  match ep with
  | SearchByTerm =>
      Responded false
        (Some (VDict [("feeds", VList [VDict [("id", VInt 1); ("title", arg)]])]))
  | PodcastsByFeedId =>
      Responded false
        (Some (VDict [("feed", VDict [("id", VInt 1); ("title", VStr "The Daily");
                                      ("lastUpdateTime", VInt (Z.of_nat now))])]))
  | _ => ConnectionFailed
  end.

(** A directory whose feed payload carries no id. *)
Definition no_id_net (_ : nat) (ep : endpoint) (_ : value) : http_outcome :=
  match ep with
  | SearchByTerm =>
      Responded false (Some (VDict [("feeds", VList [VDict the_daily_candidate])]))
  | PodcastsByFeedId =>
      Responded false
        (Some (VDict [("feed", VDict [("title", VStr "The Daily")])]))
  | _ => ConnectionFailed
  end.


(** A directory whose episode endpoint answers the first request of a run
    only. *)
Definition episodes_once_net (now : nat) (ep : endpoint) (arg : value) : http_outcome :=
  match ep, now with
  | EpisodesByFeedId, S _ => ConnectionFailed
  | _, _ => the_daily_net now ep arg
  end.

(** A directory that finds The Daily and has no details of it. *)
Definition search_only_net (_ : nat) (ep : endpoint) (_ : value) : http_outcome :=
  match ep with
  | SearchByTerm =>
      Responded false (Some (VDict [("feeds", VList [VDict the_daily_candidate])]))
  | _ => ConnectionFailed
  end.

(** A directory whose search result has a title that holds a lone
    surrogate. *)
Definition surrogate_title_net (_ : nat) (ep : endpoint) (_ : value) : http_outcome :=
  match ep with
  | SearchByTerm =>
      Responded false
        (Some (VDict [("feeds", VList [VDict [("id", VInt 1);
                                              ("title", VStr surrogate_text)]])]))
  | _ => ConnectionFailed
  end.

(** A directory whose search result has an id that is a string and holds a
    lone surrogate. *)
Definition surrogate_id_net (_ : nat) (ep : endpoint) (_ : value) : http_outcome :=
  match ep with
  | SearchByTerm =>
      Responded false
        (Some (VDict [("feeds", VList [VDict [("id", VStr surrogate_text);
                                              ("title", VStr "The Daily")]])]))
  | _ => ConnectionFailed
  end.

(** A directory whose first episode has a title that holds a lone
    surrogate. *)
Definition surrogate_episode_net (now : nat) (ep : endpoint) (arg : value) : http_outcome :=
  match ep with
  | EpisodesByFeedId =>
      Responded false
        (Some (VDict [("items",
                       VList [VDict [("title", VStr surrogate_text);
                                     ("duration", VInt 600)]])]))
  | _ => the_daily_net now ep arg
  end.

(** A directory that is down. *)
Definition unreachable_net (_ : nat) (_ : endpoint) (_ : value) : http_outcome :=
  ConnectionFailed.

(** A directory whose lookup by id answers with a server error and whose
    lookup by URL knows the feed. *)
Definition by_url_only_net (_ : nat) (ep : endpoint) (_ : value) : http_outcome :=
  match ep with
  | SearchByTerm =>
      Responded false (Some (VDict [("feeds", VList [VDict the_daily_candidate])]))
  | PodcastsByFeedId => Responded true None
  | PodcastsByFeedUrl =>
      Responded false (Some (VDict [("feed", VDict the_daily_feed)]))
  | _ => ConnectionFailed
  end.

(** A directory whose only episode lasts [2^53 + 1] seconds. *)
Definition endless_episode_net (_ : nat) (ep : endpoint) (_ : value) : http_outcome :=
  match ep with
  | EpisodesByFeedId =>
      Responded false
        (Some (VDict [("items",
                       VList [VDict [("title", VStr "Forever");
                                     ("duration", VInt 9007199254740993)]])]))
  | _ => ConnectionFailed
  end.

(** The row the two titles of [episodes_down_net] are stored as, by the time
    stamped on the feed. *)
Definition stamped_row (stamp : Z) : Podcasts.row :=
  {| Podcasts.podcast_id := 1;
     Podcasts.title := VStr "The Daily";
     Podcasts.description := VNone;
     Podcasts.feed_url := VNone;
     Podcasts.image_url := VNone;
     Podcasts.episode_count := VNone;
     Podcasts.avg_duration_last_10 := VNone;
     Podcasts.latest_episode_title := VNone;
     Podcasts.last_update_time := VInt stamp;
     Podcasts.categories := VNone;
     Podcasts.podcast_guid := VNone;
     Podcasts.original_url := VNone |}.

(** The row The Daily is stored as by [the_daily_net]. *)
Definition the_daily_row : Podcasts.row :=
  {| Podcasts.podcast_id := 1;
     Podcasts.title := VStr "The Daily";
     Podcasts.description := VStr "News";
     Podcasts.feed_url := VStr "https://feeds.example/the-daily";
     Podcasts.image_url := VNone;
     Podcasts.episode_count := VInt 3;
     Podcasts.avg_duration_last_10 := VInt 750;
     Podcasts.latest_episode_title := VStr "Monday";
     Podcasts.last_update_time := VNone;
     Podcasts.categories := VNone;
     Podcasts.podcast_guid := VNone;
     Podcasts.original_url := VStr "https://example.org/the-daily.xml" |}.

(** A database that refuses every write. *)
Definition always_refuses (_ : nat) (_ : Podcasts.row) : db_outcome :=
  DbRaises SqliteError.

(** A directory whose only search result carries a number where its feed
    URL should be, and no id. *)
Definition numeric_url_net (_ : nat) (ep : endpoint) (_ : value) : http_outcome :=
  match ep with
  | SearchByTerm =>
      Responded false
        (Some (VDict [("feeds", VList [VDict [("title", VStr "The Daily");
                                              ("url", VInt 5)]])]))
  | _ => ConnectionFailed
  end.

(** A directory whose feed payload is a list. *)
Definition list_payload_net (_ : nat) (ep : endpoint) (_ : value) : http_outcome :=
  match ep with
  | SearchByTerm =>
      Responded false (Some (VDict [("feeds", VList [VDict the_daily_candidate])]))
  | PodcastsByFeedId => Responded false (Some (VDict [("feed", VList [VInt 1])]))
  | _ => ConnectionFailed
  end.

(** A directory whose search reply holds an exact match and, behind it, a
    number. *)
Definition noisy_results : list value := [VDict the_daily_candidate; VInt 7].

Definition noisy_net (_ : nat) (ep : endpoint) (_ : value) : http_outcome :=
  match ep with
  | SearchByTerm | SearchByTitle =>
      Responded false (Some (VDict [("feeds", VList noisy_results)]))
  | _ => ConnectionFailed
  end.

(** A day, a SQLite that stores every value as it is bound, and a database
    without faults. *)
Definition a_day : string := "2024-05-01".

Definition as_bound (_ : affinity) (v : value) : value := v.

Definition faultless (_ : nat) (_ : db_call) : call_outcome := Executed.

(** A Spotify chart of three items: a show, something that is no object,
    a show without a URI. *)
Definition spotify_chart : list value :=
  [VDict [("showUri", VStr "spotify:show:3IM0lmZxpFAY7CwMuv9H4g");
          ("showName", VStr "The Daily")];
   VStr "advertisement";
   VDict [("showName", VStr "Up First")]].

Definition spotify_reply : http_outcome :=
  Responded false (Some (VList spotify_chart)).

(** An Apple chart of two shows. *)
Definition apple_chart : list value :=
  [VDict [("name", VStr "The Daily"); ("id", VStr "1200361736")];
   VDict [("name", VStr "Up First"); ("id", VStr "1222114325")]].

Definition apple_reply : http_outcome :=
  Responded false
    (Some (VDict [("feed", VDict [("title", VStr "Top Shows");
                                  ("results", VList apple_chart)])])).

(** Two records as a caller might hand them to a save: the first without
    its platform, the second as a scraper builds it. *)
Definition headless_batch : list value :=
  [VDict [("rank", VInt 1); ("title", VStr "The Daily"); ("podcast_id", VNone);
          ("date", VStr a_day)];
   chart_record "Apple" 2 (VStr "Up First") (VStr "1222114325") a_day].

(** ** The script *)

Section Script.

(** Library functions the script calls: [str.lower],
    [difflib.SequenceMatcher(None, a, b).ratio()] (a finite double, taken
    as the rational it denotes) and [json.dumps] ([None] when it raises
    [TypeError]). *)
Variable lower : string -> string.
Variable ratio : string -> string -> Q.
Variable json_dumps : value -> option string.

(** Whether [print] can write a string: whether the encoding of [stdout]
    has all its characters.  The script is taken to run with a [stdout] that
    encodes what SQLite stores, as the UTF-8 [stdout] of Python does: there
    the only text that cannot be written is one that holds a lone surrogate,
    which [json.loads] builds from an escape of a reply and which SQLite,
    decoding its text strictly, never returns.  So a string of a reply need
    not be printable, while the titles the run reads from [Top100Lists]
    are. *)
Variable printable : string -> bool.

(** Whether the interpreter can hash a slice, as Python does from 3.12
    on. *)
Variable hashable_slices : bool.

(** SQLite's conversion of a bound [podcast_id] that is no Python integer
    (numeric text, an integral real) to a key; [None] when the statement
    fails with [sqlite3.Error] (datatype mismatch, unsupported type). *)
Variable coerce_rowid : value -> option Z.

(** The replies of the directory API and of the database, by the number of
    outside calls made so far. *)
Variable net : nat -> endpoint -> value -> http_outcome.
Variable db : nat -> Podcasts.row -> db_outcome.

(** When a run reads no titles, one of the calls it starts with has raised:
    which one, and what. *)
Variable start_fault : start_call * exn.

(** *** print and the slice of a URL *)

(** What an f-string puts in the place of [{v}]: a [str] as it is; a
    number, [None], a list or a dict through [str()], which writes the
    strings inside a list or a dict as [repr] does, with an escape for what
    cannot be printed. *)
Definition prints (v : value) : bool :=
  match v with
  | VStr s => printable s
  | _ => true
  end.

(** [print(f"...")] of a text that formats the values [vs].  The prints
    embedded are those that format a string of a reply for the first time;
    the others format the title being processed, numbers of the script, a
    whole dict, the raw text of a response, an exception, or a value that
    an earlier print has written already, and cannot fail. *)
Definition py_print (vs : list value) : result unit :=
  if forallb prints vs then Ok tt else Raise UnicodeEncodeError.

(** [obj[:50]]: strings and lists can be sliced; a dict takes the slice
    for a key, which it cannot hold ([KeyError]) when slices can be hashed
    and rejects as unhashable ([TypeError]) when they cannot; the other
    values are not subscriptable. *)
Definition py_slice (obj : value) : result value :=
  match obj with
  | VStr s => Ok (VStr (substring 0 50 s))
  | VList l => Ok (VList (firstn 50 l))
  | VDict _ => Raise (if hashable_slices then KeyError else TypeError)
  | _ => Raise TypeError
  end.

(** *** requests *)

Record response : Type := {
  error_status : bool;
  json_body : option value
}.

Definition requests_get (ep : endpoint) (arg : value) : M response :=
  fun s =>
    let s' := {| clock := S (clock s); table := table s |} in
    match net (clock s) ep arg with
    | ConnectionFailed =>
        {| res := Raise RequestException; log := [Request ep arg]; final := s' |}
    | Responded err body =>
        {| res := Ok {| error_status := err; json_body := body |};
           log := [Request ep arg]; final := s' |}
    end.

Definition raise_for_status (r : response) : result unit :=
  if error_status r then Raise HTTPError else Ok tt.

Definition response_json (r : response) : result value :=
  match json_body r with
  | Some v => Ok v
  | None => Raise JSONDecodeError
  end.

(** The three lines every fetching function starts its [try] with. *)
Definition get_json (ep : endpoint) (arg : value) : M value :=
  response <- requests_get ep arg ;;
  _ <- lift (raise_for_status response) ;;
  lift (response_json response).

(** *** Search functions *)

(** [x.lower()]: a [str] method. *)
Definition py_lower (x : value) : result string :=
  match x with
  | VStr s => Ok (lower s)
  | _ => Raise AttributeError
  end.

(** [res.get("title_original", "") or res.get("title", "")] *)
Definition byterm_title (res : value) : result value :=
  t <~ dict_get res "title_original" (VStr "") ;;
  py_or t (dict_get res "title" (VStr "")).

(** [feed.get("title", "")] *)
Definition bytitle_title (feed : value) : result value :=
  dict_get feed "title" (VStr "").

(** The title of [res] and its ratio against the query; [None] when the loop
    body [continue]s on an empty title. *)
Definition candidate_ratio (title_of : value -> result value) (query res : value)
    : result (option Q) :=
  candidate_title <~ title_of res ;;
  if negb (truthy candidate_title) then Ok None
  else
    q <~ py_lower query ;;
    c <~ py_lower candidate_title ;;
    Ok (Some (ratio q c)).

(** One pass of the loop body over [res], from [(best_match, best_ratio)]. *)
Definition match_step (title_of : value -> result value) (query : value)
    (best : value * Q) (res : value) : result (value * Q) :=
  r <~ candidate_ratio title_of query res ;;
  match r with
  | None => Ok best
  | Some r => if Qlt_bool (snd best) r then Ok (res, r) else Ok best
  end.

Fixpoint match_loop (title_of : value -> result value) (query : value)
    (results : list value) (best : value * Q) : result (value * Q) :=
  match results with
  | [] => Ok best
  | res :: rest =>
      best' <~ match_step title_of query best res ;;
      match_loop title_of query rest best'
  end.

(** [best_match.get('title') if best_match else 'None'], which the [print]
    after the loop formats; the text ['None'] is what [None] is formatted
    as. *)
Definition shown_match (best_match : value) : result value :=
  if truthy best_match then dict_get best_match "title" VNone else Ok VNone.

(** The body of [if results:] : the loop from [best_match = None],
    [best_ratio = 0], the [print] of the best ratio and of the title of the
    best match, then the acceptance test; [VNone] is Python's [None]. *)
Definition best_match_of (title_of : value -> result value) (query results : value)
    : result value :=
  items <~ py_iter results ;;
  best <~ match_loop title_of query items (VNone, 0%Q) ;;
  shown <~ shown_match (fst best) ;;
  _ <~ py_print [shown] ;;
  if truthy (fst best) && Qle_bool threshold (snd best) then Ok (fst best)
  else Ok VNone.

(** [data.get("feeds") or data.get("results", [])] *)
Definition byterm_results (data : value) : result value :=
  feeds <~ dict_get data "feeds" VNone ;;
  py_or feeds (dict_get data "results" (VList [])).

(** [data.get("feeds", [])] *)
Definition bytitle_results (data : value) : result value :=
  dict_get data "feeds" (VList []).

Definition search_byterm (query : value) : M value :=
  try_except any_exception
    (data <- get_json SearchByTerm query ;;
     results <- lift (byterm_results data) ;;
     if truthy results then lift (best_match_of byterm_title query results)
     else ret VNone)
    (ret VNone).

Definition search_bytitle (query : value) : M value :=
  try_except any_exception
    (data <- get_json SearchByTitle query ;;
     feeds <- lift (bytitle_results data) ;;
     if truthy feeds then lift (best_match_of bytitle_title query feeds)
     else ret VNone)
    (ret VNone).

(** The [print] under [if result:] formats the id and the title of the
    candidate found. *)
Definition search_podcast_combined (query : value) : M value :=
  result <- search_byterm query ;;
  result <- (if negb (truthy result) then search_bytitle query else ret result) ;;
  if truthy result then
    id <- lift (dict_get result "id" VNone) ;;
    title <- lift (dict_get result "title" VNone) ;;
    _ <- lift (py_print [id; title]) ;;
    ret result
  else ret VNone.

(** *** Detail fetching functions *)

(** The first [print] formats [feed_id] before the [try] is entered. *)
Definition get_full_podcast_details_by_feed_id (feed_id : value) : M value :=
  _ <- lift (py_print [feed_id]) ;;
  try_except any_exception
    (data <- get_json PodcastsByFeedId feed_id ;;
     feed <- lift (dict_get data "feed" VNone) ;;
     if truthy feed then ret feed else ret VNone)
    (ret VNone).

(** The first [print] slices [feed_url] and formats the slice before the
    [try] is entered. *)
Definition get_full_podcast_details_by_feed_url (feed_url : value) : M value :=
  shown <- lift (py_slice feed_url) ;;
  _ <- lift (py_print [shown]) ;;
  try_except any_exception
    (data <- get_json PodcastsByFeedUrl feed_url ;;
     feed <- lift (dict_get data "feed" VNone) ;;
     if truthy feed then ret feed else ret VNone)
    (ret VNone).

(** One pass of the duration loop, from [(total_duration,
    valid_episode_count)]. *)
Definition duration_step (acc : Z * Z) (episode : value) : result (Z * Z) :=
  duration <~ dict_get episode "duration" VNone ;;
  match as_int duration with
  | Some d =>
      if truthy duration && (0 <? d) then Ok (fst acc + d, snd acc + 1)
      else Ok acc
  | None => Ok acc
  end.

Fixpoint duration_loop (items : list value) (acc : Z * Z) : result (Z * Z) :=
  match items with
  | [] => Ok acc
  | episode :: rest =>
      acc' <~ duration_step acc episode ;;
      duration_loop rest acc'
  end.

(** Returns [(average_duration, latest_episode_title)].  The first
    [print] formats [feed_id] before the [try] is entered; inside it, the
    title of the latest episode is printed once it is read. *)
Definition get_latest_episode_info (feed_id : value) : M (value * value) :=
  _ <- lift (py_print [feed_id]) ;;
  try_except any_exception
    (data <- get_json EpisodesByFeedId feed_id ;;
     items <- lift (dict_get data "items" (VList [])) ;;
     if negb (truthy items) then ret (VNone, VNone)
     else
       first <- lift (py_first items) ;;
       latest_episode_title <- lift (dict_get first "title" VNone) ;;
       _ <- lift (py_print [latest_episode_title]) ;;
       episodes <- lift (py_iter items) ;;
       totals <- lift (duration_loop episodes (0, 0)) ;;
       if 0 <? snd totals then
         average_duration <- lift (int_truediv (fst totals) (snd totals)) ;;
         ret (VInt average_duration, latest_episode_title)
       else ret (VNone, latest_episode_title))
    (ret (VNone, VNone)).

(** *** Main database update function *)

(** The key SQLite stores a bound [podcast_id] under. *)
Definition rowid (feed_id : value) : option Z :=
  match as_int feed_id with
  | Some k => Some k
  | None => coerce_rowid feed_id
  end.

(** [cursor.execute(INSERT OR REPLACE ...)] and [conn.commit()] for an
    assembled row. *)
Definition insert_or_replace (r : Podcasts.row) : M unit :=
  fun s =>
    match db (clock s) r with
    | Committed =>
        {| res := Ok tt; log := [Upsert r];
           final := {| clock := S (clock s); table := upsert r (table s) |} |}
    | DbRaises e =>
        {| res := Raise e; log := [];
           final := {| clock := S (clock s); table := table s |} |}
    end.

(** Categories to JSON. *)
Definition categories_to_json (categories_dict : value) : value :=
  match categories_dict with
  | VDict (_ :: _) =>
      match json_dumps categories_dict with
      | Some text => VStr text
      | None => VStr "{}"
      end
  | VStr text => VStr text
  | _ => VNone
  end.

(** Step 3 of the loop body, entered under [if full_details:].  The
    [print] that announces the insert stands before [if feed_id:], outside
    the [try] of the insert. *)
Definition process_details (candidate full_details : value) : M unit :=
  feed_id <- lift (dict_get full_details "id" VNone) ;;
  podcast_title <- lift (dict_get full_details "title" VNone) ;;
  description <- lift (dict_get full_details "description" VNone) ;;
  feed_url <- lift (dict_get full_details "url" VNone) ;;
  original_url <- lift (dict_get full_details "originalUrl" VNone) ;;
  image <- lift (dict_get full_details "image" VNone) ;;
  image_url <- lift (py_or image (dict_get full_details "artwork" VNone)) ;;
  episode_count <- lift (dict_get full_details "episodeCount" VNone) ;;
  last_update_time <- lift (dict_get full_details "lastUpdateTime" VNone) ;;
  categories_dict <- lift (dict_get full_details "categories" VNone) ;;
  podcast_guid <- lift (dict_get full_details "podcastGuid" VNone) ;;
  info <- (if truthy feed_id then get_latest_episode_info feed_id
           else ret (VNone, VNone)) ;;
  feed_url <- lift (py_or feed_url (dict_get candidate "url" VNone)) ;;
  original_url <- lift (py_or original_url (dict_get candidate "originalUrl" VNone)) ;;
  let categories_json := categories_to_json categories_dict in
  _ <- lift (py_print [feed_id; podcast_title; episode_count; fst info; snd info]) ;;
  if truthy feed_id then
    try_except sqlite_error
      match rowid feed_id with
      | Some key =>
          insert_or_replace
            {| Podcasts.podcast_id := key;
               Podcasts.title := podcast_title;
               Podcasts.description := description;
               Podcasts.feed_url := feed_url;
               Podcasts.image_url := image_url;
               Podcasts.episode_count := episode_count;
               Podcasts.avg_duration_last_10 := fst info;
               Podcasts.latest_episode_title := snd info;
               Podcasts.last_update_time := last_update_time;
               Podcasts.categories := categories_json;
               Podcasts.podcast_guid := podcast_guid;
               Podcasts.original_url := original_url |}
      | None => raise SqliteError
      end
      (ret tt)
  else ret tt.

(** Step 2 of the loop body: details by feed id, else by feed URL. *)
Definition get_full_details (candidate : value) : M value :=
  candidate_feed_id <- lift (dict_get candidate "id" VNone) ;;
  full_details <- (if truthy candidate_feed_id
                   then get_full_podcast_details_by_feed_id candidate_feed_id
                   else ret VNone) ;;
  if negb (truthy full_details) then
    url <- lift (dict_get candidate "url" VNone) ;;
    feed_url_from_candidate <- lift (py_or url (dict_get candidate "originalUrl" VNone)) ;;
    if truthy feed_url_from_candidate
    then get_full_podcast_details_by_feed_url feed_url_from_candidate
    else ret full_details
  else ret full_details.

(** The body of [for title in titles]. *)
Definition process_title (title : value) : M unit :=
  candidate <- search_podcast_combined title ;;
  if negb (truthy candidate) then time_sleep 1
  else
    full_details <- get_full_details candidate ;;
    (if truthy full_details then process_details candidate full_details
     else ret tt) ;;;
    time_sleep (3 # 2).

Fixpoint for_each (titles : list value) (body : value -> M unit) : M unit :=
  match titles with
  | [] => ret tt
  | title :: rest => body title ;;; for_each rest body
  end.

(** The five calls a run starts with.  [titles] is what the last of them,
    the [SELECT], returns when all five succeed; it is [None] when one of
    them raises, and [start_fault] then tells which one and what.  A
    statement that drops or creates a table runs outside any transaction
    and takes effect at once: a start that gets past the [DROP] leaves no
    row of the old table, one that stops at [sqlite3.connect] or at the
    [DROP] leaves the table as it was. *)
Definition start_of_run (titles : option (list value)) : M (list value) :=
  fun s =>
    let emptied := {| clock := clock s; table := [] |} in
    match titles with
    | Some titles => {| res := Ok titles; log := []; final := emptied |}
    | None =>
        match fst start_fault with
        | SqliteConnect | DropTable =>
            {| res := Raise (snd start_fault); log := []; final := s |}
        | CreateTable | FirstCommit | SelectTitles =>
            {| res := Raise (snd start_fault); log := []; final := emptied |}
        end
    end.

(** The run: its start, then the loop, inside [try: ... except
    sqlite3.Error], whose handler prints and lets the function end; the
    [sqlite3.OperationalError] that the [try] around the [SELECT] catches to
    [return] is a [sqlite3.Error] as well. *)
Definition update_all_podcast_details (titles : option (list value)) : M unit :=
  try_except sqlite_error
    (titles <- start_of_run titles ;;
     for_each titles process_title)
    (ret tt).

(** ** What the proofs speak of *)

Definition tick (s : state) : state :=
  {| clock := S (clock s); table := table s |}.

(** A reply on which the three fetching lines raise. *)
Definition error_reply (o : http_outcome) : bool :=
  match o with
  | Responded false (Some _) => false
  | _ => true
  end.

(** Both strategies have one shape; they differ in the endpoint, in where
    the result list sits in the reply and in the title they compare. *)
Definition search_with (ep : endpoint) (results_of : value -> result value)
    (title_of : value -> result value) (query : value) : M value :=
  try_except any_exception
    (data <- get_json ep query ;;
     results <- lift (results_of data) ;;
     if truthy results then lift (best_match_of title_of query results)
     else ret VNone)
    (ret VNone).

(** What the combined search does with what its strategies found: the
    [print] of the candidate's id and title, then the candidate; [None] for
    no candidate. *)
Definition announced (found : value) : result value :=
  if truthy found then
    id <~ dict_get found "id" VNone ;;
    title <~ dict_get found "title" VNone ;;
    _ <~ py_print [id; title] ;;
    Ok found
  else Ok VNone.



(** Whether the start of a run got past its [DROP TABLE]. *)
Definition dropped (titles : option (list value)) : bool :=
  match titles with
  | Some _ => true
  | None =>
      match fst start_fault with
      | SqliteConnect | DropTable => false
      | CreateTable | FirstCommit | SelectTitles => true
      end
  end.

(** The [print] of step 3 that announces the insert, for details [d] and
    the episode statistics [info]. *)
Definition insert_announced (d : list (string * value)) (info : value * value)
    : result unit :=
  py_print [get_or_none d "id"; get_or_none d "title"; get_or_none d "episodeCount";
            fst info; snd info].

(** The [try] block of [get_latest_episode_info]. *)
Definition episodes_try (feed_id : value) : M (value * value) :=
  try_except any_exception
    (data <- get_json EpisodesByFeedId feed_id ;;
     items <- lift (dict_get data "items" (VList [])) ;;
     if negb (truthy items) then ret (VNone, VNone)
     else
       first <- lift (py_first items) ;;
       latest_episode_title <- lift (dict_get first "title" VNone) ;;
       _ <- lift (py_print [latest_episode_title]) ;;
       episodes <- lift (py_iter items) ;;
       totals <- lift (duration_loop episodes (0, 0)) ;;
       if 0 <? snd totals then
         average_duration <- lift (int_truediv (fst totals) (snd totals)) ;;
         ret (VInt average_duration, latest_episode_title)
       else ret (VNone, latest_episode_title))
    (ret (VNone, VNone)).

(** What that [try] computes from a decoded reply. *)
Definition statistics_of (data : value) : result (value * value) :=
  items <~ dict_get data "items" (VList []) ;;
  if negb (truthy items) then Ok (VNone, VNone)
  else
    first <~ py_first items ;;
    latest_episode_title <~ dict_get first "title" VNone ;;
    _ <~ py_print [latest_episode_title] ;;
    episodes <~ py_iter items ;;
    totals <~ duration_loop episodes (0, 0) ;;
    if 0 <? snd totals then
      average_duration <~ int_truediv (fst totals) (snd totals) ;;
      Ok (VInt average_duration, latest_episode_title)
    else Ok (VNone, latest_episode_title).

(** The first statement of the fetch by URL: the slice of the URL, and its
    print. *)
Definition first_print_of_url (feed_url : value) : result unit :=
  shown <~ py_slice feed_url ;;
  py_print [shown].

(** The [try] block shared by the two detail functions. *)
Definition fetch_feed (ep : endpoint) (arg : value) : M value :=
  try_except any_exception
    (data <- get_json ep arg ;;
     feed <- lift (dict_get data "feed" VNone) ;;
     if truthy feed then ret feed else ret VNone)
    (ret VNone).

Definition effect_free {A} (m : M A) : Prop :=
  forall s, log (m s) = [] /\ final (m s) = s.

(** A relation between a start state, the events emitted and the end state
    is respected by a computation that relates every start state to its log
    and its end state. *)
Definition respects (I : state -> list event -> state -> Prop) {A} (m : M A) : Prop :=
  forall s, I s (log (m s)) (final (m s)).

(** Two invariants: every event of the log is of a given kind, and the
    table is what replaying the log makes of the table at the start. *)
Definition only (P : event -> Prop) : state -> list event -> state -> Prop :=
  fun _ l _ => Forall P l.

Definition tracks : state -> list event -> state -> Prop :=
  fun s l s' => table s' = replay l (table s).

Definition search_request (ev : event) : Prop :=
  exists arg, ev = Request SearchByTerm arg \/ ev = Request SearchByTitle arg.

Definition detail_request (ev : event) : Prop :=
  exists arg, ev = Request PodcastsByFeedId arg \/ ev = Request PodcastsByFeedUrl arg.


(** The row step 3 binds for a candidate [c], details [d], the key of the
    details' id and the episode statistics. *)
Definition details_row (c d : list (string * value)) (key : Z) (info : value * value)
    : Podcasts.row :=
  {| Podcasts.podcast_id := key;
     Podcasts.title := get_or_none d "title";
     Podcasts.description := get_or_none d "description";
     Podcasts.feed_url := either (get_or_none d "url") (get_or_none c "url");
     Podcasts.image_url := either (get_or_none d "image") (get_or_none d "artwork");
     Podcasts.episode_count := get_or_none d "episodeCount";
     Podcasts.avg_duration_last_10 := fst info;
     Podcasts.latest_episode_title := snd info;
     Podcasts.last_update_time := get_or_none d "lastUpdateTime";
     Podcasts.categories := categories_to_json (get_or_none d "categories");
     Podcasts.podcast_guid := get_or_none d "podcastGuid";
     Podcasts.original_url :=
       either (get_or_none d "originalUrl") (get_or_none c "originalUrl") |}.

(** The endpoints a log sends requests to, the seconds it sleeps and the
    rows it upserts, each in the order of the log. *)
Definition endpoints_of (l : list event) : list endpoint :=
  flat_map (fun ev => match ev with
                      | Request ep _ => [ep]
                      | _ => []
                      end) l.

Definition sleeps_of (l : list event) : list Q :=
  flat_map (fun ev => match ev with
                      | Sleep seconds => [seconds]
                      | _ => []
                      end) l.

Definition upserts_of (l : list event) : list Podcasts.row :=
  flat_map (fun ev => match ev with
                      | Upsert r => [r]
                      | _ => []
                      end) l.


(** The URL step 2 falls back to: [candidate.get("url") or
    candidate.get("originalUrl")]. *)
Definition fallback_url (c : list (string * value)) : value :=
  either (get_or_none c "url") (get_or_none c "originalUrl").

(** ** The claims that fail, as they are stated *)

(** C1 as stated: whichever stage fails to produce a usable result
    (candidate resolution returning nothing, the detail fetch returning
    nothing, the episode statistics coming back as [(None, None)]), no row is
    written for the title. *)
Definition failed_stage_writes_no_row : Prop :=
  forall title s,
    let o1 := search_podcast_combined title s in
    let o2 c := get_full_details c (final o1) in
    ((exists c, res o1 = Ok c /\ truthy c = false)
     \/ (exists c d,
           res o1 = Ok c /\ truthy c = true /\
           res (o2 c) = Ok d /\ truthy d = false)
     \/ (exists c d,
           res o1 = Ok c /\ truthy c = true /\
           res (o2 c) = Ok (VDict d) /\ truthy (VDict d) = true /\
           res (get_latest_episode_info (get_or_none d "id") (final (o2 c)))
             = Ok (VNone, VNone))) ->
    forall r, ~ In (Upsert r) (log (process_title title s)).


(** C7 as stated: whatever their argument and whatever the directory
    replies, the search functions and the detail-fetch functions return and
    do not raise. *)
Definition fetchers_never_raise : Prop :=
  forall (query feed_id feed_url : value) (s : state),
    (exists v, res (search_byterm query s) = Ok v) /\
    (exists v, res (search_bytitle query s) = Ok v) /\
    (exists v, res (search_podcast_combined query s) = Ok v) /\
    (exists v, res (get_full_podcast_details_by_feed_id feed_id s) = Ok v) /\
    (exists v, res (get_full_podcast_details_by_feed_url feed_url s) = Ok v).

(** C8 as stated: a pass ends with the sleep of 1.5 seconds of a fully
    processed title (searched, its details fetched, its statistics computed,
    its row written) or with the sleep of 1 second of a title whose search
    failed, and with no other. *)
Definition pacing_as_stated : Prop :=
  forall title s,
    res (process_title title s) = Ok tt ->
    (sleeps_of (log (process_title title s)) = [3 # 2] /\
     exists r, In (Upsert r) (log (process_title title s))) \/
    (sleeps_of (log (process_title title s)) = [1%Q] /\
     res (search_podcast_combined title s) = Ok VNone).

(** C10 as stated: the columns other than the two URLs come from the
    fetched detail alone, so two rows stored for the same candidate and the
    same detail agree on them, whenever they are stored. *)
Definition other_columns_from_detail_only : Prop :=
  forall c d s s' r r',
    In (Upsert r) (log (process_details (VDict c) (VDict d) s)) ->
    In (Upsert r') (log (process_details (VDict c) (VDict d) s')) ->
    Podcasts.podcast_id r = Podcasts.podcast_id r' /\
    Podcasts.title r = Podcasts.title r' /\
    Podcasts.description r = Podcasts.description r' /\
    Podcasts.image_url r = Podcasts.image_url r' /\
    Podcasts.episode_count r = Podcasts.episode_count r' /\
    Podcasts.avg_duration_last_10 r = Podcasts.avg_duration_last_10 r' /\
    Podcasts.latest_episode_title r = Podcasts.latest_episode_title r' /\
    Podcasts.last_update_time r = Podcasts.last_update_time r' /\
    Podcasts.categories r = Podcasts.categories r' /\
    Podcasts.podcast_guid r = Podcasts.podcast_guid r'.

(** * Verification *)

(** ** Rational comparisons *)

Lemma Qlt_bool_iff (x y : Q) : Qlt_bool x y = true <-> (x < y)%Q.
Proof.
  unfold Qlt_bool. rewrite negb_true_iff. split.
  - intros H. apply Qnot_le_lt. intros Hle.
    apply Qle_bool_iff in Hle. congruence.
  - intros H. destruct (Qle_bool y x) eqn:E; [|reflexivity].
    apply Qle_bool_iff in E. exfalso. exact (Qlt_not_le _ _ H E).
Qed.

Lemma Qlt_bool_false (x y : Q) : Qlt_bool x y = false -> (y <= x)%Q.
Proof.
  unfold Qlt_bool. rewrite negb_false_iff. apply Qle_bool_iff.
Qed.

(** The double that the literal [0.4] denotes is not below two fifths. *)
Lemma threshold_above_two_fifths : (4 # 10 <= threshold)%Q.
Proof. unfold threshold, Qle. simpl. lia. Qed.

(** ** How the monad runs *)

Lemma run_bind {A B} (m : M A) (f : A -> M B) (s : state) :
  bind m f s =
  match res (m s) with
  | Ok a =>
      {| res := res (f a (final (m s)));
         log := log (m s) ++ log (f a (final (m s)));
         final := final (f a (final (m s))) |}
  | Raise e => {| res := Raise e; log := log (m s); final := final (m s) |}
  end.
Proof. reflexivity. Qed.

Lemma bind_ok {A B} (m : M A) (f : A -> M B) (s : state) (a : A) :
  res (m s) = Ok a ->
  res (bind m f s) = res (f a (final (m s))) /\
  log (bind m f s) = log (m s) ++ log (f a (final (m s))) /\
  final (bind m f s) = final (f a (final (m s))).
Proof. intros H. rewrite run_bind, H. auto. Qed.

Lemma bind_raise {A B} (m : M A) (f : A -> M B) (s : state) (e : exn) :
  res (m s) = Raise e ->
  res (bind m f s) = Raise e /\
  log (bind m f s) = log (m s) /\
  final (bind m f s) = final (m s).
Proof. intros H. rewrite run_bind, H. auto. Qed.

Lemma lift_run {A} (r : result A) (s : state) :
  res (lift r s) = r /\ log (lift r s) = [] /\ final (lift r s) = s.
Proof. destruct r; auto. Qed.

Lemma outcome_eta {A} (o : outcome A) :
  {| res := res o; log := log o; final := final o |} = o.
Proof. destruct o. reflexivity. Qed.

Lemma bind_lift_ok {A B} (r : result A) (a : A) (f : A -> M B) (s : state) :
  r = Ok a -> bind (lift r) f s = f a s.
Proof. intros ->. unfold bind. simpl. apply outcome_eta. Qed.

Lemma bind_ret {A B} (a : A) (f : A -> M B) (s : state) :
  bind (ret a) f s = f a s.
Proof. unfold bind. simpl. apply outcome_eta. Qed.

Lemma bind_ret_lift {A B} (a : A) (f : A -> M B) (s : state) :
  bind (lift (Ok a)) f s = f a s.
Proof. apply bind_ret. Qed.

Lemma bind_lift_raise {A B} (r : result A) (e : exn) (f : A -> M B) (s : state) :
  r = Raise e -> bind (lift r) f s = {| res := Raise e; log := []; final := s |}.
Proof. intros ->. reflexivity. Qed.

(** A [try] whose handlers cover [Exception] and only fall through to
    [return default] never lets an exception out. *)
Lemma try_any_returns {A} (body : M A) (default : A) (s : state) :
  exists a, res (try_except any_exception body (ret default) s) = Ok a.
Proof.
  unfold try_except. destruct (res (body s)) eqn:E; simpl.
  - rewrite E. eauto.
  - eauto.
Qed.

Lemma try_any_inv {A} (body : M A) (default : A) (s : state) (a : A) :
  res (try_except any_exception body (ret default) s) = Ok a ->
  a = default \/ res (body s) = Ok a.
Proof.
  unfold try_except. destruct (res (body s)) eqn:E; simpl.
  - rewrite E. auto.
  - intros H. injection H as <-. auto.
Qed.

Lemma try_any_raise {A} (body : M A) (default : A) (s : state) (e : exn) :
  res (body s) = Raise e ->
  res (try_except any_exception body (ret default) s) = Ok default.
Proof. intros H. unfold try_except. rewrite H. reflexivity. Qed.

Lemma try_any_log {A} (body : M A) (default : A) (s : state) :
  log (try_except any_exception body (ret default) s) = log (body s) /\
  final (try_except any_exception body (ret default) s) = final (body s).
Proof.
  unfold try_except. destruct (res (body s)); simpl; auto using app_nil_r.
Qed.

(** ** The fuzzy-match loop *)

Lemma match_step_inv title_of query best res best' :
  match_step title_of query best res = Ok best' ->
  exists o, candidate_ratio title_of query res = Ok o /\
    match o with
    | None => best' = best
    | Some r =>
        ((snd best < r)%Q /\ best' = (res, r)) \/
        ((r <= snd best)%Q /\ best' = best)
    end.
Proof.
  unfold match_step.
  destruct (candidate_ratio title_of query res) as [[r|]|e]; simpl; try discriminate.
  - destruct (Qlt_bool (snd best) r) eqn:E; intros H; injection H as <-;
      exists (Some r); split; auto.
    + left. split; [now apply Qlt_bool_iff | reflexivity].
    + right. split; [now apply Qlt_bool_false | reflexivity].
  - intros H. injection H as <-. exists None. auto.
Qed.

(** What the loop leaves in [(best_match, best_ratio)]: either the pair it
    started from, no candidate having beaten it, or a candidate of the list
    with its own ratio, above the starting ratio, strictly above every
    candidate before it and not below any candidate after it. *)
Lemma match_loop_inv title_of query items :
  forall best best',
    match_loop title_of query items best = Ok best' ->
    (best' = best /\
     forall x r, In x items ->
       candidate_ratio title_of query x = Ok (Some r) -> (r <= snd best)%Q)
    \/
    (exists pre post,
       items = pre ++ fst best' :: post /\
       candidate_ratio title_of query (fst best') = Ok (Some (snd best')) /\
       (snd best < snd best')%Q /\
       (forall x r, In x pre ->
          candidate_ratio title_of query x = Ok (Some r) -> (r < snd best')%Q) /\
       (forall x r, In x post ->
          candidate_ratio title_of query x = Ok (Some r) -> (r <= snd best')%Q)).
Proof.
  induction items as [|x rest IH]; intros best best' H; simpl in H.
  - injection H as <-. left. split; [reflexivity|]. intros ? ? [].
  - destruct (match_step title_of query best x) as [best1|e] eqn:E1;
      simpl in H; [|discriminate].
    apply match_step_inv in E1 as (o & Ho & Hcase).
    destruct (IH _ _ H) as [[-> Hrest] | (pre & post & Hsplit & Hown & Hgt & Hpre & Hpost)].
    + (* nothing after [x] beat [best1] *)
      destruct o as [r|].
      * destruct Hcase as [[Hlt ->] | [Hle ->]].
        -- right. exists [], rest. simpl. repeat split; auto.
           intros ? ? [].
        -- left. split; [reflexivity|].
           intros y r' [<- | Hin] Hy; [|eauto].
           rewrite Ho in Hy. injection Hy as <-. exact Hle.
      * subst best1. left. split; [reflexivity|].
        intros y r' [<- | Hin] Hy; [|eauto]. congruence.
    + (* a later candidate beat [best1] *)
      right. exists (x :: pre), post. simpl. rewrite Hsplit.
      split; [reflexivity|]. split; [exact Hown|].
      assert (Hbest : (snd best <= snd best1)%Q).
      { destruct o as [r|].
        - destruct Hcase as [[Hlt ->] | [Hle ->]]; simpl.
          + now apply Qlt_le_weak.
          + apply Qle_refl.
        - subst best1. apply Qle_refl. }
      split; [eapply Qle_lt_trans; eassumption|].
      split; [|exact Hpost].
      intros y r' [<- | Hin] Hy; [|eauto].
      rewrite Ho in Hy. injection Hy as ->.
      destruct Hcase as [[Hlt ->] | [Hle ->]]; simpl in *.
      * exact Hgt.
      * eapply Qle_lt_trans; eassumption.
Qed.


(** ** Prints *)

Lemma py_print_cases vs :
  (forallb prints vs = true /\ py_print vs = Ok tt) \/
  (forallb prints vs = false /\ py_print vs = Raise UnicodeEncodeError).
Proof. unfold py_print. destruct (forallb prints vs); auto. Qed.

Lemma py_print_one v : py_print [v] = if prints v then Ok tt else Raise UnicodeEncodeError.
Proof. unfold py_print. cbn [forallb]. rewrite andb_true_r. reflexivity. Qed.

Lemma py_print_ok vs : py_print vs = Ok tt -> forallb prints vs = true.
Proof. destruct (py_print_cases vs) as [[H _] | [_ H]]; [auto | congruence]. Qed.

Lemma py_print_raises vs e : py_print vs = Raise e -> e = UnicodeEncodeError.
Proof. destruct (py_print_cases vs) as [[_ H] | [_ H]]; congruence. Qed.

(** ** Requests *)

Lemma get_json_run ep arg s :
  log (get_json ep arg s) = [Request ep arg] /\ final (get_json ep arg s) = tick s.
Proof.
  unfold get_json, requests_get, raise_for_status, response_json, bind, tick.
  destruct (net (clock s) ep arg) as [|err [data|]]; simpl; auto;
    destruct err; simpl; auto.
Qed.

Lemma get_json_ok ep arg s data :
  res (get_json ep arg s) = Ok data <->
  net (clock s) ep arg = Responded false (Some data).
Proof.
  unfold get_json, requests_get, raise_for_status, response_json, bind.
  destruct (net (clock s) ep arg) as [|err [data'|]]; simpl;
    try destruct err; simpl; split; intros H; try discriminate H;
    injection H as <-; reflexivity.
Qed.

Lemma get_json_error ep arg s :
  error_reply (net (clock s) ep arg) = true ->
  exists e, res (get_json ep arg s) = Raise e.
Proof.
  unfold get_json, requests_get, raise_for_status, response_json, bind.
  destruct (net (clock s) ep arg) as [|err [data'|]]; simpl;
    try destruct err; simpl; intros H; try discriminate H; eauto.
Qed.

(** ** The two search strategies *)

Lemma search_byterm_shape :
  search_byterm = search_with SearchByTerm byterm_results byterm_title.
Proof. reflexivity. Qed.

Lemma search_bytitle_shape :
  search_bytitle = search_with SearchByTitle bytitle_results bytitle_title.
Proof. reflexivity. Qed.

Lemma search_with_run ep results_of title_of query s :
  log (search_with ep results_of title_of query s) = [Request ep query] /\
  final (search_with ep results_of title_of query s) = tick s.
Proof.
  unfold search_with.
  destruct (try_any_log
    (data <- get_json ep query ;;
     results <- lift (results_of data) ;;
     if truthy results then lift (best_match_of title_of query results)
     else ret VNone) VNone s) as [-> ->].
  destruct (get_json_run ep query s) as [Hlog Hfin].
  rewrite run_bind.
  destruct (res (get_json ep query s)) as [data|e]; simpl; [|auto].
  rewrite Hlog, Hfin, run_bind.
  destruct (lift_run (results_of data) (tick s)) as (-> & -> & ->).
  destruct (results_of data) as [results|e]; simpl; [|auto].
  destruct (truthy results); simpl; [|auto].
  destruct (lift_run (best_match_of title_of query results) (tick s)) as (_ & -> & ->).
  auto.
Qed.

Lemma search_with_returns ep results_of title_of query s :
  exists v, res (search_with ep results_of title_of query s) = Ok v.
Proof. apply try_any_returns. Qed.

(** What a strategy went through when it returns a candidate. *)
Lemma search_with_inv_shown ep results_of title_of query s v :
  res (search_with ep results_of title_of query s) = Ok v ->
  v <> VNone ->
  (exists data results items r,
     net (clock s) ep query = Responded false (Some data) /\
     results_of data = Ok results /\
     truthy results = true /\
     py_iter results = Ok items /\
     match_loop title_of query items (VNone, 0%Q) = Ok (v, r) /\
     truthy v = true /\
     (threshold <= r)%Q) /\
  exists shown, shown_match v = Ok shown /\ prints shown = true.
Proof.
  intros H Hv. apply try_any_inv in H as [-> | H]; [congruence|].
  rewrite run_bind in H.
  destruct (res (get_json ep query s)) as [data|e] eqn:Hdata; [|discriminate H].
  apply get_json_ok in Hdata. simpl in H.
  rewrite run_bind in H.
  destruct (lift_run (results_of data) (final (get_json ep query s))) as (Hr & _ & Hf).
  rewrite Hr in H.
  destruct (results_of data) as [results|e] eqn:Hres; [|discriminate H].
  simpl in H.
  destruct (truthy results) eqn:Htruthy;
    [|simpl in H; injection H as <-; congruence].
  destruct (lift_run (best_match_of title_of query results)
              (final (get_json ep query s))) as (Hb & _ & _).
  rewrite Hb in H. unfold best_match_of in H.
  destruct (py_iter results) as [items|e] eqn:Hiter; [|discriminate H].
  simpl in H.
  destruct (match_loop title_of query items (VNone, 0%Q)) as [[bm br]|e] eqn:Hloop;
    [|discriminate H].
  cbn [rbind fst snd] in H.
  destruct (shown_match bm) as [shown|e] eqn:Hshown; [|discriminate H].
  cbn [rbind] in H. rewrite py_print_one in H.
  destruct (prints shown) eqn:Hp; [|discriminate H].
  cbn [rbind] in H.
  destruct (truthy bm) eqn:Hbm; simpl in H;
    [|injection H as <-; congruence].
  destruct (Qle_bool threshold br) eqn:Hthr;
    [|injection H as <-; congruence].
  injection H as <-.
  split; [|eauto].
  exists data, results, items, br. repeat split; auto.
  now apply Qle_bool_iff.
Qed.

Lemma search_with_inv ep results_of title_of query s v :
  res (search_with ep results_of title_of query s) = Ok v ->
  v <> VNone ->
  exists data results items r,
    net (clock s) ep query = Responded false (Some data) /\
    results_of data = Ok results /\
    truthy results = true /\
    py_iter results = Ok items /\
    match_loop title_of query items (VNone, 0%Q) = Ok (v, r) /\
    truthy v = true /\
    (threshold <= r)%Q.
Proof. intros H Hv. exact (proj1 (search_with_inv_shown _ _ _ _ _ _ H Hv)). Qed.

(** A reply whose best ratio stays under the threshold yields [None]. *)
Lemma search_with_below ep results_of title_of query s data results items best :
  net (clock s) ep query = Responded false (Some data) ->
  results_of data = Ok results ->
  py_iter results = Ok items ->
  match_loop title_of query items (VNone, 0%Q) = Ok best ->
  (snd best < threshold)%Q ->
  res (search_with ep results_of title_of query s) = Ok VNone.
Proof.
  intros Hnet Hres Hiter Hloop Hlt.
  destruct (search_with_returns ep results_of title_of query s) as [v Hv].
  rewrite Hv. f_equal.
  destruct v; try reflexivity;
    (apply search_with_inv in Hv; [|discriminate]);
    destruct Hv as (data' & results' & items' & r & Hnet' & Hres' & _ & Hiter' & Hloop' & _ & Hthr);
    rewrite Hnet in Hnet'; injection Hnet' as <-;
    rewrite Hres in Hres'; injection Hres' as <-;
    rewrite Hiter in Hiter'; injection Hiter' as <-;
    rewrite Hloop in Hloop'; injection Hloop' as ->;
    simpl in Hlt; exfalso; exact (Qlt_not_le _ _ Hlt Hthr).
Qed.



Lemma candidate_ratio_inv title_of query res r :
  candidate_ratio title_of query res = Ok (Some r) ->
  exists q t,
    query = VStr q /\ title_of res = Ok (VStr t) /\ truthy (VStr t) = true /\
    r = ratio (lower q) (lower t).
Proof.
  unfold candidate_ratio. intros H.
  destruct (title_of res) as [ct|e]; [|discriminate H]. simpl in H.
  destruct (truthy ct) eqn:Ht; [|discriminate H]. simpl in H.
  destruct query as [| | | |q| |]; try discriminate H. simpl in H.
  destruct ct as [| | | |t| |]; try discriminate H. simpl in H.
  injection H as <-. exists q, t. auto.
Qed.

Lemma search_with_result ep results_of title_of query s v :
  (title_of = byterm_title \/ title_of = bytitle_title) ->
  res (search_with ep results_of title_of query s) = Ok v ->
  v = VNone \/ (truthy v = true /\ exists d, v = VDict d).
Proof.
  intros Htitle H.
  destruct v as [| | | | | |d]; auto; right;
    (apply search_with_inv in H; [|discriminate]);
    destruct H as (_ & _ & items & r & _ & _ & _ & _ & Hloop & Htruthy & _);
    (split; [exact Htruthy|]); [| | | | |eauto];
    apply match_loop_inv in Hloop as [[Heq _] | (_ & _ & _ & Hown & _)];
    try discriminate Heq;
    simpl in Hown; unfold candidate_ratio in Hown;
    destruct Htitle as [-> | ->]; discriminate Hown.
Qed.

(** ** The combined search *)

Lemma search_with_result_shown ep results_of title_of query s v :
  (title_of = byterm_title \/ title_of = bytitle_title) ->
  res (search_with ep results_of title_of query s) = Ok v ->
  v = VNone \/
  (truthy v = true /\ exists d, v = VDict d /\ prints (get_or_none d "title") = true).
Proof.
  intros Htitle H.
  destruct (search_with_result _ _ _ _ _ _ Htitle H) as [-> | [Ht [d ->]]]; [auto|].
  right. split; [exact Ht|]. exists d. split; [reflexivity|].
  destruct (search_with_inv_shown _ _ _ _ _ _ H) as (_ & shown & Hshown & Hp);
    [discriminate|].
  unfold shown_match in Hshown. rewrite Ht in Hshown. cbn [dict_get] in Hshown.
  injection Hshown as <-. exact Hp.
Qed.

Lemma search_byterm_result query s v :
  res (search_byterm query s) = Ok v ->
  v = VNone \/ (truthy v = true /\ exists d, v = VDict d).
Proof.
  rewrite search_byterm_shape. apply search_with_result. auto.
Qed.

Lemma search_bytitle_result query s v :
  res (search_bytitle query s) = Ok v ->
  v = VNone \/ (truthy v = true /\ exists d, v = VDict d).
Proof.
  rewrite search_bytitle_shape. apply search_with_result. auto.
Qed.

(** The end of the combined search, from what the strategies found. *)
Lemma combined_tail found s :
  (if truthy found then
     id <- lift (dict_get found "id" VNone) ;;
     title <- lift (dict_get found "title" VNone) ;;
     _ <- lift (py_print [id; title]) ;;
     ret found
   else ret VNone) s =
  {| res := announced found; log := []; final := s |}.
Proof.
  unfold announced. destruct (truthy found); [|reflexivity].
  destruct (dict_get found "id" VNone) as [id|e]; [|reflexivity].
  rewrite bind_ret_lift.
  destruct (dict_get found "title" VNone) as [title|e]; [|reflexivity].
  rewrite bind_ret_lift. cbn [rbind].
  destruct (py_print [id; title]) as [[]|e]; reflexivity.
Qed.

Lemma announced_inv found v :
  announced found = Ok v -> v = VNone \/ v = found.
Proof.
  unfold announced. destruct (truthy found); [|intros H; injection H as <-; auto].
  destruct (dict_get found "id" VNone) as [id|e]; [|discriminate].
  destruct (dict_get found "title" VNone) as [t|e]; [|discriminate].
  cbn [rbind]. destruct (py_print [id; t]) as [[]|e]; [|discriminate].
  cbn [rbind]. intros H. injection H as <-. auto.
Qed.

(** A candidate a strategy found is announced unless its id cannot be
    printed: its title has been printed by the strategy. *)
Lemma announced_found d :
  truthy (VDict d) = true ->
  prints (get_or_none d "title") = true ->
  announced (VDict d) =
  if prints (get_or_none d "id") then Ok (VDict d) else Raise UnicodeEncodeError.
Proof.
  intros Ht Hp. unfold announced. rewrite Ht. cbn [dict_get rbind].
  fold (get_or_none d "id"). fold (get_or_none d "title").
  unfold py_print. cbn [forallb]. rewrite Hp, andb_true_r.
  destruct (prints (get_or_none d "id")); reflexivity.
Qed.

Lemma combined_after_hit query s v :
  res (search_byterm query s) = Ok v ->
  truthy v = true ->
  res (search_podcast_combined query s) = announced v /\
  log (search_podcast_combined query s) = [Request SearchByTerm query] /\
  final (search_podcast_combined query s) = tick s.
Proof.
  intros Hv Ht. unfold search_podcast_combined.
  destruct (search_with_run SearchByTerm byterm_results byterm_title query s)
    as [Hlog Hfin].
  rewrite <- search_byterm_shape in Hlog, Hfin.
  rewrite run_bind, Hv, Hlog, Hfin. rewrite Ht. cbn [negb].
  rewrite bind_ret, combined_tail. cbn [res log final]. auto.
Qed.

Lemma combined_after_miss query s v :
  res (search_byterm query s) = Ok v ->
  truthy v = false ->
  exists v',
    res (search_bytitle query (tick s)) = Ok v' /\
    res (search_podcast_combined query s) = announced v' /\
    log (search_podcast_combined query s) =
      [Request SearchByTerm query; Request SearchByTitle query] /\
    final (search_podcast_combined query s) = tick (tick s).
Proof.
  intros Hv Ht. unfold search_podcast_combined.
  destruct (search_with_run SearchByTerm byterm_results byterm_title query s)
    as [Hlog Hfin].
  rewrite <- search_byterm_shape in Hlog, Hfin.
  destruct (search_with_run SearchByTitle bytitle_results bytitle_title query (tick s))
    as [Hlog' Hfin'].
  destruct (search_with_returns SearchByTitle bytitle_results bytitle_title query (tick s))
    as [v' Hv'].
  rewrite <- search_bytitle_shape in Hlog', Hfin', Hv'.
  exists v'. split; [exact Hv'|].
  rewrite run_bind, Hv, Hlog, Hfin. rewrite Ht. cbn [negb res log final].
  rewrite run_bind, Hv', Hlog', Hfin'. cbn [res log final].
  rewrite combined_tail. cbn [res log final]. rewrite app_nil_r. auto.
Qed.

(** What the two strategies found for the combined search: nothing, or a
    non-empty dict whose title could be printed; its log and its end state
    go with which of them found it. *)
Lemma combined_found query s :
  exists found,
    (found = VNone \/
     (truthy found = true /\
      exists d, found = VDict d /\ prints (get_or_none d "title") = true)) /\
    res (search_podcast_combined query s) = announced found /\
    (exists again : bool,
       log (search_podcast_combined query s) =
         Request SearchByTerm query ::
         (if again then [Request SearchByTitle query] else []) /\
       final (search_podcast_combined query s) =
         (if again then tick (tick s) else tick s)).
Proof.
  destruct (search_with_returns SearchByTerm byterm_results byterm_title query s)
    as [v Hv].
  pose proof (search_with_result_shown _ _ _ _ _ _ (or_introl eq_refl) Hv) as Hshape.
  rewrite <- search_byterm_shape in Hv.
  destruct Hshape as [-> | [Ht Hd]].
  - destruct (combined_after_miss query s VNone Hv eq_refl)
      as (v' & Hv' & Hres & Hlog & Hfin).
    exists v'. split.
    + rewrite search_bytitle_shape in Hv'.
      exact (search_with_result_shown _ _ _ _ _ _ (or_intror eq_refl) Hv').
    + split; [exact Hres|]. exists true. auto.
  - destruct (combined_after_hit query s v Hv Ht) as (Hres & Hlog & Hfin).
    exists v. split; [auto|]. split; [exact Hres|]. exists false. auto.
Qed.

(** The combined search returns [None] or a non-empty dict whose id and
    title could be printed; it raises only at its print, on a candidate
    whose id cannot be printed. *)
Lemma combined_outcome query s :
  res (search_podcast_combined query s) = Ok VNone \/
  exists d,
    truthy (VDict d) = true /\ prints (get_or_none d "title") = true /\
    ((prints (get_or_none d "id") = true /\
      res (search_podcast_combined query s) = Ok (VDict d)) \/
     (prints (get_or_none d "id") = false /\
      res (search_podcast_combined query s) = Raise UnicodeEncodeError)).
Proof.
  destruct (combined_found query s) as (found & Hshape & Hres & _).
  destruct Hshape as [-> | (Ht & d & -> & Hp)]; [left; exact Hres|].
  right. exists d. split; [exact Ht|]. split; [exact Hp|].
  rewrite Hres, (announced_found d Ht Hp).
  destruct (prints (get_or_none d "id")); auto.
Qed.

Lemma combined_result query s v :
  res (search_podcast_combined query s) = Ok v ->
  v = VNone \/
  (truthy v = true /\
   exists d, v = VDict d /\ prints (get_or_none d "id") = true /\
             prints (get_or_none d "title") = true).
Proof.
  intros Hv.
  destruct (combined_outcome query s) as [H | (d & Ht & Hp & [[Hid H] | [Hid H]])];
    rewrite Hv in H; [injection H as ->; auto | injection H as -> | discriminate H].
  right. split; [exact Ht|]. eauto.
Qed.

Lemma combined_raise query s e :
  res (search_podcast_combined query s) = Raise e -> e = UnicodeEncodeError.
Proof.
  intros He.
  destruct (combined_outcome query s) as [H | (d & Ht & Hp & [[Hid H] | [Hid H]])];
    rewrite He in H; [discriminate H | discriminate H | injection H as ->; reflexivity].
Qed.

(** ** Fetching a feed *)

Lemma fetch_feed_run ep arg s :
  log (fetch_feed ep arg s) = [Request ep arg] /\
  final (fetch_feed ep arg s) = tick s.
Proof.
  unfold fetch_feed.
  destruct (try_any_log
    (data <- get_json ep arg ;;
     feed <- lift (dict_get data "feed" VNone) ;;
     if truthy feed then ret feed else ret VNone) VNone s) as [-> ->].
  destruct (get_json_run ep arg s) as [Hlog Hfin].
  rewrite run_bind.
  destruct (res (get_json ep arg s)) as [data|e]; simpl; [|auto].
  rewrite Hlog, Hfin, run_bind.
  destruct (lift_run (dict_get data "feed" VNone) (tick s)) as (-> & -> & ->).
  destruct (dict_get data "feed" VNone) as [feed|e]; simpl; [|auto].
  destruct (truthy feed); simpl; auto.
Qed.

Lemma fetch_feed_inv ep arg s v :
  res (fetch_feed ep arg s) = Ok v ->
  v = VNone \/
  (truthy v = true /\
   exists data, net (clock s) ep arg = Responded false (Some data) /\
                dict_get data "feed" VNone = Ok v).
Proof.
  intros H. apply try_any_inv in H as [-> | H]; [auto|].
  rewrite run_bind in H.
  destruct (res (get_json ep arg s)) as [data|e] eqn:Hdata; [|discriminate H].
  apply get_json_ok in Hdata. simpl in H. rewrite run_bind in H.
  destruct (lift_run (dict_get data "feed" VNone) (final (get_json ep arg s)))
    as (Hr & _ & _).
  rewrite Hr in H.
  destruct (dict_get data "feed" VNone) as [feed|e] eqn:Hfeed; [|discriminate H].
  simpl in H.
  destruct (truthy feed) eqn:Ht; simpl in H; injection H as <-; eauto.
Qed.

Lemma fetch_feed_found ep arg s data feed :
  net (clock s) ep arg = Responded false (Some data) ->
  dict_get data "feed" VNone = Ok feed ->
  truthy feed = true ->
  res (fetch_feed ep arg s) = Ok feed.
Proof.
  intros Hnet Hfeed Ht. apply get_json_ok in Hnet.
  unfold fetch_feed, try_except.
  rewrite !run_bind, Hnet. simpl.
  destruct (lift_run (dict_get data "feed" VNone) (final (get_json ep arg s)))
    as (Hr & _ & _).
  rewrite run_bind, Hr, Hfeed. simpl. rewrite Ht. reflexivity.
Qed.



Lemma by_feed_id_cases feed_id s :
  get_full_podcast_details_by_feed_id feed_id s =
  if prints feed_id then fetch_feed PodcastsByFeedId feed_id s
  else {| res := Raise UnicodeEncodeError; log := []; final := s |}.
Proof.
  unfold get_full_podcast_details_by_feed_id. rewrite py_print_one.
  destruct (prints feed_id); [rewrite bind_ret_lift | ]; reflexivity.
Qed.

Lemma by_feed_url_cases feed_url s :
  get_full_podcast_details_by_feed_url feed_url s =
  match first_print_of_url feed_url with
  | Ok _ => fetch_feed PodcastsByFeedUrl feed_url s
  | Raise e => {| res := Raise e; log := []; final := s |}
  end.
Proof.
  unfold get_full_podcast_details_by_feed_url, first_print_of_url.
  destruct (py_slice feed_url) as [shown|e]; [|reflexivity].
  rewrite bind_ret_lift. cbn [rbind].
  destruct (py_print [shown]) as [[]|e]; [rewrite bind_ret_lift | ]; reflexivity.
Qed.

(** The first print of the fetch by URL fails on a URL that cannot be
    sliced, with the exception of the slice, and on a slice that cannot be
    printed. *)
Lemma first_print_of_url_cases feed_url :
  first_print_of_url feed_url = Ok tt \/
  (exists e, py_slice feed_url = Raise e /\ first_print_of_url feed_url = Raise e /\
             (e = TypeError \/ e = KeyError)) \/
  (exists shown, py_slice feed_url = Ok shown /\ prints shown = false /\
                 first_print_of_url feed_url = Raise UnicodeEncodeError).
Proof.
  unfold first_print_of_url.
  destruct (py_slice feed_url) as [shown|e] eqn:Hs; cbn [rbind].
  - rewrite py_print_one. destruct (prints shown) eqn:Hp; [auto|].
    right. right. eauto.
  - right. left. exists e. split; [reflexivity|]. split; [reflexivity|].
    destruct feed_url; try (injection Hs as <-; auto); try discriminate Hs.
    destruct hashable_slices; auto.
Qed.

(** ** Integer true division *)




(** ** Effect-free computations *)

Lemma effect_free_ret {A} (a : A) : effect_free (ret a).
Proof. intros s. auto. Qed.

Lemma effect_free_lift {A} (r : result A) : effect_free (lift r).
Proof. intros s. destruct r; auto. Qed.

Lemma effect_free_bind {A B} (m : M A) (f : A -> M B) :
  effect_free m -> (forall a, effect_free (f a)) -> effect_free (bind m f).
Proof.
  intros Hm Hf s. rewrite run_bind. destruct (Hm s) as [Hl Hs].
  destruct (res (m s)) as [a|e]; simpl; [|auto].
  destruct (Hf a (final (m s))) as [Hl' Hs'].
  rewrite Hl, Hl', Hs', Hs. auto.
Qed.

Ltac effect_free :=
  repeat first
    [ apply effect_free_ret
    | apply effect_free_lift
    | apply effect_free_bind; [|intros ?]
    | match goal with
      | |- effect_free (if ?b then _ else _) => destruct b
      end ].

(** A guarded fetch whose continuation only computes makes one request. *)
Lemma guarded_fetch_run {A} ep arg (k : value -> M A) (default : A) s :
  (forall data, effect_free (k data)) ->
  log (try_except any_exception (data <- get_json ep arg ;; k data) (ret default) s)
    = [Request ep arg] /\
  final (try_except any_exception (data <- get_json ep arg ;; k data) (ret default) s)
    = tick s.
Proof.
  intros Hk.
  destruct (try_any_log (data <- get_json ep arg ;; k data) default s) as [-> ->].
  destruct (get_json_run ep arg s) as [Hlog Hfin].
  rewrite run_bind.
  destruct (res (get_json ep arg s)) as [data|e]; simpl; [|auto].
  destruct (Hk data (final (get_json ep arg s))) as [-> ->].
  rewrite Hlog, Hfin. auto.
Qed.

(** ** Episode statistics *)





Arguments int_truediv : simpl never.

Lemma episode_info_cases feed_id s :
  get_latest_episode_info feed_id s =
  if prints feed_id then episodes_try feed_id s
  else {| res := Raise UnicodeEncodeError; log := []; final := s |}.
Proof.
  unfold get_latest_episode_info. rewrite py_print_one.
  destruct (prints feed_id); [rewrite bind_ret_lift | ]; reflexivity.
Qed.

Lemma episodes_try_run feed_id s :
  log (episodes_try feed_id s) = [Request EpisodesByFeedId feed_id] /\
  final (episodes_try feed_id s) = tick s.
Proof.
  unfold episodes_try. apply guarded_fetch_run.
  intros data. effect_free.
Qed.

Lemma episodes_try_returns feed_id s :
  exists info, res (episodes_try feed_id s) = Ok info.
Proof. apply try_any_returns. Qed.

Lemma episode_info_run feed_id s :
  log (get_latest_episode_info feed_id s) =
    (if prints feed_id then [Request EpisodesByFeedId feed_id] else []) /\
  final (get_latest_episode_info feed_id s) = (if prints feed_id then tick s else s).
Proof.
  rewrite episode_info_cases. destruct (prints feed_id); [|auto].
  apply episodes_try_run.
Qed.

Lemma episode_info_returns feed_id s :
  prints feed_id = true ->
  exists info, res (get_latest_episode_info feed_id s) = Ok info.
Proof. intros H. rewrite episode_info_cases, H. apply episodes_try_returns. Qed.

Lemma episode_info_ok feed_id s info :
  res (get_latest_episode_info feed_id s) = Ok info -> prints feed_id = true.
Proof.
  rewrite episode_info_cases. destruct (prints feed_id); [reflexivity | discriminate].
Qed.

Lemma episode_info_raise feed_id s e :
  res (get_latest_episode_info feed_id s) = Raise e ->
  e = UnicodeEncodeError /\ prints feed_id = false.
Proof.
  rewrite episode_info_cases. destruct (prints feed_id).
  - destruct (episodes_try_returns feed_id s) as [info ->]. discriminate.
  - intros H. injection H as <-. auto.
Qed.

Lemma episode_info_error feed_id s :
  prints feed_id = true ->
  error_reply (net (clock s) EpisodesByFeedId feed_id) = true ->
  res (get_latest_episode_info feed_id s) = Ok (VNone, VNone).
Proof.
  intros Hp H. rewrite episode_info_cases, Hp.
  apply get_json_error in H as [e He].
  unfold episodes_try. eapply try_any_raise.
  rewrite run_bind, He. reflexivity.
Qed.


(** ** Invariants of a run *)

(** A relation between a start state, the events emitted and the end state
    that holds of nothing happening and composes along a sequence is kept
    by every combinator of the monad; what the primitives do to it is asked
    of each use. *)
Section TraceInvariant.

Variable I : state -> list event -> state -> Prop.
Hypothesis I_nil : forall s, I s [] s.
Hypothesis I_app :
  forall s l1 s1 l2 s2, I s l1 s1 -> I s1 l2 s2 -> I s (l1 ++ l2) s2.

Lemma respects_ret {A} (a : A) : respects I (ret a).
Proof. intros s. apply I_nil. Qed.

Lemma respects_raise {A} (e : exn) : respects I (@raise A e).
Proof. intros s. apply I_nil. Qed.

Lemma respects_lift {A} (r : result A) : respects I (lift r).
Proof. destruct r; [apply respects_ret | apply respects_raise]. Qed.

Lemma respects_bind {A B} (m : M A) (f : A -> M B) :
  respects I m -> (forall a, respects I (f a)) -> respects I (bind m f).
Proof.
  intros Hm Hf s. rewrite run_bind.
  destruct (res (m s)) as [a|e]; simpl; [|apply Hm].
  eapply I_app; [apply Hm | apply Hf].
Qed.

Lemma respects_try {A} (catches : exn -> bool) (body handler : M A) :
  respects I body -> respects I handler -> respects I (try_except catches body handler).
Proof.
  intros Hb Hh s. unfold try_except.
  destruct (res (body s)) as [a|e]; [apply Hb|].
  destruct (catches e); simpl; [|apply Hb].
  eapply I_app; [apply Hb | apply Hh].
Qed.

Lemma respects_get_json ep arg :
  (forall s, I s [Request ep arg] (tick s)) -> respects I (get_json ep arg).
Proof.
  intros H s. destruct (get_json_run ep arg s) as [-> ->]. apply H.
Qed.

Lemma respects_emit ev : (forall s, I s [ev] s) -> respects I (emit ev).
Proof. intros H s. apply H. Qed.

Lemma respects_insert r :
  (forall s, I s [Upsert r] {| clock := S (clock s); table := upsert r (table s) |}) ->
  (forall s, I s [] (tick s)) ->
  respects I (insert_or_replace r).
Proof.
  intros Hcommit Hfail s. unfold insert_or_replace.
  destruct (db (clock s) r); simpl; [apply Hcommit | apply Hfail].
Qed.

Ltac respects :=
  repeat first
    [ apply respects_ret
    | apply respects_raise
    | apply respects_lift
    | apply respects_get_json; solve [auto]
    | apply respects_emit; solve [auto]
    | apply respects_insert; solve [auto]
    | match goal with
      | H : respects I ?m |- respects I ?m => exact H
      | H : forall x, respects I (?f x) |- respects I (?f _) => apply H
      | H : forall x y, respects I (?f x y) |- respects I (?f _ _) => apply H
      end
    | apply respects_bind; [|intros ?]
    | apply respects_try
    | match goal with
      | |- respects I (if ?b then _ else _) => destruct b
      | |- respects I (match ?x with Some _ => _ | None => _ end) => destruct x
      end ].

Lemma respects_search_byterm query :
  (forall s, I s [Request SearchByTerm query] (tick s)) ->
  respects I (search_byterm query).
Proof. intros H. unfold search_byterm. respects. Qed.

Lemma respects_search_bytitle query :
  (forall s, I s [Request SearchByTitle query] (tick s)) ->
  respects I (search_bytitle query).
Proof. intros H. unfold search_bytitle. respects. Qed.

Lemma respects_search_combined query :
  (forall s, I s [Request SearchByTerm query] (tick s)) ->
  (forall s, I s [Request SearchByTitle query] (tick s)) ->
  respects I (search_podcast_combined query).
Proof.
  intros H1 H2. unfold search_podcast_combined.
  pose proof (respects_search_byterm query H1).
  pose proof (respects_search_bytitle query H2).
  respects.
Qed.

Lemma respects_get_full_details candidate :
  (forall s arg, I s [Request PodcastsByFeedId arg] (tick s)) ->
  (forall s arg, I s [Request PodcastsByFeedUrl arg] (tick s)) ->
  respects I (get_full_details candidate).
Proof.
  intros H1 H2.
  unfold get_full_details, get_full_podcast_details_by_feed_id,
    get_full_podcast_details_by_feed_url.
  respects.
Qed.

Lemma respects_episode_info feed_id :
  (forall s arg, I s [Request EpisodesByFeedId arg] (tick s)) ->
  respects I (get_latest_episode_info feed_id).
Proof. intros H. unfold get_latest_episode_info. respects. Qed.

Lemma respects_process_details candidate full_details :
  (forall s arg, I s [Request EpisodesByFeedId arg] (tick s)) ->
  (forall s r, I s [Upsert r] {| clock := S (clock s); table := upsert r (table s) |}) ->
  (forall s, I s [] (tick s)) ->
  respects I (process_details candidate full_details).
Proof.
  intros H1 H2 H3. unfold process_details.
  pose proof (fun feed_id => respects_episode_info feed_id H1).
  respects.
Qed.

Lemma respects_process_title title :
  (forall s ep arg, I s [Request ep arg] (tick s)) ->
  (forall s seconds, I s [Sleep seconds] s) ->
  (forall s r, I s [Upsert r] {| clock := S (clock s); table := upsert r (table s) |}) ->
  (forall s, I s [] (tick s)) ->
  respects I (process_title title).
Proof.
  intros H1 H2 H3 H4. unfold process_title, time_sleep.
  pose proof (respects_search_combined title (fun s => H1 s _ _) (fun s => H1 s _ _)).
  pose proof (fun c => respects_get_full_details c
                         (fun s arg => H1 s _ arg) (fun s arg => H1 s _ arg)).
  pose proof (fun c d => respects_process_details c d
                           (fun s arg => H1 s _ arg) H3 H4).
  respects.
Qed.

Lemma respects_for_each titles body :
  (forall title, respects I (body title)) -> respects I (for_each titles body).
Proof.
  intros H. induction titles as [|title rest IH]; simpl; respects.
Qed.

End TraceInvariant.

Lemma only_nil P s : only P s [] s.
Proof. constructor. Qed.

Lemma only_app P s l1 s1 l2 s2 :
  only P s l1 s1 -> only P s1 l2 s2 -> only P s (l1 ++ l2) s2.
Proof. unfold only. intros. apply Forall_app. auto. Qed.

Lemma tracks_nil s : tracks s [] s.
Proof. reflexivity. Qed.

Lemma tracks_app s l1 s1 l2 s2 :
  tracks s l1 s1 -> tracks s1 l2 s2 -> tracks s (l1 ++ l2) s2.
Proof.
  unfold tracks, replay. intros H1 H2. rewrite fold_left_app, <- H1. exact H2.
Qed.

Lemma replay_requests l t :
  Forall (fun ev => forall r, ev <> Upsert r) l -> replay l t = t.
Proof.
  induction 1 as [|ev l Hev _ IH]; [reflexivity|].
  unfold replay in *. simpl. destruct ev; try exact IH.
  exfalso. eapply Hev. reflexivity.
Qed.

(** Step 2 only sends detail requests and leaves the table alone. *)
Lemma get_full_details_quiet candidate s :
  Forall detail_request (log (get_full_details candidate s)) /\
  table (final (get_full_details candidate s)) = table s.
Proof.
  assert (Hev : Forall detail_request (log (get_full_details candidate s))).
  { apply (respects_get_full_details (only detail_request)
             (only_nil _) (only_app _)).
    - intros s' arg. apply Forall_cons; [|constructor]. exists arg. auto.
    - intros s' arg. apply Forall_cons; [|constructor]. exists arg. auto. }
  split; [exact Hev|].
  rewrite (respects_get_full_details tracks tracks_nil tracks_app candidate
             (fun _ _ => eq_refl) (fun _ _ => eq_refl) s).
  apply replay_requests. eapply Forall_impl; [|exact Hev].
  intros ev [arg [-> | ->]] r; discriminate.
Qed.


(** ** The loop body, case by case *)

Lemma process_title_cases title s :
  let o := process_title title s in
  let o1 := search_podcast_combined title s in
  match res o1 with
  | Ok candidate =>
      if truthy candidate then
        let o2 := get_full_details candidate (final o1) in
        match res o2 with
        | Ok full_details =>
            if truthy full_details then
              let o3 := process_details candidate full_details (final o2) in
              match res o3 with
              | Ok _ =>
                  res o = Ok tt /\
                  log o = log o1 ++ log o2 ++ log o3 ++ [Sleep (3 # 2)] /\
                  final o = final o3
              | Raise e =>
                  res o = Raise e /\
                  log o = log o1 ++ log o2 ++ log o3 /\
                  final o = final o3
              end
            else
              res o = Ok tt /\
              log o = log o1 ++ log o2 ++ [Sleep (3 # 2)] /\
              final o = final o2
        | Raise e =>
            res o = Raise e /\ log o = log o1 ++ log o2 /\ final o = final o2
        end
      else
        res o = Ok tt /\ log o = log o1 ++ [Sleep 1] /\ final o = final o1
  | Raise e => res o = Raise e /\ log o = log o1 /\ final o = final o1
  end.
Proof.
  unfold process_title. cbv zeta. rewrite run_bind.
  destruct (res (search_podcast_combined title s)) as [candidate|e0];
    cbn [res log final]; [|auto].
  destruct (truthy candidate); cbn [negb res log final]; [|auto].
  rewrite run_bind.
  destruct (res (get_full_details candidate (final (search_podcast_combined title s))))
    as [full_details|e]; cbn [res log final]; [|auto].
  rewrite run_bind.
  destruct (truthy full_details); cbn [res log final].
  - destruct (res (process_details candidate full_details
                     (final (get_full_details candidate
                        (final (search_podcast_combined title s))))))
      as [[]|e]; cbn [res log final time_sleep emit]; auto.
  - cbn [ret res log final time_sleep emit app]. auto.
Qed.

(** ** Step 3 on a dict of details *)

Lemma py_or_ok a b : py_or a (Ok b) = Ok (either a b).
Proof. unfold py_or, either. destruct (truthy a); reflexivity. Qed.

Ltac run_lift :=
  repeat first
    [ rewrite bind_ret
    | erewrite bind_lift_ok by (first [reflexivity | apply py_or_ok]) ].

Lemma process_details_dict c d s :
  process_details (VDict c) (VDict d) s =
  let feed_id := get_or_none d "id" in
  if truthy feed_id then
    let o := get_latest_episode_info feed_id s in
    match res o with
    | Ok info =>
        match insert_announced d info with
        | Ok _ =>
            match rowid feed_id with
            | Some key =>
                let r := details_row c d key info in
                match db (clock (final o)) r with
                | Committed =>
                    {| res := Ok tt; log := log o ++ [Upsert r];
                       final := {| clock := S (clock (final o));
                                   table := upsert r (table (final o)) |} |}
                | DbRaises e =>
                    {| res := if sqlite_error e then Ok tt else Raise e;
                       log := log o; final := tick (final o) |}
                end
            | None => {| res := Ok tt; log := log o; final := final o |}
            end
        | Raise e => {| res := Raise e; log := log o; final := final o |}
        end
    | Raise e => {| res := Raise e; log := log o; final := final o |}
    end
  else {| res := insert_announced d (VNone, VNone); log := []; final := s |}.
Proof.
  unfold process_details, insert_announced. cbv zeta. run_lift.
  fold (get_or_none d "id"). fold (get_or_none d "title").
  fold (get_or_none d "episodeCount").
  destruct (truthy (get_or_none d "id")) eqn:Hid.
  - rewrite run_bind.
    destruct (res (get_latest_episode_info (get_or_none d "id") s)) as [info|e];
      [|reflexivity].
    run_lift. rewrite run_bind.
    destruct (lift_run (py_print [get_or_none d "id"; get_or_none d "title";
                                  get_or_none d "episodeCount"; fst info; snd info])
                (final (get_latest_episode_info (get_or_none d "id") s)))
      as (-> & -> & ->).
    destruct (py_print _) as [[]|e]; cbn [res log final];
      [|rewrite app_nil_r; reflexivity].
    unfold try_except.
    destruct (rowid (get_or_none d "id")) as [key|]; cbn [raise res log final sqlite_error ret].
    + unfold insert_or_replace, details_row, get_or_none.
      destruct (db _ _) as [|e]; cbn [res log final].
      * rewrite ?app_nil_r. reflexivity.
      * destruct (sqlite_error e); cbn [ret res log final];
          rewrite ?app_nil_r; reflexivity.
    + rewrite ?app_nil_r. reflexivity.
  - run_lift. cbn [fst snd].
    destruct (py_print _) as [[]|e]; reflexivity.
Qed.

(** ** Upserts *)

Lemma filter_key_upsert k r t :
  filter (fun x => Podcasts.podcast_id x =? k) (upsert r t) =
  if Podcasts.podcast_id r =? k then [r]
  else filter (fun x => Podcasts.podcast_id x =? k) t.
Proof.
  unfold upsert. rewrite filter_app. simpl.
  destruct (Z.eqb_spec (Podcasts.podcast_id r) k) as [Heq|Hne].
  - replace (filter _ (filter _ t)) with (@nil Podcasts.row); [reflexivity|].
    symmetry. induction t as [|x t IH]; [reflexivity|]. simpl.
    destruct (Z.eqb_spec (Podcasts.podcast_id x) (Podcasts.podcast_id r)); simpl;
      [exact IH|].
    destruct (Z.eqb_spec (Podcasts.podcast_id x) k); [congruence | exact IH].
  - rewrite app_nil_r.
    induction t as [|x t IH]; [reflexivity|]. simpl.
    destruct (Z.eqb_spec (Podcasts.podcast_id x) (Podcasts.podcast_id r)) as [Hx|Hx];
      simpl.
    + destruct (Z.eqb_spec (Podcasts.podcast_id x) k); [congruence | exact IH].
    + destruct (Podcasts.podcast_id x =? k); [f_equal|]; exact IH.
Qed.

(** Events that upsert nothing under key [k] leave the rows of [k] as they
    are. *)
Lemma filter_key_replay_other k events :
  (forall r, In (Upsert r) events -> Podcasts.podcast_id r <> k) ->
  forall t,
    filter (fun x => Podcasts.podcast_id x =? k) (replay events t) =
    filter (fun x => Podcasts.podcast_id x =? k) t.
Proof.
  induction events as [|ev events IH]; intros Hother t; [reflexivity|].
  unfold replay in *. simpl. rewrite IH by (intros; apply Hother; now right).
  destruct ev as [| |r]; try reflexivity.
  rewrite filter_key_upsert.
  destruct (Z.eqb_spec (Podcasts.podcast_id r) k) as [Heq|]; [|reflexivity].
  exfalso. apply (Hother r); [now left | exact Heq].
Qed.

Lemma filter_key_replay_last before r after t :
  (forall r', In (Upsert r') after -> Podcasts.podcast_id r' <> Podcasts.podcast_id r) ->
  filter (fun x => Podcasts.podcast_id x =? Podcasts.podcast_id r)
    (replay (before ++ Upsert r :: after) t) = [r].
Proof.
  intros Hlast. unfold replay. rewrite fold_left_app. simpl.
  fold (replay before t).
  fold (replay after (upsert r (replay before t))).
  rewrite filter_key_replay_other by exact Hlast.
  rewrite filter_key_upsert, Z.eqb_refl. reflexivity.
Qed.

(** The start of a run logs nothing and leaves no row when it got past the
    [DROP], the rows there were when it did not. *)
Lemma start_of_run_run titles s :
  log (start_of_run titles s) = [] /\
  final (start_of_run titles s) =
    {| clock := clock s; table := if dropped titles then [] else table s |} /\
  res (start_of_run titles s) =
    match titles with
    | Some titles => Ok titles
    | None => Raise (snd start_fault)
    end.
Proof.
  unfold start_of_run, dropped. destruct titles as [titles|]; [auto|].
  destruct (fst start_fault); cbn [res log final]; auto; destruct s; auto.
Qed.

(** The table a run ends with is its log replayed on the table its start
    left. *)
Lemma run_table titles s :
  table (final (update_all_podcast_details titles s)) =
  replay (log (update_all_podcast_details titles s))
    (if dropped titles then [] else table s).
Proof.
  assert (Hbody : forall titles, respects tracks (for_each titles process_title)).
  { intros l. apply (respects_for_each tracks tracks_nil tracks_app).
    intros title.
    apply (respects_process_title tracks tracks_nil tracks_app);
      intros; reflexivity. }
  unfold update_all_podcast_details, try_except.
  rewrite run_bind.
  destruct (start_of_run_run titles s) as (Hl & Hf & Hr). rewrite Hl, Hf, Hr.
  set (s0 := {| clock := clock s; table := if dropped titles then [] else table s |}).
  destruct titles as [titles|]; cbn [res log final app].
  - specialize (Hbody titles s0). unfold tracks in Hbody.
    destruct (res (for_each titles process_title s0)) as [[]|e];
      cbn [res log final]; [exact Hbody|].
    destruct (sqlite_error e); cbn [ret res log final];
      rewrite ?app_nil_r; exact Hbody.
  - destruct (sqlite_error (snd start_fault)); reflexivity.
Qed.

(** ** What each stage may log *)

Lemma combined_quiet query s :
  Forall search_request (log (search_podcast_combined query s)) /\
  table (final (search_podcast_combined query s)) = table s.
Proof.
  destruct (search_with_returns SearchByTerm byterm_results byterm_title query s)
    as [v Hv].
  rewrite <- search_byterm_shape in Hv.
  destruct (search_byterm_result _ _ _ Hv) as [-> | [Ht _]].
  - destruct (combined_after_miss query s VNone Hv eq_refl)
      as (v' & _ & _ & -> & ->).
    split; [|reflexivity].
    repeat apply Forall_cons; try constructor; exists query; auto.
  - destruct (combined_after_hit query s v Hv Ht) as (_ & -> & ->).
    split; [|reflexivity].
    repeat apply Forall_cons; try constructor; exists query; auto.
Qed.

Lemma process_details_not_a_dict candidate full_details s :
  (forall d, full_details <> VDict d) ->
  log (process_details candidate full_details s) = [] /\
  final (process_details candidate full_details s) = s /\
  res (process_details candidate full_details s) = Raise AttributeError.
Proof.
  intros Hd. unfold process_details.
  rewrite (bind_lift_raise _ AttributeError); [auto|].
  destruct full_details; try reflexivity. exfalso. eapply Hd. reflexivity.
Qed.





Lemma upsert_in_process_details c d s r :
  In (Upsert r) (log (process_details (VDict c) (VDict d) s)) ->
  exists key info,
    truthy (get_or_none d "id") = true /\
    rowid (get_or_none d "id") = Some key /\
    res (get_latest_episode_info (get_or_none d "id") s) = Ok info /\
    db (S (clock s)) (details_row c d key info) = Committed /\
    r = details_row c d key info.
Proof.
  rewrite process_details_dict. cbv zeta.
  destruct (truthy (get_or_none d "id")); [|intros []].
  destruct (episode_info_run (get_or_none d "id") s) as [Hlog Hfin].
  assert (Hno : ~ In (Upsert r) (log (get_latest_episode_info (get_or_none d "id") s))).
  { rewrite Hlog. destruct (prints (get_or_none d "id")); [|intros []].
    intros [H | []]. discriminate H. }
  destruct (res (get_latest_episode_info (get_or_none d "id") s)) as [info|e] eqn:Hinfo;
    cbn [log]; [|intros H; contradiction].
  apply episode_info_ok in Hinfo. rewrite Hinfo in Hfin.
  destruct (insert_announced d info) as [[]|e]; cbn [log]; [|intros H; contradiction].
  destruct (rowid (get_or_none d "id")) as [key|];
    cbn [log]; [|intros H; contradiction].
  rewrite Hfin. cbn [tick clock].
  destruct (db (S (clock s)) (details_row c d key info)) eqn:Hdb;
    cbn [log]; [|intros H; contradiction].
  rewrite in_app_iff. intros [H | [H | []]]; [contradiction|].
  injection H as <-. exists key, info. auto.
Qed.

Lemma in_upsert r t : In r (upsert r t).
Proof. unfold upsert. apply in_or_app. right. now left. Qed.

(** What a strategy's candidate is: an element of the reply's results, with
    the best ratio of the loop, which is at least two fifths. *)
Lemma search_with_accepts ep results_of title_of query s v :
  res (search_with ep results_of title_of query s) = Ok v -> v <> VNone ->
  exists data results items q t,
    net (clock s) ep query = Responded false (Some data) /\
    results_of data = Ok results /\
    py_iter results = Ok items /\
    In v items /\
    query = VStr q /\ title_of v = Ok (VStr t) /\
    match_loop title_of query items (VNone, 0%Q)
      = Ok (v, ratio (lower q) (lower t)) /\
    (4 # 10 <= ratio (lower q) (lower t))%Q.
Proof.
  intros Hv Hnone.
  destruct (search_with_inv _ _ _ _ _ _ Hv Hnone)
    as (data & results & items & r & Hnet & Hres & _ & Hiter & Hloop & _ & Hthr).
  destruct (match_loop_inv _ _ _ _ _ Hloop)
    as [[Heq _] | (pre & post & Hsplit & Hown & _)].
  { injection Heq as -> _. congruence. }
  simpl in Hsplit, Hown.
  destruct (candidate_ratio_inv _ _ _ _ Hown) as (q & t & Hq & Ht & _ & Hr).
  exists data, results, items, q, t. rewrite <- Hr.
  repeat split; auto.
  - rewrite Hsplit. apply in_or_app. right. now left.
  - eapply Qle_trans; [apply threshold_above_two_fifths | exact Hthr].
Qed.

(** ** Step 2 on a candidate *)

(** The first half of step 2: a fetch by id when the candidate has a truthy
    id, which sends one request unless the id cannot be printed; it returns
    a truthy feed or [None]. *)
Lemma by_id_step c s :
  let id := get_or_none c "id" in
  let o1 := (if truthy id then get_full_podcast_details_by_feed_id id
             else ret VNone) s in
  log o1 = (if truthy id && prints id then [Request PodcastsByFeedId id] else []) /\
  final o1 = (if truthy id && prints id then tick s else s) /\
  match res o1 with
  | Ok by_id =>
      (by_id = VNone \/ truthy by_id = true) /\
      (truthy id = false -> by_id = VNone)
  | Raise e => e = UnicodeEncodeError /\ truthy id = true /\ prints id = false
  end.
Proof.
  cbv zeta. destruct (truthy (get_or_none c "id")); cbn [andb].
  - rewrite by_feed_id_cases.
    destruct (prints (get_or_none c "id")); cbn [res log final]; [|auto].
    destruct (fetch_feed_run PodcastsByFeedId (get_or_none c "id") s) as [Hl Hf].
    split; [exact Hl|]. split; [exact Hf|].
    destruct (try_any_returns
      (data <- get_json PodcastsByFeedId (get_or_none c "id") ;;
       feed <- lift (dict_get data "feed" VNone) ;;
       if truthy feed then ret feed else ret VNone) VNone s) as [v Hv].
    fold (fetch_feed PodcastsByFeedId (get_or_none c "id")) in Hv.
    rewrite Hv. split; [|discriminate].
    apply fetch_feed_inv in Hv as [-> | [Ht _]]; auto.
  - cbn [ret res log final]. auto.
Qed.

Lemma get_full_details_dict c s :
  let id := get_or_none c "id" in
  let o1 := (if truthy id then get_full_podcast_details_by_feed_id id
             else ret VNone) s in
  let o := get_full_details (VDict c) s in
  match res o1 with
  | Ok by_id =>
      if truthy by_id then
        res o = Ok by_id /\ log o = log o1 /\ final o = final o1
      else if truthy (fallback_url c) then
        let o2 := get_full_podcast_details_by_feed_url (fallback_url c) (final o1) in
        res o = res o2 /\ log o = log o1 ++ log o2 /\ final o = final o2
      else
        res o = Ok VNone /\ log o = log o1 /\ final o = final o1
  | Raise e => res o = Raise e /\ log o = log o1 /\ final o = final o1
  end.
Proof.
  cbv zeta.
  destruct (by_id_step c s) as (_ & _ & Hshape). cbv zeta in Hshape.
  unfold get_full_details. run_lift. fold (get_or_none c "id").
  rewrite run_bind.
  destruct (res ((if truthy (get_or_none c "id")
                  then get_full_podcast_details_by_feed_id (get_or_none c "id")
                  else ret VNone) s)) as [by_id|e]; cbn [res log final]; [|auto].
  destruct (truthy by_id) eqn:Ht; cbn [negb ret res log final].
  - rewrite app_nil_r. auto.
  - destruct Hshape as [[-> | Ht'] _]; [|congruence].
    run_lift. fold (get_or_none c "url"). fold (get_or_none c "originalUrl").
    fold (fallback_url c).
    destruct (truthy (fallback_url c)); cbn [ret res log final].
    + auto.
    + rewrite app_nil_r. auto.
Qed.

Lemma by_feed_url_log feed_url s :
  log (get_full_podcast_details_by_feed_url feed_url s) =
    match first_print_of_url feed_url with
    | Ok _ => [Request PodcastsByFeedUrl feed_url]
    | Raise _ => []
    end /\
  final (get_full_podcast_details_by_feed_url feed_url s) =
    match first_print_of_url feed_url with
    | Ok _ => tick s
    | Raise _ => s
    end.
Proof.
  rewrite by_feed_url_cases.
  destruct (first_print_of_url feed_url); [apply fetch_feed_run | auto].
Qed.

Lemma by_feed_url_res feed_url s :
  match first_print_of_url feed_url with
  | Ok _ => exists v, res (get_full_podcast_details_by_feed_url feed_url s) = Ok v
  | Raise e => res (get_full_podcast_details_by_feed_url feed_url s) = Raise e
  end.
Proof.
  rewrite by_feed_url_cases.
  destruct (first_print_of_url feed_url); [apply try_any_returns | reflexivity].
Qed.

(** Step 2 raises at the first print of one of its two fetches only. *)
Lemma get_full_details_raise c s e :
  res (get_full_details (VDict c) s) = Raise e ->
  (e = UnicodeEncodeError /\
   truthy (get_or_none c "id") = true /\ prints (get_or_none c "id") = false) \/
  (truthy (fallback_url c) = true /\ first_print_of_url (fallback_url c) = Raise e /\
   exists by_id,
     res ((if truthy (get_or_none c "id")
           then get_full_podcast_details_by_feed_id (get_or_none c "id")
           else ret VNone) s) = Ok by_id /\
     truthy by_id = false).
Proof.
  intros He.
  pose proof (get_full_details_dict c s) as Hcs. cbv zeta in Hcs.
  destruct (by_id_step c s) as (_ & _ & Hshape). cbv zeta in Hshape.
  destruct (res ((if truthy (get_or_none c "id")
                  then get_full_podcast_details_by_feed_id (get_or_none c "id")
                  else ret VNone) s)) as [by_id|e'].
  - destruct (truthy by_id) eqn:Ht;
      [destruct Hcs as (H & _); rewrite He in H; discriminate H|].
    destruct (truthy (fallback_url c)) eqn:Hu;
      [|destruct Hcs as (H & _); rewrite He in H; discriminate H].
    destruct Hcs as (H & _). rewrite He in H.
    right. split; [reflexivity|]. split; [|eauto].
    match type of H with
    | _ = res (get_full_podcast_details_by_feed_url _ ?st) =>
        pose proof (by_feed_url_res (fallback_url c) st) as Hr
    end.
    destruct (first_print_of_url (fallback_url c)) as [[]|e'].
    + destruct Hr as [v Hv]. rewrite Hv in H. discriminate H.
    + rewrite Hr in H. injection H as ->. reflexivity.
  - destruct Hcs as (H & _). rewrite He in H. injection H as ->.
    left. exact Hshape.
Qed.

Lemma first_print_of_url_raise feed_url e :
  first_print_of_url feed_url = Raise e -> sqlite_error e = false.
Proof.
  intros H.
  destruct (first_print_of_url_cases feed_url)
    as [H' | [(e' & _ & H' & [-> | ->]) | (shown & _ & _ & H')]];
    rewrite H in H'; try discriminate H'; injection H' as ->; reflexivity.
Qed.

(** ** The loop, pass by pass *)

(** Step 3 raises on details that are no dict, at one of its two prints, or
    with what the database raises that is no [sqlite3.Error]. *)
Lemma process_details_raise c full_details s e :
  res (process_details (VDict c) full_details s) = Raise e ->
  (e = AttributeError /\ forall d, full_details <> VDict d) \/
  (e = UnicodeEncodeError /\
   exists d,
     full_details = VDict d /\
     ((truthy (get_or_none d "id") = true /\ prints (get_or_none d "id") = false) \/
      exists info,
        res ((if truthy (get_or_none d "id")
              then get_latest_episode_info (get_or_none d "id")
              else ret (VNone, VNone)) s) = Ok info /\
        insert_announced d info = Raise UnicodeEncodeError)) \/
  (sqlite_error e = false /\ exists now r, db now r = DbRaises e).
Proof.
  intros He.
  destruct full_details as [| | | | | |d].
  1-6: left;
    match type of He with
    | res (process_details ?c0 ?v ?st) = _ =>
        destruct (process_details_not_a_dict c0 v st) as (_ & _ & Hr);
          [intros; discriminate|]
    end;
    rewrite Hr in He; injection He as <-; split; [reflexivity | intros; discriminate].
  rewrite process_details_dict in He. cbv zeta in He.
  destruct (truthy (get_or_none d "id")) eqn:Hid.
  - destruct (res (get_latest_episode_info (get_or_none d "id") s)) as [info|e'] eqn:Hinfo.
    + destruct (insert_announced d info) as [[]|e'] eqn:Hann.
      * right. right.
        destruct (rowid (get_or_none d "id")) as [key|]; [|discriminate He].
        destruct (db _ _) as [|e''] eqn:Hdb; [discriminate He|].
        cbn [res] in He.
        destruct (sqlite_error e'') eqn:Hsql; [discriminate He|].
        injection He as <-. split; [exact Hsql|]. eauto.
      * cbn [res] in He. injection He as ->.
        pose proof (py_print_raises _ _ Hann) as ->.
        right. left. split; [reflexivity|]. exists d. split; [reflexivity|].
        right. exists info. rewrite Hid. auto.
    + cbn [res] in He. injection He as ->.
      destruct (episode_info_raise _ _ _ Hinfo) as [-> Hp].
      right. left. split; [reflexivity|]. exists d. split; [reflexivity|]. auto.
  - cbn [res] in He.
    pose proof (py_print_raises _ _ He) as ->.
    right. left. split; [reflexivity|]. exists d. split; [reflexivity|].
    right. exists (VNone, VNone). rewrite Hid. auto.
Qed.

(** No pass raises a [sqlite3.Error]: the [except] around the run has none
    to catch from the loop. *)
Lemma pass_raises_no_sqlite_error title s e :
  res (process_title title s) = Raise e -> sqlite_error e = false.
Proof.
  intros He.
  pose proof (process_title_cases title s) as Hcases. cbv zeta in Hcases.
  destruct (res (search_podcast_combined title s)) as [candidate|e0] eqn:Hc.
  2:{ destruct Hcases as (H & _). rewrite He in H. injection H as ->.
      rewrite (combined_raise _ _ _ Hc). reflexivity. }
  destruct (combined_result _ _ _ Hc) as [-> | (Htc & c & -> & Hpid & _)].
  { cbn [truthy] in Hcases. destruct Hcases as (H & _). congruence. }
  rewrite Htc in Hcases.
  destruct (res (get_full_details (VDict c) (final (search_podcast_combined title s))))
    as [full_details|e'] eqn:Hd.
  - destruct (truthy full_details).
    2:{ destruct Hcases as (H & _). congruence. }
    destruct (res (process_details (VDict c) full_details
                     (final (get_full_details (VDict c)
                               (final (search_podcast_combined title s))))))
      as [[]|e'] eqn:H3.
    { destruct Hcases as (H & _). congruence. }
    destruct Hcases as (H & _). rewrite He in H. injection H as ->.
    destruct (process_details_raise _ _ _ _ H3) as [[-> _] | [[-> _] | [H _]]]; auto.
  - destruct Hcases as (H & _). rewrite He in H. injection H as ->.
    destruct (get_full_details_raise _ _ _ Hd) as [(-> & _) | (_ & H & _)];
      [reflexivity | exact (first_print_of_url_raise _ _ H)].
Qed.

Lemma for_each_raises_no_sqlite_error titles : forall s e,
  res (for_each titles process_title s) = Raise e -> sqlite_error e = false.
Proof.
  induction titles as [|title rest IH]; intros s e; [discriminate|].
  cbn [for_each]. rewrite run_bind.
  destruct (res (process_title title s)) as [[]|e'] eqn:Hp; cbn [res].
  - apply IH.
  - intros H. injection H as <-. exact (pass_raises_no_sqlite_error _ _ _ Hp).
Qed.

(** A run that read its titles is the loop over them, from the emptied
    table. *)
Lemma run_is_the_loop titles s :
  let o := update_all_podcast_details (Some titles) s in
  let o' := for_each titles process_title {| clock := clock s; table := [] |} in
  res o = res o' /\ log o = log o' /\ final o = final o'.
Proof.
  cbv zeta. unfold update_all_podcast_details, try_except.
  rewrite run_bind. cbn [start_of_run res log final app].
  destruct (res (for_each titles process_title {| clock := clock s; table := [] |}))
    as [[]|e] eqn:Hres; cbn [res log final].
  - auto.
  - rewrite (for_each_raises_no_sqlite_error _ _ _ Hres). cbn [res log final]. auto.
Qed.


(** * The claims *)

(** C1, as amended: when candidate resolution finds nothing, the loop body
    logs the search requests and the short sleep and nothing else, so the
    detail fetch, the episode statistics and the write are all skipped;
    when the detail fetch yields nothing usable, no episode request is sent
    and nothing is written; in both cases the table is left as it was.
    When only the episode statistics fail, returning [(None, None)], the row
    is written all the same, with its average duration and latest episode
    title absent, provided the title and the episode count of the detail
    can be printed (the insert is announced by a print) and the database
    commits the row. *)
Theorem failed_resolution_or_detail_writes_nothing (title : value) (s : state) :
  (forall candidate,
     res (search_podcast_combined title s) = Ok candidate ->
     truthy candidate = false ->
     res (process_title title s) = Ok tt /\
     log (process_title title s) = log (search_podcast_combined title s) ++ [Sleep 1] /\
     Forall search_request (log (search_podcast_combined title s)) /\
     (forall r, ~ In (Upsert r) (log (process_title title s))) /\
     table (final (process_title title s)) = table s) /\
  (forall candidate full_details,
     res (search_podcast_combined title s) = Ok candidate ->
     truthy candidate = true ->
     res (get_full_details candidate (final (search_podcast_combined title s)))
       = Ok full_details ->
     truthy full_details = false ->
     res (process_title title s) = Ok tt /\
     (forall arg, ~ In (Request EpisodesByFeedId arg) (log (process_title title s))) /\
     (forall r, ~ In (Upsert r) (log (process_title title s))) /\
     table (final (process_title title s)) = table s) /\
  (forall c d key,
     res (search_podcast_combined title s) = Ok (VDict c) ->
     truthy (VDict c) = true ->
     res (get_full_details (VDict c) (final (search_podcast_combined title s)))
       = Ok (VDict d) ->
     truthy (VDict d) = true ->
     truthy (get_or_none d "id") = true ->
     rowid (get_or_none d "id") = Some key ->
     res (get_latest_episode_info (get_or_none d "id")
            (final (get_full_details (VDict c)
                      (final (search_podcast_combined title s)))))
       = Ok (VNone, VNone) ->
     prints (get_or_none d "title") = true ->
     prints (get_or_none d "episodeCount") = true ->
     db (S (clock (final (get_full_details (VDict c)
                            (final (search_podcast_combined title s))))))
        (details_row c d key (VNone, VNone)) = Committed ->
     In (Upsert (details_row c d key (VNone, VNone))) (log (process_title title s)) /\
     In (details_row c d key (VNone, VNone)) (table (final (process_title title s))) /\
     Podcasts.avg_duration_last_10 (details_row c d key (VNone, VNone)) = VNone /\
     Podcasts.latest_episode_title (details_row c d key (VNone, VNone)) = VNone).
Proof.
  pose proof (process_title_cases title s) as Hcases. cbv zeta in Hcases.
  destruct (combined_quiet title s) as [Hq1 Ht1].
  pose proof Hq1 as Hq1'. rewrite Forall_forall in Hq1'.
  split; [|split].
  - intros candidate Hc Ht. rewrite Hc, Ht in Hcases.
    destruct Hcases as (Hres & Hlog & Hfin).
    rewrite Hres, Hlog, Hfin, Ht1. repeat split; auto.
    intros r Hin. rewrite in_app_iff in Hin.
    destruct Hin as [Hin | [H | []]]; [|discriminate H].
    destruct (Hq1' _ Hin) as [arg [E | E]]; discriminate E.
  - intros candidate full_details Hc Ht Hd Htd.
    rewrite Hc, Ht, Hd, Htd in Hcases. destruct Hcases as (Hres & Hlog & Hfin).
    destruct (get_full_details_quiet candidate
                (final (search_podcast_combined title s))) as [Hq2 Ht2].
    rewrite Forall_forall in Hq2.
    rewrite Hres, Hlog, Hfin, Ht2, Ht1. repeat split; auto.
    + intros arg Hin. rewrite !in_app_iff in Hin.
      destruct Hin as [Hin | [Hin | [H | []]]]; [| |discriminate H].
      * destruct (Hq1' _ Hin) as [arg' [E | E]]; discriminate E.
      * destruct (Hq2 _ Hin) as [arg' [E | E]]; discriminate E.
    + intros r Hin. rewrite !in_app_iff in Hin.
      destruct Hin as [Hin | [Hin | [H | []]]]; [| |discriminate H].
      * destruct (Hq1' _ Hin) as [arg' [E | E]]; discriminate E.
      * destruct (Hq2 _ Hin) as [arg' [E | E]]; discriminate E.
  - intros c d key Hc Ht Hd Htd Hid Hkey Hinfo Hptitle Hpcount Hdb.
    rewrite Hc, Ht, Hd, Htd in Hcases.
    rewrite process_details_dict in Hcases. cbv zeta in Hcases.
    rewrite Hid, Hinfo in Hcases.
    pose proof (episode_info_ok _ _ _ Hinfo) as Hpid.
    assert (Hann : insert_announced d (VNone, VNone) = Ok tt).
    { unfold insert_announced, py_print. cbn [forallb fst snd prints].
      rewrite Hpid, Hptitle, Hpcount. reflexivity. }
    rewrite Hann, Hkey in Hcases.
    destruct (episode_info_run (get_or_none d "id")
                (final (get_full_details (VDict c)
                          (final (search_podcast_combined title s)))))
      as [Hlog3 Hfin3].
    rewrite Hpid in Hfin3.
    rewrite Hfin3 in Hcases. cbn [tick clock table] in Hcases.
    rewrite Hdb in Hcases. cbn [res log final] in Hcases.
    destruct Hcases as (_ & Hlog & Hfin).
    rewrite Hlog, Hfin. cbn [table].
    repeat split.
    + rewrite !in_app_iff. right. right. left. right. now left.
    + apply in_upsert.
Qed.

(** C2: whatever [search_byterm] or [search_bytitle] returns as a candidate
    is an element of the reply's result list whose title, lowercased, has a
    similarity ratio of at least 0.4 against the lowercased query, and that
    ratio is the best ratio the loop found; so has whatever the combined
    search returns, which is what one of the two returned.  Conversely, when
    the best ratio of the reply's results is below 0.4 the strategy returns
    [None]. *)
Theorem accepted_candidate_scores_at_least_threshold (query : value) (s : state) :
  (forall v, res (search_byterm query s) = Ok v -> v <> VNone ->
     exists data results items q t,
       net (clock s) SearchByTerm query = Responded false (Some data) /\
       byterm_results data = Ok results /\
       py_iter results = Ok items /\
       In v items /\
       query = VStr q /\ byterm_title v = Ok (VStr t) /\
       match_loop byterm_title query items (VNone, 0%Q)
         = Ok (v, ratio (lower q) (lower t)) /\
       (4 # 10 <= ratio (lower q) (lower t))%Q) /\
  (forall v, res (search_bytitle query s) = Ok v -> v <> VNone ->
     exists data results items q t,
       net (clock s) SearchByTitle query = Responded false (Some data) /\
       bytitle_results data = Ok results /\
       py_iter results = Ok items /\
       In v items /\
       query = VStr q /\ bytitle_title v = Ok (VStr t) /\
       match_loop bytitle_title query items (VNone, 0%Q)
         = Ok (v, ratio (lower q) (lower t)) /\
       (4 # 10 <= ratio (lower q) (lower t))%Q) /\
  (forall v, res (search_podcast_combined query s) = Ok v -> v <> VNone ->
     exists q t,
       query = VStr q /\
       (byterm_title v = Ok (VStr t) \/ bytitle_title v = Ok (VStr t)) /\
       (4 # 10 <= ratio (lower q) (lower t))%Q) /\
  (forall data results items best,
     net (clock s) SearchByTerm query = Responded false (Some data) ->
     byterm_results data = Ok results ->
     py_iter results = Ok items ->
     match_loop byterm_title query items (VNone, 0%Q) = Ok best ->
     (snd best < 4 # 10)%Q ->
     res (search_byterm query s) = Ok VNone) /\
  (forall data results items best,
     net (clock s) SearchByTitle query = Responded false (Some data) ->
     bytitle_results data = Ok results ->
     py_iter results = Ok items ->
     match_loop bytitle_title query items (VNone, 0%Q) = Ok best ->
     (snd best < 4 # 10)%Q ->
     res (search_bytitle query s) = Ok VNone).
Proof.
  assert (Hbelow : forall ep results_of title_of data results items best,
    net (clock s) ep query = Responded false (Some data) ->
    results_of data = Ok results ->
    py_iter results = Ok items ->
    match_loop title_of query items (VNone, 0%Q) = Ok best ->
    (snd best < 4 # 10)%Q ->
    res (search_with ep results_of title_of query s) = Ok VNone).
  { intros ep results_of title_of data results items best Hnet Hres Hiter Hloop Hlt.
    eapply search_with_below; eauto.
    eapply Qlt_le_trans; [exact Hlt | apply threshold_above_two_fifths]. }
  split; [|split; [|split; [|split]]].
  - rewrite search_byterm_shape. apply search_with_accepts.
  - rewrite search_bytitle_shape. apply search_with_accepts.
  - intros v Hv Hne.
    destruct (search_with_returns SearchByTerm byterm_results byterm_title query s)
      as [v1 Hv1].
    rewrite <- search_byterm_shape in Hv1.
    destruct (search_byterm_result _ _ _ Hv1) as [-> | [Ht _]].
    + destruct (combined_after_miss query s VNone Hv1 eq_refl)
        as (v' & Hv' & Hres & _).
      rewrite Hres in Hv.
      destruct (announced_inv _ _ Hv) as [-> | ->]; [congruence|].
      rewrite search_bytitle_shape in Hv'.
      destruct (search_with_accepts _ _ _ _ _ _ Hv' Hne)
        as (_ & _ & _ & q & t & _ & _ & _ & _ & Hq & Ht & _ & Hthr).
      exists q, t. auto.
    + destruct (combined_after_hit query s v1 Hv1 Ht) as (Hres & _).
      rewrite Hres in Hv.
      destruct (announced_inv _ _ Hv) as [-> | ->]; [congruence|].
      rewrite search_byterm_shape in Hv1.
      destruct (search_with_accepts _ _ _ _ _ _ Hv1 Hne)
        as (_ & _ & _ & q & t & _ & _ & _ & _ & Hq & Ht' & _ & Hthr).
      exists q, t. auto.
  - rewrite search_byterm_shape. apply Hbelow.
  - rewrite search_bytitle_shape. apply Hbelow.
Qed.

(** C3: the fuzzy-match loop, run from [best_match = None] and
    [best_ratio = 0], ends in one of two ways.  Either it has selected a
    candidate, and that candidate stands in the result list at a place where
    its ratio is strictly greater than the ratio of every candidate before it
    and at least the ratio of every candidate after it: it has the maximal
    ratio, and of several candidates sharing the maximal ratio the earliest
    is the one selected.  Or it has selected none, which happens only when no
    candidate has a ratio above 0, the value [best_ratio] starts from. *)
Theorem loop_selects_first_greatest
    (title_of : value -> result value) (query : value) (items : list value)
    (best_match : value) (best_ratio : Q) :
  match_loop title_of query items (VNone, 0%Q) = Ok (best_match, best_ratio) ->
  (exists pre post,
     items = pre ++ best_match :: post /\
     candidate_ratio title_of query best_match = Ok (Some best_ratio) /\
     (0 < best_ratio)%Q /\
     (forall x r, In x pre ->
        candidate_ratio title_of query x = Ok (Some r) -> (r < best_ratio)%Q) /\
     (forall x r, In x post ->
        candidate_ratio title_of query x = Ok (Some r) -> (r <= best_ratio)%Q))
  \/
  (best_match = VNone /\
   forall x r, In x items ->
     candidate_ratio title_of query x = Ok (Some r) -> (r <= 0)%Q).
Proof.
  intros H.
  destruct (match_loop_inv _ _ _ _ _ H) as [[Heq Hall] | Hsel].
  - right. injection Heq as -> ->. auto.
  - left. exact Hsel.
Qed.


(** C5: the combined search sends a title-search request exactly when the
    term search returned no candidate.  After a term-search hit its log is
    the log of the term search alone, and it returns that hit; after a miss
    it runs the title search next and returns what that found.  In both
    cases it prints the id of the candidate it is about to return, and
    raises instead of returning when that id cannot be printed. *)
Theorem title_search_iff_term_search_missed (query : value) (s : state) :
  ((exists arg, In (Request SearchByTitle arg) (log (search_podcast_combined query s)))
   <-> res (search_byterm query s) = Ok VNone) /\
  (forall v, res (search_byterm query s) = Ok v -> v <> VNone ->
     log (search_podcast_combined query s) = log (search_byterm query s) /\
     exists d,
       v = VDict d /\
       res (search_podcast_combined query s) =
         if prints (get_or_none d "id") then Ok v else Raise UnicodeEncodeError) /\
  (res (search_byterm query s) = Ok VNone ->
     log (search_podcast_combined query s) =
       log (search_byterm query s) ++
       log (search_bytitle query (final (search_byterm query s))) /\
     exists v',
       res (search_bytitle query (final (search_byterm query s))) = Ok v' /\
       ((v' = VNone /\ res (search_podcast_combined query s) = Ok VNone) \/
        exists d,
          v' = VDict d /\
          res (search_podcast_combined query s) =
            if prints (get_or_none d "id") then Ok v' else Raise UnicodeEncodeError)).
Proof.
  destruct (search_with_run SearchByTerm byterm_results byterm_title query s)
    as [Hlog Hfin].
  rewrite <- search_byterm_shape in Hlog, Hfin.
  destruct (search_with_returns SearchByTerm byterm_results byterm_title query s)
    as [v Hv].
  pose proof (search_with_result_shown _ _ _ _ _ _ (or_introl eq_refl) Hv) as Hshape.
  rewrite <- search_byterm_shape in Hv.
  destruct (search_with_run SearchByTitle bytitle_results bytitle_title query (tick s))
    as [Hlog' _].
  rewrite <- search_bytitle_shape in Hlog'.
  destruct Hshape as [-> | (Ht & d & -> & Hp)].
  - destruct (combined_after_miss query s VNone Hv eq_refl)
      as (v' & Hv' & Hres & Hclog & _).
    pose proof Hv' as Hshape'. rewrite search_bytitle_shape in Hshape'.
    apply (search_with_result_shown _ _ _ _ _ _ (or_intror eq_refl)) in Hshape'.
    rewrite Hv, Hlog, Hfin, Hclog, Hres, Hv', Hlog'.
    split; [|split].
    + split; [reflexivity|]. intros _. exists query. simpl. auto.
    + intros v0 Hv0 Hne. congruence.
    + intros _. split; [reflexivity|]. exists v'. split; [reflexivity|].
      destruct Hshape' as [-> | (Ht' & d' & -> & Hp')]; [left; auto|].
      right. exists d'. split; [reflexivity|]. apply announced_found; assumption.
  - destruct (combined_after_hit query s (VDict d) Hv Ht) as (Hres & Hclog & _).
    rewrite Hv, Hlog, Hclog, Hres.
    split; [|split].
    + split.
      * intros [arg [Hin | []]]. discriminate Hin.
      * intros Hv0. discriminate Hv0.
    + intros v0 Hv0 _. injection Hv0 as <-. split; [reflexivity|].
      exists d. split; [reflexivity|]. apply announced_found; assumption.
    + intros Hv0. discriminate Hv0.
Qed.

(** C6: in every run, once a record has been upserted under a feed id and
    no later upsert of the run carries that feed id, the table the run ends
    with holds exactly one row for that feed id, and it is that record,
    however many records were upserted under the same feed id before it. *)
Theorem last_upsert_wins
    (titles : option (list value)) (s : state)
    (before after : list event) (r : Podcasts.row) :
  log (update_all_podcast_details titles s) = before ++ Upsert r :: after ->
  (forall r', In (Upsert r') after ->
     Podcasts.podcast_id r' <> Podcasts.podcast_id r) ->
  filter (fun x => Podcasts.podcast_id x =? Podcasts.podcast_id r)
    (table (final (update_all_podcast_details titles s))) = [r].
Proof.
  intros Hlog Hlast. rewrite run_table, Hlog.
  apply filter_key_replay_last. exact Hlast.
Qed.




(** C9: when the search found a candidate and the detail fetch returned a
    feed detail whose ["id"] is missing (or otherwise falsy), processing the
    title writes no row: no upsert is logged, no episode request is sent and
    the table is left as it was.  The loop body ends normally when the id,
    the title and the episode count of the detail can be printed, and
    raises at the print that announces the insert when one of them
    cannot. *)
Theorem no_row_without_detail_id
    (title candidate : value) (d : list (string * value)) (s : state) :
  res (search_podcast_combined title s) = Ok candidate ->
  truthy candidate = true ->
  res (get_full_details candidate (final (search_podcast_combined title s)))
    = Ok (VDict d) ->
  truthy (VDict d) = true ->
  truthy (get_or_none d "id") = false ->
  res (process_title title s) =
    (if forallb prints [get_or_none d "id"; get_or_none d "title";
                        get_or_none d "episodeCount"]
     then Ok tt else Raise UnicodeEncodeError) /\
  (forall r, ~ In (Upsert r) (log (process_title title s))) /\
  (forall arg, ~ In (Request EpisodesByFeedId arg) (log (process_title title s))) /\
  table (final (process_title title s)) = table s.
Proof.
  intros Hc Htc Hd Htd Hid.
  pose proof (process_title_cases title s) as Hcases. cbv zeta in Hcases.
  rewrite Hc, Htc, Hd, Htd in Hcases.
  destruct (combined_result title s _ Hc) as [-> | (_ & c & -> & _)];
    [discriminate Htc|].
  rewrite process_details_dict in Hcases. cbv zeta in Hcases.
  rewrite Hid in Hcases. cbn [res log final] in Hcases.
  assert (Hann : insert_announced d (VNone, VNone) =
            if forallb prints [get_or_none d "id"; get_or_none d "title";
                               get_or_none d "episodeCount"]
            then Ok tt else Raise UnicodeEncodeError).
  { unfold insert_announced, py_print. cbn [forallb fst snd prints].
    rewrite !andb_true_r. reflexivity. }
  rewrite <- Hann.
  destruct (combined_quiet title s) as [Hq1 Ht1].
  destruct (get_full_details_quiet (VDict c) (final (search_podcast_combined title s)))
    as [Hq2 Ht2].
  rewrite Forall_forall in Hq1, Hq2.
  assert (Hquiet : forall ev,
            In ev (log (search_podcast_combined title s) ++
                   log (get_full_details (VDict c)
                          (final (search_podcast_combined title s)))) ->
            (forall r, ev <> Upsert r) /\
            (forall arg, ev <> Request EpisodesByFeedId arg)).
  { intros ev Hin. rewrite in_app_iff in Hin. destruct Hin as [Hin | Hin].
    - destruct (Hq1 _ Hin) as [arg [-> | ->]]; split; intros; discriminate.
    - destruct (Hq2 _ Hin) as [arg [-> | ->]]; split; intros; discriminate. }
  destruct (insert_announced d (VNone, VNone)) as [[]|e];
    destruct Hcases as (Hres & Hlog & Hfin);
    (split; [exact Hres|]); rewrite Hlog, Hfin, Ht2, Ht1;
    (split; [|split; [|reflexivity]]).
  - intros r Hin. cbn [app] in Hin. rewrite app_assoc, in_app_iff in Hin.
    destruct Hin as [Hin | [H | []]]; [|discriminate H].
    exact (proj1 (Hquiet _ Hin) r eq_refl).
  - intros arg Hin. cbn [app] in Hin. rewrite app_assoc, in_app_iff in Hin.
    destruct Hin as [Hin | [H | []]]; [|discriminate H].
    exact (proj2 (Hquiet _ Hin) arg eq_refl).
  - intros r Hin. rewrite app_nil_r in Hin. exact (proj1 (Hquiet _ Hin) r eq_refl).
  - intros arg Hin. rewrite app_nil_r in Hin. exact (proj2 (Hquiet _ Hin) arg eq_refl).
Qed.

(** C10, as amended: a row that processing a title stores was assembled from the
    candidate [c] the search returned and the feed detail [d] fetched for
    it; its feed URL and its original URL are the detail's when the detail
    has one and the candidate's ["url"] and ["originalUrl"] otherwise; its
    average duration and latest episode title are the episode statistics
    fetched for the detail's id; every other column is read from the detail
    alone. *)
Theorem stored_row_sources (title : value) (s : state) (r : Podcasts.row) :
  In (Upsert r) (log (process_title title s)) ->
  exists c d key info,
    res (search_podcast_combined title s) = Ok (VDict c) /\
    res (get_full_details (VDict c) (final (search_podcast_combined title s)))
      = Ok (VDict d) /\
    rowid (get_or_none d "id") = Some key /\
    res (get_latest_episode_info (get_or_none d "id")
           (final (get_full_details (VDict c)
                     (final (search_podcast_combined title s))))) = Ok info /\
    Podcasts.feed_url r = either (get_or_none d "url") (get_or_none c "url") /\
    Podcasts.original_url r =
      either (get_or_none d "originalUrl") (get_or_none c "originalUrl") /\
    Podcasts.avg_duration_last_10 r = fst info /\
    Podcasts.latest_episode_title r = snd info /\
    Podcasts.podcast_id r = key /\
    Podcasts.title r = get_or_none d "title" /\
    Podcasts.description r = get_or_none d "description" /\
    Podcasts.image_url r = either (get_or_none d "image") (get_or_none d "artwork") /\
    Podcasts.episode_count r = get_or_none d "episodeCount" /\
    Podcasts.last_update_time r = get_or_none d "lastUpdateTime" /\
    Podcasts.categories r = categories_to_json (get_or_none d "categories") /\
    Podcasts.podcast_guid r = get_or_none d "podcastGuid".
Proof.
  clear start_fault. intros Hin.
  pose proof (process_title_cases title s) as Hcases. cbv zeta in Hcases.
  destruct (combined_quiet title s) as [Hq1 _]. rewrite Forall_forall in Hq1.
  assert (Hno1 : ~ In (Upsert r) (log (search_podcast_combined title s))).
  { intros H. destruct (Hq1 _ H) as [arg [E | E]]; discriminate E. }
  destruct (res (search_podcast_combined title s)) as [candidate|e0] eqn:Hc.
  2:{ destruct Hcases as (_ & Hlog & _). rewrite Hlog in Hin. contradiction. }
  destruct (combined_result _ _ _ Hc) as [-> | (Htc & c & -> & _)].
  { simpl in Hcases. destruct Hcases as (_ & Hlog & _).
    rewrite Hlog, in_app_iff in Hin.
    destruct Hin as [Hin | [H | []]]; [contradiction | discriminate H]. }
  rewrite Htc in Hcases.
  destruct (get_full_details_quiet (VDict c) (final (search_podcast_combined title s)))
    as [Hq2 _]. rewrite Forall_forall in Hq2.
  assert (Hno2 : ~ In (Upsert r)
            (log (get_full_details (VDict c) (final (search_podcast_combined title s))))).
  { intros H. destruct (Hq2 _ H) as [arg [E | E]]; discriminate E. }
  destruct (res (get_full_details (VDict c) (final (search_podcast_combined title s))))
    as [full_details|e] eqn:Hd.
  2:{ destruct Hcases as (_ & Hlog & _). rewrite Hlog, in_app_iff in Hin. tauto. }
  destruct (truthy full_details) eqn:Htd.
  2:{ destruct Hcases as (_ & Hlog & _). rewrite Hlog, !in_app_iff in Hin.
      destruct Hin as [Hin | [Hin | [H | []]]]; [tauto | tauto | discriminate H]. }
  assert (Hin3 : In (Upsert r)
            (log (process_details (VDict c) full_details
                    (final (get_full_details (VDict c)
                              (final (search_podcast_combined title s))))))).
  { destruct (res (process_details (VDict c) full_details _)) as [[]|e];
      destruct Hcases as (_ & Hlog & _); rewrite Hlog, !in_app_iff in Hin.
    - destruct Hin as [Hin | [Hin | [Hin | [H | []]]]];
        [tauto | tauto | exact Hin | discriminate H].
    - destruct Hin as [Hin | [Hin | Hin]]; [tauto | tauto | exact Hin]. }
  destruct full_details as [| | | | | |d].
  1-6: exfalso;
    match type of Hin3 with
    | In _ (log (process_details ?c0 ?v ?st)) =>
        destruct (process_details_not_a_dict c0 v st) as (Hl & _);
          [intros; discriminate | rewrite Hl in Hin3; exact Hin3]
    end.
  apply upsert_in_process_details in Hin3
    as (key & info & _ & Hkey & Hinfo & _ & ->).
  exists c, d, key, info. repeat split; auto.
Qed.

(** * Further properties of the update script *)

(** ** Step 2 on a candidate *)


(** ** The events of one pass, stage by stage *)

Lemma combined_log query s :
  exists again : bool,
    log (search_podcast_combined query s) =
      Request SearchByTerm query ::
      (if again then [Request SearchByTitle query] else []).
Proof.
  destruct (combined_found query s) as (_ & _ & _ & again & Hlog & _).
  exists again. exact Hlog.
Qed.

(** The requests of step 2; a feed it returns came with one of them. *)
Lemma get_full_details_log c s :
  exists by_id by_url : bool,
    log (get_full_details (VDict c) s) =
      (if by_id then [Request PodcastsByFeedId (get_or_none c "id")] else []) ++
      (if by_url then [Request PodcastsByFeedUrl (fallback_url c)] else []) /\
    (forall v, res (get_full_details (VDict c) s) = Ok v -> truthy v = true ->
       by_id || by_url = true).
Proof.
  destruct (by_id_step c s) as (Hlog & Hfin & Hshape).
  pose proof (get_full_details_dict c s) as Hcases.
  cbv zeta in Hlog, Hfin, Hshape, Hcases.
  exists (truthy (get_or_none c "id") && prints (get_or_none c "id")).
  destruct (res ((if truthy (get_or_none c "id")
                  then get_full_podcast_details_by_feed_id (get_or_none c "id")
                  else ret VNone) s)) as [by_id|e] eqn:Ho1.
  - destruct Hshape as [_ Hnone].
    destruct (truthy by_id) eqn:Htb.
    + destruct Hcases as (_ & -> & _). exists false. rewrite Hlog, app_nil_r.
      split; [reflexivity|]. intros _ _ _.
      destruct (truthy (get_or_none c "id")) eqn:Hid.
      2:{ rewrite (Hnone eq_refl) in Htb. discriminate Htb. }
      destruct (prints (get_or_none c "id")) eqn:Hp; [reflexivity|].
      rewrite by_feed_id_cases, Hp in Ho1. discriminate Ho1.
    + destruct (truthy (fallback_url c)).
      * destruct Hcases as (Hr & -> & _).
        match type of Hr with
        | _ = res (get_full_podcast_details_by_feed_url _ ?st) =>
            destruct (by_feed_url_log (fallback_url c) st) as [-> _];
            pose proof (by_feed_url_res (fallback_url c) st) as Hres
        end.
        rewrite Hlog.
        destruct (first_print_of_url (fallback_url c)).
        -- exists true. split; [reflexivity|]. intros. apply orb_true_r.
        -- exists false. split; [reflexivity|]. intros v Hv _.
           rewrite Hr, Hres in Hv. discriminate Hv.
      * destruct Hcases as (Hr & -> & _). exists false. rewrite Hlog, app_nil_r.
        split; [reflexivity|]. intros v Hv Htv. rewrite Hr in Hv.
        injection Hv as <-. discriminate Htv.
  - destruct Hcases as (Hr & -> & _). exists false. rewrite Hlog, app_nil_r.
    split; [reflexivity|]. intros v Hv. rewrite Hr in Hv. discriminate Hv.
Qed.

Lemma process_details_log c full_details s :
  exists (episodes : bool) (arg : value) (written : list Podcasts.row),
    log (process_details (VDict c) full_details s) =
      (if episodes then [Request EpisodesByFeedId arg] else []) ++ map Upsert written /\
    (List.length written <= 1)%nat /\
    (written <> [] -> episodes = true).
Proof.
  destruct full_details as [| | | | | |d].
  1-6: match goal with
       | |- context [process_details ?c0 ?v ?st] =>
           destruct (process_details_not_a_dict c0 v st) as (-> & _);
             [intros; discriminate|]
       end; exists false, VNone, []; simpl; auto.
  rewrite process_details_dict. cbv zeta.
  destruct (truthy (get_or_none d "id")).
  2:{ exists false, VNone, []. simpl. auto. }
  destruct (episode_info_run (get_or_none d "id") s) as [Hlog _].
  assert (Hquiet : exists episodes : bool,
            log (get_latest_episode_info (get_or_none d "id") s) =
              (if episodes then [Request EpisodesByFeedId (get_or_none d "id")] else []) ++
              map Upsert []).
  { exists (prints (get_or_none d "id")). rewrite Hlog, app_nil_r. reflexivity. }
  destruct Hquiet as [episodes Hq].
  destruct (res (get_latest_episode_info (get_or_none d "id") s)) as [info|e] eqn:Hinfo;
    cbn [log].
  2:{ exists episodes, (get_or_none d "id"), []. rewrite Hq. simpl.
      split; [reflexivity|]. split; [lia|]. intros H. contradiction. }
  apply episode_info_ok in Hinfo. rewrite Hinfo in Hlog.
  destruct (insert_announced d info) as [[]|e]; cbn [log].
  2:{ exists true, (get_or_none d "id"), []. rewrite Hlog. simpl. auto. }
  destruct (rowid (get_or_none d "id")) as [key|]; cbn [log].
  2:{ exists true, (get_or_none d "id"), []. rewrite Hlog. simpl. auto. }
  destruct (db _ _); cbn [log]; rewrite Hlog.
  - exists true, (get_or_none d "id"), [details_row c d key info]. simpl. auto.
  - exists true, (get_or_none d "id"), []. simpl. auto.
Qed.

Lemma endpoints_of_app l1 l2 :
  endpoints_of (l1 ++ l2) = endpoints_of l1 ++ endpoints_of l2.
Proof. apply flat_map_app. Qed.

Lemma sleeps_of_app l1 l2 : sleeps_of (l1 ++ l2) = sleeps_of l1 ++ sleeps_of l2.
Proof. apply flat_map_app. Qed.

Lemma upserts_of_app l1 l2 : upserts_of (l1 ++ l2) = upserts_of l1 ++ upserts_of l2.
Proof. apply flat_map_app. Qed.

(** The whole log of one pass: the requests in the order of the stages, at
    most one upsert, and one sleep when the pass ends normally. *)
Lemma process_title_shape title s :
  exists (again by_id by_url episodes : bool) (a1 a2 a3 : value)
         (written : list Podcasts.row) (slept : list Q),
    log (process_title title s) =
      (Request SearchByTerm title ::
       (if again then [Request SearchByTitle title] else []) ++
       (if by_id then [Request PodcastsByFeedId a1] else []) ++
       (if by_url then [Request PodcastsByFeedUrl a2] else []) ++
       (if episodes then [Request EpisodesByFeedId a3] else [])) ++
      map Upsert written ++ map Sleep slept /\
    (List.length written <= 1)%nat /\
    (written <> [] -> episodes = true) /\
    (episodes = true -> by_id || by_url = true) /\
    match res (process_title title s) with
    | Ok _ => slept = [1%Q] \/ slept = [3 # 2]
    | Raise _ => slept = []
    end.
Proof.
  pose proof (process_title_cases title s) as Hcases. cbv zeta in Hcases.
  destruct (combined_log title s) as [again Hl1].
  exists again.
  destruct (res (search_podcast_combined title s)) as [candidate|e0] eqn:Hc.
  2:{ destruct Hcases as (-> & -> & _).
      exists false, false, false, VNone, VNone, VNone, [], [].
      rewrite Hl1. simpl. rewrite !app_nil_r.
      repeat split; auto; try discriminate; try congruence. }
  destruct (combined_result _ _ _ Hc) as [-> | (Htc & c & -> & _)].
  { simpl in Hcases. destruct Hcases as (-> & -> & _).
    exists false, false, false, VNone, VNone, VNone, [], [1%Q].
    rewrite Hl1. simpl. rewrite !app_nil_r.
    repeat split; auto; try discriminate; try congruence. }
  rewrite Htc in Hcases.
  destruct (get_full_details_log c (final (search_podcast_combined title s)))
    as (by_id & by_url & Hl2 & Hfound).
  exists by_id, by_url.
  destruct (res (get_full_details (VDict c) (final (search_podcast_combined title s))))
    as [full_details|e] eqn:Hd.
  2:{ destruct Hcases as (-> & -> & _).
      exists false, (get_or_none c "id"), (fallback_url c), VNone, [], [].
      rewrite Hl1, Hl2. simpl. rewrite !app_nil_r.
      repeat split; auto; try discriminate; try congruence. }
  destruct (truthy full_details) eqn:Htd.
  2:{ destruct Hcases as (-> & -> & _).
      exists false, (get_or_none c "id"), (fallback_url c), VNone, [], [3 # 2].
      rewrite Hl1, Hl2. simpl. rewrite !app_nil_r, <- !app_assoc.
      repeat split; auto; try discriminate; try congruence. }
  destruct (process_details_log c full_details
              (final (get_full_details (VDict c)
                        (final (search_podcast_combined title s)))))
    as (episodes & arg & written & Hl3 & Hlen & Hwr).
  pose proof (Hfound _ eq_refl Htd) as Hdetail.
  destruct (res (process_details (VDict c) full_details _)) as [[]|e].
  - destruct Hcases as (-> & -> & _).
    exists episodes, (get_or_none c "id"), (fallback_url c), arg, written, [3 # 2].
    rewrite Hl1, Hl2, Hl3. simpl. rewrite <- !app_assoc.
    repeat split; auto.
  - destruct Hcases as (-> & -> & _).
    exists episodes, (get_or_none c "id"), (fallback_url c), arg, written, [].
    rewrite Hl1, Hl2, Hl3. simpl. rewrite <- !app_assoc, !app_nil_r.
    repeat split; auto.
Qed.

(** X2: the requests of one pass follow the stages: the term search with
    the title comes first, then, each at most once and in this order, the
    title search, the detail by id, the detail by URL and the episodes; the
    episodes are asked for only after a detail request.  One pass sends
    between one and five requests. *)
Theorem requests_follow_the_stages (title : value) (s : state) :
  exists again by_id by_url episodes : bool,
    endpoints_of (log (process_title title s)) =
      SearchByTerm ::
      (if again then [SearchByTitle] else []) ++
      (if by_id then [PodcastsByFeedId] else []) ++
      (if by_url then [PodcastsByFeedUrl] else []) ++
      (if episodes then [EpisodesByFeedId] else []) /\
    (episodes = true -> by_id || by_url = true) /\
    (exists rest, log (process_title title s) = Request SearchByTerm title :: rest) /\
    (1 <= List.length (endpoints_of (log (process_title title s))) <= 5)%nat.
Proof.
  destruct (process_title_shape title s)
    as (again & by_id & by_url & episodes & a1 & a2 & a3 & written & slept
        & Hlog & _ & _ & Hep & _).
  exists again, by_id, by_url, episodes.
  assert (Hw : endpoints_of (map Upsert written) = []).
  { clear. induction written as [|r l IH]; [reflexivity | exact IH]. }
  assert (Hs : endpoints_of (map Sleep slept) = []).
  { clear. induction slept as [|q l IH]; [reflexivity | exact IH]. }
  assert (Heps : endpoints_of (log (process_title title s)) =
            SearchByTerm ::
            (if again then [SearchByTitle] else []) ++
            (if by_id then [PodcastsByFeedId] else []) ++
            (if by_url then [PodcastsByFeedUrl] else []) ++
            (if episodes then [EpisodesByFeedId] else [])).
  { rewrite Hlog, !endpoints_of_app, Hw, Hs, !app_nil_r.
    destruct again, by_id, by_url, episodes; reflexivity. }
  split; [exact Heps|]. split; [exact Hep|]. split.
  - rewrite Hlog. simpl. eauto.
  - rewrite Heps. destruct again, by_id, by_url, episodes; simpl; lia.
Qed.

(** ** The exceptions of one pass *)



(** ** The run, title by title *)

Lemma sleeps_of_requests (again by_id by_url episodes : bool) (q a1 a2 a3 : value) :
  sleeps_of
    (Request SearchByTerm q ::
     (if again then [Request SearchByTitle q] else []) ++
     (if by_id then [Request PodcastsByFeedId a1] else []) ++
     (if by_url then [Request PodcastsByFeedUrl a2] else []) ++
     (if episodes then [Request EpisodesByFeedId a3] else [])) = [].
Proof. destruct again, by_id, by_url, episodes; reflexivity. Qed.

Lemma upserts_of_requests (again by_id by_url episodes : bool) (q a1 a2 a3 : value) :
  upserts_of
    (Request SearchByTerm q ::
     (if again then [Request SearchByTitle q] else []) ++
     (if by_id then [Request PodcastsByFeedId a1] else []) ++
     (if by_url then [Request PodcastsByFeedUrl a2] else []) ++
     (if episodes then [Request EpisodesByFeedId a3] else [])) = [].
Proof. destruct again, by_id, by_url, episodes; reflexivity. Qed.

Lemma sleeps_of_sleeps l : sleeps_of (map Sleep l) = l.
Proof. induction l as [|q l IH]; [reflexivity | simpl; f_equal; exact IH]. Qed.

Lemma sleeps_of_upserts l : sleeps_of (map Upsert l) = [].
Proof. induction l as [|r l IH]; [reflexivity | exact IH]. Qed.

Lemma upserts_of_upserts l : upserts_of (map Upsert l) = l.
Proof. induction l as [|r l IH]; [reflexivity | simpl; f_equal; exact IH]. Qed.

Lemma upserts_of_sleeps l : upserts_of (map Sleep l) = [].
Proof. induction l as [|q l IH]; [reflexivity | exact IH]. Qed.

(** One pass: at most one upsert; one sleep, of 1 or 1.5 seconds, when it
    ends normally and none when it raises, which it never does with a
    [sqlite3.Error]. *)
Lemma pass_summary title s :
  (List.length (upserts_of (log (process_title title s))) <= 1)%nat /\
  match res (process_title title s) with
  | Ok _ =>
      sleeps_of (log (process_title title s)) = [1%Q] \/
      sleeps_of (log (process_title title s)) = [3 # 2]
  | Raise e =>
      sleeps_of (log (process_title title s)) = [] /\ sqlite_error e = false
  end.
Proof.
  destruct (process_title_shape title s)
    as (again & by_id & by_url & episodes & a1 & a2 & a3 & written & slept
        & Hlog & Hlen & _ & _ & Hres).
  rewrite Hlog, !upserts_of_app, !sleeps_of_app.
  rewrite upserts_of_requests, sleeps_of_requests, upserts_of_upserts,
    upserts_of_sleeps, sleeps_of_upserts, sleeps_of_sleeps, app_nil_r.
  cbn [app]. split; [exact Hlen|].
  destruct (res (process_title title s)) as [[]|e] eqn:Hr; [exact Hres|].
  split; [exact Hres|].
  exact (pass_raises_no_sqlite_error _ _ _ Hr).
Qed.

Lemma for_each_summary titles : forall s,
  let o := for_each titles process_title s in
  Forall (fun seconds => seconds = 1%Q \/ seconds = 3 # 2) (sleeps_of (log o)) /\
  (List.length (upserts_of (log o)) <= List.length titles)%nat /\
  match res o with
  | Ok _ => List.length (sleeps_of (log o)) = List.length titles
  | Raise e =>
      (List.length (sleeps_of (log o)) < List.length titles)%nat /\
      sqlite_error e = false
  end.
Proof.
  induction titles as [|title rest IH]; intros s; cbv zeta.
  - simpl. auto.
  - cbn [for_each]. rewrite run_bind.
    destruct (pass_summary title s) as [Hup Hsl].
    destruct (res (process_title title s)) as [[]|e]; cbn [res log].
    + specialize (IH (final (process_title title s))). cbv zeta in IH.
      destruct IH as (IH1 & IH2 & IH3).
      rewrite sleeps_of_app, upserts_of_app, !List.length_app.
      split; [|split].
      * apply Forall_app. split; [|exact IH1].
        destruct Hsl as [-> | ->]; (apply Forall_cons; [auto | constructor]).
      * cbn [List.length]. lia.
      * assert (Hone : List.length (sleeps_of (log (process_title title s))) = 1%nat)
          by (destruct Hsl as [-> | ->]; reflexivity).
        destruct (res (for_each rest process_title (final (process_title title s))))
          as [[]|e]; cbn [List.length]; [lia|].
        destruct IH3 as [IH3 IH4]. split; [lia | exact IH4].
    + destruct Hsl as [Hsl Hsql]. rewrite Hsl. cbn [List.length].
      split; [constructor|]. split; [lia|]. split; [lia | exact Hsql].
Qed.

(** X4: a run that ends normally has slept exactly once per title, each
    time for 1 or for 1.5 seconds, so for at least as many seconds as there
    are titles; a run that an exception ends has slept fewer times than
    there are titles, the titles after the failing one being left out. *)
Theorem run_sleeps_once_per_title (titles : list value) (s : state) :
  let o := update_all_podcast_details (Some titles) s in
  Forall (fun seconds => seconds = 1%Q \/ seconds = 3 # 2) (sleeps_of (log o)) /\
  match res o with
  | Ok _ => List.length (sleeps_of (log o)) = List.length titles
  | Raise _ => (List.length (sleeps_of (log o)) < List.length titles)%nat
  end.
Proof.
  cbv zeta.
  destruct (run_is_the_loop titles s) as (-> & -> & _).
  destruct (for_each_summary titles {| clock := clock s; table := [] |})
    as (H1 & _ & H3).
  cbv zeta in H1, H3. split; [exact H1|].
  destruct (res (for_each titles process_title {| clock := clock s; table := [] |}))
    as [[]|e]; [exact H3 | exact (proj1 H3)].
Qed.

(** ** The table a run leaves *)

Lemma in_upsert_inv r x t : In x (upsert r t) -> x = r \/ In x t.
Proof.
  unfold upsert. rewrite in_app_iff, filter_In. simpl.
  intros [[H _] | [H | []]]; auto.
Qed.

Lemma upsert_length r t : (List.length (upsert r t) <= S (List.length t))%nat.
Proof.
  unfold upsert. rewrite List.length_app. cbn [List.length].
  pose proof (filter_length_le
                (fun x => negb (Podcasts.podcast_id x =? Podcasts.podcast_id r)) t).
  lia.
Qed.

Lemma upsert_keeps_keys_apart r t :
  NoDup (map Podcasts.podcast_id t) ->
  NoDup (map Podcasts.podcast_id (upsert r t)).
Proof.
  intros Hnd. unfold upsert. rewrite map_app. cbn [map].
  apply NoDup_app; [| repeat constructor; intros [] |].
  - induction t as [|x t IH]; [constructor|].
    inversion Hnd as [|k ks Hnotin Hrest]; subst.
    cbn [filter].
    destruct (negb (Podcasts.podcast_id x =? Podcasts.podcast_id r)); [|auto].
    cbn [map]. constructor; [|auto].
    intros Hin. apply Hnotin. rewrite in_map_iff in *.
    destruct Hin as (y & Hy & Hin). apply filter_In in Hin as [Hin _]. eauto.
  - intros k Hin [<- | []].
    rewrite in_map_iff in Hin. destruct Hin as (y & Hy & Hin).
    apply filter_In in Hin as [_ Hne]. rewrite Hy, Z.eqb_refl in Hne.
    discriminate Hne.
Qed.

Lemma replay_invariants events : forall t,
  (NoDup (map Podcasts.podcast_id t) ->
   NoDup (map Podcasts.podcast_id (replay events t))) /\
  (forall r, In r (replay events t) -> In r t \/ In (Upsert r) events) /\
  (List.length (replay events t)
   <= List.length t + List.length (upserts_of events))%nat.
Proof.
  induction events as [|ev events IH]; intros t.
  - simpl. repeat split; auto. lia.
  - unfold replay in *. cbn [fold_left].
    destruct ev as [ep arg|seconds|r'].
    1-2: destruct (IH t) as (H1 & H2 & H3); repeat split; auto;
      intros r Hin; destruct (H2 r Hin); auto; right; now right.
    destruct (IH (upsert r' t)) as (H1 & H2 & H3).
    split; [|split].
    + intros Hnd. apply H1, upsert_keeps_keys_apart, Hnd.
    + intros r Hin. destruct (H2 r Hin) as [Hin' | Hin'].
      * apply in_upsert_inv in Hin' as [-> | Hin']; [right; now left | now left].
      * right. now right.
    + pose proof (upsert_length r' t). cbn [upserts_of flat_map app List.length].
      fold (upserts_of events). lia.
Qed.



(** ** What the table held before does not matter *)













(** ** A write that fails *)

(** X7: when a pass gets to its INSERT OR REPLACE (the episode statistics
    were returned and the print that announces the insert succeeded) and
    the insert fails with a [sqlite3.Error] (raised by the database, or
    because the feed id does not convert to an integer key), the pass still
    ends normally: no row is written, the table is left as it was, and the
    pass sleeps its 1.5 seconds, so the loop goes on with the next
    title. *)
Theorem failed_write_skips_the_row_only
    (title : value) (c d : list (string * value)) (info : value * value) (s : state) :
  res (search_podcast_combined title s) = Ok (VDict c) ->
  res (get_full_details (VDict c) (final (search_podcast_combined title s)))
    = Ok (VDict d) ->
  truthy (VDict d) = true ->
  truthy (get_or_none d "id") = true ->
  res (get_latest_episode_info (get_or_none d "id")
         (final (get_full_details (VDict c)
                   (final (search_podcast_combined title s))))) = Ok info ->
  insert_announced d info = Ok tt ->
  (rowid (get_or_none d "id") = None \/
   exists key e,
     rowid (get_or_none d "id") = Some key /\
     db (S (clock (final (get_full_details (VDict c)
                            (final (search_podcast_combined title s))))))
        (details_row c d key info) = DbRaises e /\
     sqlite_error e = true) ->
  res (process_title title s) = Ok tt /\
  (forall r, ~ In (Upsert r) (log (process_title title s))) /\
  table (final (process_title title s)) = table s /\
  sleeps_of (log (process_title title s)) = [3 # 2].
Proof.
  intros Hc Hd Htd Hid Hinfo Hann Hfail.
  pose proof (process_title_cases title s) as Hcases. cbv zeta in Hcases.
  rewrite Hc in Hcases.
  destruct (combined_result _ _ _ Hc) as [H | (Htc & _)]; [discriminate H|].
  rewrite Htc, Hd, Htd in Hcases.
  destruct (combined_quiet title s) as [Hq1 Ht1].
  destruct (get_full_details_quiet (VDict c) (final (search_podcast_combined title s)))
    as [Hq2 Ht2].
  destruct (episode_info_run (get_or_none d "id")
              (final (get_full_details (VDict c)
                        (final (search_podcast_combined title s))))) as [Hl3 Hf3].
  rewrite (episode_info_ok _ _ _ Hinfo) in Hl3, Hf3.
  assert (Hstep :
    res (process_details (VDict c) (VDict d)
           (final (get_full_details (VDict c)
                     (final (search_podcast_combined title s))))) = Ok tt /\
    log (process_details (VDict c) (VDict d)
           (final (get_full_details (VDict c)
                     (final (search_podcast_combined title s)))))
      = [Request EpisodesByFeedId (get_or_none d "id")] /\
    table (final (process_details (VDict c) (VDict d)
                    (final (get_full_details (VDict c)
                              (final (search_podcast_combined title s))))))
      = table (final (get_full_details (VDict c)
                        (final (search_podcast_combined title s))))).
  { rewrite process_details_dict. cbv zeta. rewrite Hid, Hinfo, Hann.
    destruct Hfail as [Hkey | (key & e & Hkey & Hdb & Hsql)];
      rewrite Hkey.
    - cbn [res log final]. rewrite Hl3, Hf3. auto.
    - rewrite Hf3. cbn [tick clock]. rewrite Hdb. cbn [res log final].
      rewrite Hsql, Hl3. auto. }
  destruct Hstep as (Hr3 & Hlog3 & Htab3).
  rewrite Hr3 in Hcases. destruct Hcases as (Hres & Hlog & Hfin).
  split; [exact Hres|].
  rewrite Forall_forall in Hq1, Hq2.
  split; [|split].
  - intros r Hin. rewrite Hlog, Hlog3, !in_app_iff in Hin.
    destruct Hin as [Hin | [Hin | [[H | []] | [H | []]]]]; try discriminate H.
    + destruct (Hq1 _ Hin) as [arg [H | H]]; discriminate H.
    + destruct (Hq2 _ Hin) as [arg [H | H]]; discriminate H.
  - rewrite Hfin, Htab3, Ht2, Ht1. reflexivity.
  - destruct (pass_summary title s) as [_ Hsl]. rewrite Hres in Hsl.
    destruct Hsl as [Hsl | Hsl]; [|exact Hsl].
    exfalso. rewrite Hlog, !sleeps_of_app in Hsl.
    apply (f_equal (@rev Q)) in Hsl. rewrite !rev_app_distr in Hsl.
    cbn in Hsl. discriminate Hsl.
Qed.

(** ** Results the loop cannot rate *)

Lemma match_loop_raises title_of query items x e :
  In x items ->
  candidate_ratio title_of query x = Raise e ->
  forall best, exists e', match_loop title_of query items best = Raise e'.
Proof.
  induction items as [|y rest IH]; intros Hin Hx best; [destruct Hin|].
  cbn [match_loop].
  destruct (match_step title_of query best y) as [best'|e'] eqn:Hstep;
    cbn [rbind]; [|eauto].
  destruct Hin as [-> | Hin]; [|apply IH; assumption].
  unfold match_step in Hstep. rewrite Hx in Hstep. discriminate Hstep.
Qed.

Lemma search_with_unratable ep results_of title_of query s data results items x e :
  net (clock s) ep query = Responded false (Some data) ->
  results_of data = Ok results ->
  py_iter results = Ok items ->
  In x items ->
  candidate_ratio title_of query x = Raise e ->
  res (search_with ep results_of title_of query s) = Ok VNone.
Proof.
  intros Hnet Hres Hiter Hin Hx.
  destruct (search_with_returns ep results_of title_of query s) as [v Hv].
  rewrite Hv. f_equal.
  destruct (match_loop_raises _ _ _ _ _ Hin Hx (VNone, 0%Q)) as [e' He'].
  destruct v; try reflexivity;
    (apply search_with_inv in Hv; [|discriminate]);
    destruct Hv as (data' & results' & items' & r & Hnet' & Hres' & _ & Hiter' & Hloop' & _);
    rewrite Hnet in Hnet'; injection Hnet' as <-;
    rewrite Hres in Hres'; injection Hres' as <-;
    rewrite Hiter in Hiter'; injection Hiter' as <-;
    rewrite He' in Hloop'; discriminate Hloop'.
Qed.

Lemma unratable_raises title_of query x :
  ((forall d, x <> VDict d) /\ title_of x = Raise AttributeError) \/
  (exists t, title_of x = Ok t /\ truthy t = true /\ forall u, t <> VStr u) ->
  exists e, candidate_ratio title_of query x = Raise e.
Proof.
  unfold candidate_ratio.
  intros [[_ ->] | (t & -> & Ht & Hns)]; cbn [rbind]; [eauto|].
  rewrite Ht. cbn [negb].
  destruct (py_lower query) as [q|e]; cbn [rbind]; [|eauto].
  destruct t; cbn [py_lower rbind]; eauto.
  exfalso. eapply Hns. reflexivity.
Qed.

(** X8: one result that the loop cannot rate discards the whole strategy:
    when the list of the reply holds an element that is no dict, or a dict
    whose title is truthy and no string, the [except Exception] of the
    strategy returns [None], whatever the other results are and wherever
    the element stands, also behind an exact match. *)
Theorem one_malformed_result_discards_the_search (query : value) (s : state) :
  (forall data results items x,
     net (clock s) SearchByTerm query = Responded false (Some data) ->
     byterm_results data = Ok results ->
     py_iter results = Ok items ->
     In x items ->
     ((forall d, x <> VDict d) \/
      (exists t, byterm_title x = Ok t /\ truthy t = true /\ forall u, t <> VStr u)) ->
     res (search_byterm query s) = Ok VNone) /\
  (forall data results items x,
     net (clock s) SearchByTitle query = Responded false (Some data) ->
     bytitle_results data = Ok results ->
     py_iter results = Ok items ->
     In x items ->
     ((forall d, x <> VDict d) \/
      (exists t, bytitle_title x = Ok t /\ truthy t = true /\ forall u, t <> VStr u)) ->
     res (search_bytitle query s) = Ok VNone).
Proof.
  split; intros data results items x Hnet Hres Hiter Hin Hbad.
  - assert (Hx : exists e, candidate_ratio byterm_title query x = Raise e).
    { apply unratable_raises. destruct Hbad as [Hnd | Ht]; [left | right; exact Ht].
      split; [exact Hnd|].
      destruct x; try reflexivity. exfalso. eapply Hnd. reflexivity. }
    destruct Hx as [e Hx]. rewrite search_byterm_shape.
    eapply search_with_unratable; eassumption.
  - assert (Hx : exists e, candidate_ratio bytitle_title query x = Raise e).
    { apply unratable_raises. destruct Hbad as [Hnd | Ht]; [left | right; exact Ht].
      split; [exact Hnd|].
      destruct x; try reflexivity. exfalso. eapply Hnd. reflexivity. }
    destruct Hx as [e Hx]. rewrite search_bytitle_shape.
    eapply search_with_unratable; eassumption.
Qed.

(** ** A title that is no string *)

(** X9: a title that is no string (the NULL a chart row without a name
    leaves in [Top100Lists], say) never resolves: the pass sends the term
    search and the title search, finds no candidate in either whatever the
    directory replies, sleeps one second and writes nothing. *)
Theorem title_that_is_no_string_never_resolves (title : value) (s : state) :
  (forall q, title <> VStr q) ->
  res (process_title title s) = Ok tt /\
  log (process_title title s) =
    [Request SearchByTerm title; Request SearchByTitle title; Sleep 1] /\
  table (final (process_title title s)) = table s.
Proof.
  intros Hns.
  assert (Hmiss : forall ep results_of title_of st,
            res (search_with ep results_of title_of title st) = Ok VNone).
  { intros ep results_of title_of st.
    destruct (search_with_returns ep results_of title_of title st) as [v Hv].
    rewrite Hv. f_equal.
    destruct v; try reflexivity;
      (apply search_with_accepts in Hv; [|discriminate]);
      destruct Hv as (_ & _ & _ & q & _ & _ & _ & _ & _ & Hq & _);
      exfalso; exact (Hns q Hq). }
  pose proof (Hmiss SearchByTerm byterm_results byterm_title s) as H1.
  rewrite <- search_byterm_shape in H1.
  destruct (combined_after_miss title s VNone H1 eq_refl)
    as (v' & Hv' & Hres & Hlog & Hfin).
  rewrite search_bytitle_shape, Hmiss in Hv'. injection Hv' as <-.
  cbn [announced truthy] in Hres.
  pose proof (process_title_cases title s) as Hcases. cbv zeta in Hcases.
  rewrite Hres in Hcases. cbn [truthy] in Hcases.
  destruct Hcases as (-> & -> & ->).
  rewrite Hlog, Hfin. auto.
Qed.

(** ** The episode statistics on replies of any shape *)

Lemma duration_loop_raises episodes x :
  In x episodes ->
  (forall d, x <> VDict d) ->
  forall acc, exists e, duration_loop episodes acc = Raise e.
Proof.
  induction episodes as [|y rest IH]; intros Hin Hnd acc; [destruct Hin|].
  cbn [duration_loop].
  destruct (duration_step acc y) as [acc'|e] eqn:Hstep; cbn [rbind]; [|eauto].
  destruct Hin as [-> | Hin]; [|apply IH; assumption].
  exfalso. destruct x; try discriminate Hstep. eapply Hnd. reflexivity.
Qed.

Lemma bind_lift_res {A B} (r : result A) (f : A -> M B) (s : state) :
  res (bind (lift r) f s) =
  match r with
  | Ok a => res (f a s)
  | Raise e => Raise e
  end.
Proof. destruct r; reflexivity. Qed.

(** What the [try] of [get_latest_episode_info] does with the decoded
    reply. *)
Lemma episodes_try_body data s :
  res ((items <- lift (dict_get data "items" (VList [])) ;;
        if negb (truthy items) then ret (VNone, VNone)
        else
          first <- lift (py_first items) ;;
          latest_episode_title <- lift (dict_get first "title" VNone) ;;
          _ <- lift (py_print [latest_episode_title]) ;;
          episodes <- lift (py_iter items) ;;
          totals <- lift (duration_loop episodes (0, 0)) ;;
          if 0 <? snd totals then
            average_duration <- lift (int_truediv (fst totals) (snd totals)) ;;
            ret (VInt average_duration, latest_episode_title)
          else ret (VNone, latest_episode_title)) s) =
  statistics_of data.
Proof.
  unfold statistics_of. rewrite bind_lift_res.
  destruct (dict_get data "items" (VList [])) as [items|e]; cbn [rbind]; [|reflexivity].
  destruct (negb (truthy items)); [reflexivity|].
  rewrite bind_lift_res.
  destruct (py_first items) as [first|e]; cbn [rbind]; [|reflexivity].
  rewrite bind_lift_res.
  destruct (dict_get first "title" VNone) as [latest|e]; cbn [rbind]; [|reflexivity].
  rewrite bind_lift_res.
  destruct (py_print [latest]) as [[]|e]; cbn [rbind]; [|reflexivity].
  rewrite bind_lift_res.
  destruct (py_iter items) as [episodes|e]; cbn [rbind]; [|reflexivity].
  rewrite bind_lift_res.
  destruct (duration_loop episodes (0, 0)) as [totals|e]; cbn [rbind]; [|reflexivity].
  destruct (0 <? snd totals); [|reflexivity].
  rewrite bind_lift_res.
  destruct (int_truediv (fst totals) (snd totals)); reflexivity.
Qed.

(** The result of that [try], computed from the reply. *)
Lemma episodes_try_res feed_id s :
  res (episodes_try feed_id s) =
  match net (clock s) EpisodesByFeedId feed_id with
  | Responded false (Some data) =>
      match statistics_of data with
      | Ok info => Ok info
      | Raise _ => Ok (VNone, VNone)
      end
  | _ => Ok (VNone, VNone)
  end.
Proof.
  destruct (error_reply (net (clock s) EpisodesByFeedId feed_id)) eqn:Herr.
  { destruct (get_json_error EpisodesByFeedId feed_id s Herr) as [e He].
    assert (Hres : res (episodes_try feed_id s) = Ok (VNone, VNone)).
    { unfold episodes_try. apply try_any_raise with (e := e).
      rewrite run_bind, He. reflexivity. }
    rewrite Hres.
    destruct (net (clock s) EpisodesByFeedId feed_id) as [|[] [data|]];
      try reflexivity; discriminate Herr. }
  destruct (net (clock s) EpisodesByFeedId feed_id) as [|[] [data|]] eqn:Hnet;
    try discriminate Herr.
  apply get_json_ok in Hnet.
  unfold episodes_try, try_except.
  rewrite run_bind, Hnet. cbn [res log final].
  rewrite episodes_try_body.
  destruct (statistics_of data) as [info|e]; reflexivity.
Qed.

(** The result of [get_latest_episode_info], computed from the reply. *)
Lemma episode_info_res feed_id s :
  res (get_latest_episode_info feed_id s) =
  if prints feed_id then
    match net (clock s) EpisodesByFeedId feed_id with
    | Responded false (Some data) =>
        match statistics_of data with
        | Ok info => Ok info
        | Raise _ => Ok (VNone, VNone)
        end
    | _ => Ok (VNone, VNone)
    end
  else Raise UnicodeEncodeError.
Proof.
  rewrite episode_info_cases. destruct (prints feed_id); [|reflexivity].
  apply episodes_try_res.
Qed.

(** What the statistics are when they are computed: an average that is
    [None] or an integer, a title that could be printed. *)
Lemma statistics_of_shape data average latest :
  statistics_of data = Ok (average, latest) ->
  (average = VNone \/ exists z, average = VInt z) /\ prints latest = true.
Proof.
  unfold statistics_of.
  destruct (dict_get data "items" (VList [])) as [items|e]; cbn [rbind]; [|discriminate].
  destruct (negb (truthy items)); [intros H; injection H as <- <-; auto|].
  destruct (py_first items) as [first|e]; cbn [rbind]; [|discriminate].
  destruct (dict_get first "title" VNone) as [title|e]; cbn [rbind]; [|discriminate].
  rewrite py_print_one. destruct (prints title) eqn:Hp; cbn [rbind]; [|discriminate].
  destruct (py_iter items) as [episodes|e]; cbn [rbind]; [|discriminate].
  destruct (duration_loop episodes (0, 0)) as [totals|e]; cbn [rbind]; [|discriminate].
  destruct (0 <? snd totals); [|intros H; injection H as <- <-; auto].
  destruct (int_truediv (fst totals) (snd totals)) as [z|e]; cbn [rbind]; [|discriminate].
  intros H. injection H as <- <-. eauto.
Qed.

Lemma episode_info_average feed_id s average latest :
  res (get_latest_episode_info feed_id s) = Ok (average, latest) ->
  (average = VNone \/ exists z, average = VInt z) /\ prints latest = true.
Proof.
  rewrite episode_info_res. destruct (prints feed_id); [|discriminate].
  destruct (net (clock s) EpisodesByFeedId feed_id) as [|[] [data|]];
    try (intros H; injection H as <- <-; auto).
  destruct (statistics_of data) as [[a l]|e] eqn:Hs;
    [|intros H; injection H as <- <-; auto].
  intros H. injection H as <- <-. exact (statistics_of_shape _ _ _ Hs).
Qed.

(** X10: [get_latest_episode_info] raises in one case only: when its
    argument cannot be printed, at the print before its [try], with no
    request sent.  For an argument that can be printed it returns, whatever
    the directory replies; the average it returns is [None] or an integer
    and the title it returns could be printed.  It returns [(None, None)]
    on a transport error, an error status or an undecodable body, on a reply
    that is no object, on a reply without episodes, when the title of the
    first episode cannot be printed, and as soon as one element of the
    episode list is no object: one malformed episode discards the title of
    the first episode and the average of all the others. *)
Theorem episode_statistics_raise_only_at_the_first_print (feed_id : value) (s : state) :
  if prints feed_id then
    (exists average latest,
       res (get_latest_episode_info feed_id s) = Ok (average, latest) /\
       (average = VNone \/ exists z, average = VInt z) /\
       prints latest = true) /\
    (error_reply (net (clock s) EpisodesByFeedId feed_id) = true ->
     res (get_latest_episode_info feed_id s) = Ok (VNone, VNone)) /\
    (forall data,
       net (clock s) EpisodesByFeedId feed_id = Responded false (Some data) ->
       (forall d, data <> VDict d) ->
       res (get_latest_episode_info feed_id s) = Ok (VNone, VNone)) /\
    (forall data items,
       net (clock s) EpisodesByFeedId feed_id = Responded false (Some data) ->
       dict_get data "items" (VList []) = Ok items ->
       truthy items = false ->
       res (get_latest_episode_info feed_id s) = Ok (VNone, VNone)) /\
    (forall data items first latest,
       net (clock s) EpisodesByFeedId feed_id = Responded false (Some data) ->
       dict_get data "items" (VList []) = Ok items ->
       py_first items = Ok first ->
       dict_get first "title" VNone = Ok latest ->
       prints latest = false ->
       res (get_latest_episode_info feed_id s) = Ok (VNone, VNone)) /\
    (forall data items episodes x,
       net (clock s) EpisodesByFeedId feed_id = Responded false (Some data) ->
       dict_get data "items" (VList []) = Ok items ->
       py_iter items = Ok episodes ->
       In x episodes ->
       (forall d, x <> VDict d) ->
       res (get_latest_episode_info feed_id s) = Ok (VNone, VNone))
  else
    res (get_latest_episode_info feed_id s) = Raise UnicodeEncodeError /\
    log (get_latest_episode_info feed_id s) = [].
Proof.
  destruct (episode_info_run feed_id s) as [Hlog _].
  rewrite episode_info_res. destruct (prints feed_id) eqn:Hp; [|auto].
  split; [|split; [|split; [|split; [|split]]]].
  - destruct (episode_info_returns feed_id s Hp) as [[average latest] Hinfo].
    pose proof (episode_info_average _ _ _ _ Hinfo) as [Hshape Hlatest].
    rewrite episode_info_res, Hp in Hinfo. eauto.
  - intros Herr.
    destruct (net (clock s) EpisodesByFeedId feed_id) as [|[] [data|]];
      try reflexivity; discriminate Herr.
  - intros data Hnet Hnd. rewrite Hnet.
    destruct data; try reflexivity. exfalso. eapply Hnd. reflexivity.
  - intros data items Hnet Hitems Hfalsy.
    rewrite Hnet. unfold statistics_of. rewrite Hitems. cbn [rbind]. rewrite Hfalsy.
    reflexivity.
  - intros data items first latest Hnet Hitems Hfirst Htitle Hunp.
    rewrite Hnet. unfold statistics_of. rewrite Hitems. cbn [rbind].
    destruct (negb (truthy items)); [reflexivity|].
    rewrite Hfirst. cbn [rbind]. rewrite Htitle. cbn [rbind].
    rewrite py_print_one, Hunp. reflexivity.
  - intros data items episodes x Hnet Hitems Hiter Hin Hnd.
    rewrite Hnet. unfold statistics_of. rewrite Hitems. cbn [rbind].
    destruct (negb (truthy items)); [reflexivity|].
    destruct (py_first items) as [first|e]; cbn [rbind]; [|reflexivity].
    destruct (dict_get first "title" VNone) as [latest|e]; cbn [rbind]; [|reflexivity].
    destruct (py_print [latest]) as [[]|e]; cbn [rbind]; [|reflexivity].
    rewrite Hiter. cbn [rbind].
    destruct (duration_loop_raises _ _ Hin Hnd (0, 0)) as [e ->]. reflexivity.
Qed.

(** ** The strategies, computed from the reply *)





(** ** What a stored row is made of *)

Lemma upsert_in_pass title s r :
  In (Upsert r) (log (process_title title s)) ->
  exists c d s', In (Upsert r) (log (process_details (VDict c) (VDict d) s')).
Proof.
  clear start_fault. intros Hin.
  pose proof (process_title_cases title s) as Hcases. cbv zeta in Hcases.
  destruct (combined_quiet title s) as [Hq1 _]. rewrite Forall_forall in Hq1.
  assert (Hno1 : ~ In (Upsert r) (log (search_podcast_combined title s))).
  { intros H. destruct (Hq1 _ H) as [arg [E | E]]; discriminate E. }
  destruct (res (search_podcast_combined title s)) as [candidate|e0] eqn:Hc.
  2:{ destruct Hcases as (_ & Hlog & _). rewrite Hlog in Hin. contradiction. }
  destruct (combined_result _ _ _ Hc) as [-> | (Htc & c & -> & _)].
  { simpl in Hcases. destruct Hcases as (_ & Hlog & _).
    rewrite Hlog, in_app_iff in Hin.
    destruct Hin as [Hin | [H | []]]; [contradiction | discriminate H]. }
  rewrite Htc in Hcases.
  destruct (get_full_details_quiet (VDict c) (final (search_podcast_combined title s)))
    as [Hq2 _]. rewrite Forall_forall in Hq2.
  assert (Hno2 : ~ In (Upsert r)
            (log (get_full_details (VDict c) (final (search_podcast_combined title s))))).
  { intros H. destruct (Hq2 _ H) as [arg [E | E]]; discriminate E. }
  destruct (res (get_full_details (VDict c) (final (search_podcast_combined title s))))
    as [full_details|e] eqn:Hd.
  2:{ destruct Hcases as (_ & Hlog & _). rewrite Hlog, in_app_iff in Hin. tauto. }
  destruct (truthy full_details) eqn:Htd.
  2:{ destruct Hcases as (_ & Hlog & _). rewrite Hlog, !in_app_iff in Hin.
      destruct Hin as [Hin | [Hin | [H | []]]]; [tauto | tauto | discriminate H]. }
  assert (Hin3 : In (Upsert r)
            (log (process_details (VDict c) full_details
                    (final (get_full_details (VDict c)
                              (final (search_podcast_combined title s))))))).
  { destruct (res (process_details (VDict c) full_details _)) as [[]|e];
      destruct Hcases as (_ & Hlog & _); rewrite Hlog, !in_app_iff in Hin.
    - destruct Hin as [Hin | [Hin | [Hin | [H | []]]]];
        [tauto | tauto | exact Hin | discriminate H].
    - destruct Hin as [Hin | [Hin | Hin]]; [tauto | tauto | exact Hin]. }
  destruct full_details as [| | | | | |d].
  1-6: exfalso;
    match type of Hin3 with
    | In _ (log (process_details ?c0 ?v ?st)) =>
        destruct (process_details_not_a_dict c0 v st) as (Hl & _);
          [intros; discriminate | rewrite Hl in Hin3; exact Hin3]
    end.
  eauto.
Qed.

Lemma upsert_in_for_each titles r : forall s,
  In (Upsert r) (log (for_each titles process_title s)) ->
  exists title s', In title titles /\ In (Upsert r) (log (process_title title s')).
Proof.
  induction titles as [|title rest IH]; intros s Hin; [destruct Hin|].
  cbn [for_each] in Hin. rewrite run_bind in Hin.
  destruct (res (process_title title s)) as [[]|e]; cbn [log] in Hin.
  - rewrite in_app_iff in Hin. destruct Hin as [Hin | Hin].
    + exists title, s. split; [now left | exact Hin].
    + destruct (IH _ Hin) as (title' & s' & Ht & Hin').
      exists title', s'. split; [now right | exact Hin'].
  - exists title, s. split; [now left | exact Hin].
Qed.

Lemma categories_to_json_text categories_dict :
  categories_to_json categories_dict = VNone \/
  exists text, categories_to_json categories_dict = VStr text.
Proof.
  unfold categories_to_json.
  destruct categories_dict as [| | | |text|l|d]; eauto.
  destruct d; [auto|]. destruct (json_dumps _); eauto.
Qed.

(** X12: whatever the directory replies, every row of the table a run
    leaves was assembled for one of the run's titles, and two of its
    columns have a fixed shape: the categories are text (the JSON of a
    non-empty dict, or the string the directory sent) or NULL, never a dict
    or a list, and the average duration is an integer or NULL. *)
Theorem stored_rows_hold_text_and_integers
    (titles : list value) (s : state) (r : Podcasts.row) :
  In r (table (final (update_all_podcast_details (Some titles) s))) ->
  (exists title s', In title titles /\ In (Upsert r) (log (process_title title s'))) /\
  (Podcasts.categories r = VNone \/ exists text, Podcasts.categories r = VStr text) /\
  (Podcasts.avg_duration_last_10 r = VNone \/
   exists z, Podcasts.avg_duration_last_10 r = VInt z).
Proof.
  intros Hin. rewrite run_table in Hin.
  destruct (replay_invariants (log (update_all_podcast_details (Some titles) s)) [])
    as (_ & H2 & _).
  destruct (H2 r Hin) as [[] | Hlog].
  destruct (run_is_the_loop titles s) as (_ & Hl & _). cbv zeta in Hl.
  rewrite Hl in Hlog.
  destruct (upsert_in_for_each _ _ _ Hlog) as (title & s' & Ht & Hpass).
  split; [eauto|].
  destruct (upsert_in_pass _ _ _ Hpass) as (c & d & s'' & Hstep).
  apply upsert_in_process_details in Hstep
    as (key & info & _ & _ & Hinfo & _ & ->).
  cbn [details_row Podcasts.categories Podcasts.avg_duration_last_10].
  split; [apply categories_to_json_text|].
  destruct info as [average latest].
  exact (proj1 (episode_info_average _ _ _ _ Hinfo)).
Qed.

End Script.

(** * Sample runs *)

(** ** The scenarios of the specification *)

Example the_daily_is_selected :
  res (search_podcast_combined ascii_lower scenario_ratio utf8_stdout the_daily_net
         (VStr "The Daily") fresh) = Ok (VDict the_daily_candidate).
Proof. vm_compute. reflexivity. Qed.

Example scenario_average_is_750 :
  res (get_latest_episode_info utf8_stdout the_daily_net (VInt 1) fresh)
  = Ok (VInt 750, VStr "Monday").
Proof. vm_compute. reflexivity. Qed.

Example the_daily_title_run :
  log (process_title ascii_lower scenario_ratio braces_dumps utf8_stdout
         python_3_12 no_coercion
         the_daily_net always_commits (VStr "The Daily") fresh)
  = [Request SearchByTerm (VStr "The Daily");
     Request PodcastsByFeedId (VInt 1);
     Request EpisodesByFeedId (VInt 1);
     Upsert the_daily_row;
     Sleep (3 # 2)].
Proof. vm_compute. reflexivity. Qed.

Example same_feed_twice_run :
  log (update_all_podcast_details ascii_lower scenario_ratio braces_dumps utf8_stdout
         python_3_12 no_coercion
         episodes_down_net always_commits no_chart_table
         (Some [VStr "The Daily"; VStr "Daily"]) fresh)
  = [Request SearchByTerm (VStr "The Daily");
     Request PodcastsByFeedId (VInt 1);
     Request EpisodesByFeedId (VInt 1);
     Upsert (stamped_row 1);
     Sleep (3 # 2);
     Request SearchByTerm (VStr "Daily");
     Request PodcastsByFeedId (VInt 1);
     Request EpisodesByFeedId (VInt 1);
     Upsert (stamped_row 5);
     Sleep (3 # 2)].
Proof. vm_compute. reflexivity. Qed.

Example nothing_found_run :
  log (process_title ascii_lower scenario_ratio braces_dumps utf8_stdout
         python_3_12 no_coercion
         unreachable_net always_commits (VStr "The Daily") fresh)
  = [Request SearchByTerm (VStr "The Daily");
     Request SearchByTitle (VStr "The Daily");
     Sleep 1].
Proof. vm_compute. reflexivity. Qed.

Example details_by_url_run :
  log (process_title ascii_lower scenario_ratio braces_dumps utf8_stdout
         python_3_12 no_coercion
         by_url_only_net always_commits (VStr "The Daily") fresh)
  = [Request SearchByTerm (VStr "The Daily");
     Request PodcastsByFeedId (VInt 1);
     Request PodcastsByFeedUrl (VStr "https://feeds.example/the-daily");
     Request EpisodesByFeedId (VInt 1);
     Upsert (details_row braces_dumps the_daily_candidate the_daily_feed 1
               (VNone, VNone));
     Sleep (3 # 2)].
Proof. vm_compute. reflexivity. Qed.

(** Past [2^53] the division rounds: the average of one episode of
    [2^53 + 1] seconds comes out as [2^53]. *)
Example endless_episode_average_is_rounded :
  res (get_latest_episode_info utf8_stdout endless_episode_net (VInt 1) fresh)
  = Ok (VInt 9007199254740992, VStr "Forever").
Proof. vm_compute. reflexivity. Qed.

(** A feed URL that is no string makes the fetch by URL raise, at the
    slice its first [print] takes before the [try]. *)
Example numeric_feed_url_raises :
  res (get_full_podcast_details_by_feed_url utf8_stdout python_3_12 the_daily_net (VInt 5) fresh)
  = Raise TypeError.
Proof. reflexivity. Qed.

(** A search result whose title cannot be printed is not returned: the
    print of the best match sits inside the [try] of the strategy. *)
Example unprintable_title_is_not_found :
  res (search_byterm ascii_lower scenario_ratio utf8_stdout surrogate_title_net
         (VStr "The Daily") fresh) = Ok VNone.
Proof. vm_compute. reflexivity. Qed.

(** A search result whose id cannot be printed makes the combined search
    raise: its print of the candidate sits outside any [try]. *)
Example unprintable_id_is_raised :
  res (search_podcast_combined ascii_lower scenario_ratio utf8_stdout surrogate_id_net
         (VStr "The Daily") fresh) = Raise UnicodeEncodeError.
Proof. vm_compute. reflexivity. Qed.

(** A first episode whose title cannot be printed loses the statistics. *)
Example unprintable_episode_title_loses_the_statistics :
  res (get_latest_episode_info utf8_stdout surrogate_episode_net (VInt 1) fresh)
  = Ok (VNone, VNone).
Proof. vm_compute. reflexivity. Qed.

(** A dict where a feed URL should be: the slice raises a [KeyError] where
    slices are hashable and a [TypeError] where they are not. *)
Example dict_feed_url_raises :
  res (get_full_podcast_details_by_feed_url utf8_stdout true the_daily_net
         (VDict []) fresh) = Raise KeyError /\
  res (get_full_podcast_details_by_feed_url utf8_stdout false the_daily_net
         (VDict []) fresh) = Raise TypeError.
Proof. split; reflexivity. Qed.

(** A title whose search finds a candidate without details: nothing is
    written and the pass sleeps 1.5 seconds. *)
Example title_without_details_run :
  log (process_title ascii_lower scenario_ratio braces_dumps utf8_stdout python_3_12
         no_coercion search_only_net always_commits (VStr "The Daily") fresh)
  = [Request SearchByTerm (VStr "The Daily");
     Request PodcastsByFeedId (VInt 1);
     Request PodcastsByFeedUrl (VStr "https://feeds.example/the-daily");
     Sleep (3 # 2)].
Proof. vm_compute. reflexivity. Qed.

(** A run whose database is locked ends at its [DROP TABLE], with the
    table as it was; a run that finds no chart table ends at its [SELECT],
    with the table emptied. *)
Example locked_database_run :
  let o := update_all_podcast_details ascii_lower scenario_ratio braces_dumps
             utf8_stdout python_3_12 no_coercion the_daily_net always_commits
             locked_database None {| clock := 0; table := [the_daily_row] |} in
  res o = Ok tt /\ log o = [] /\ table (final o) = [the_daily_row].
Proof. vm_compute. auto. Qed.

Example no_chart_table_run :
  let o := update_all_podcast_details ascii_lower scenario_ratio braces_dumps
             utf8_stdout python_3_12 no_coercion the_daily_net always_commits
             no_chart_table None {| clock := 0; table := [the_daily_row] |} in
  res o = Ok tt /\ log o = [] /\ table (final o) = [].
Proof. vm_compute. auto. Qed.

(** ** The claims on sample runs *)

Lemma failed_resolution_witness :
  res (process_title ascii_lower scenario_ratio braces_dumps utf8_stdout
         python_3_12 no_coercion
         unreachable_net always_commits (VStr "The Daily") fresh) = Ok tt /\
  log (process_title ascii_lower scenario_ratio braces_dumps utf8_stdout
         python_3_12 no_coercion
         unreachable_net always_commits (VStr "The Daily") fresh)
    = log (search_podcast_combined ascii_lower scenario_ratio utf8_stdout unreachable_net
             (VStr "The Daily") fresh) ++ [Sleep 1] /\
  Forall search_request
    (log (search_podcast_combined ascii_lower scenario_ratio utf8_stdout unreachable_net
            (VStr "The Daily") fresh)) /\
  (forall r, ~ In (Upsert r)
     (log (process_title ascii_lower scenario_ratio braces_dumps utf8_stdout
         python_3_12 no_coercion
             unreachable_net always_commits (VStr "The Daily") fresh))) /\
  table (final (process_title ascii_lower scenario_ratio braces_dumps utf8_stdout
         python_3_12 no_coercion
                  unreachable_net always_commits (VStr "The Daily") fresh))
    = table fresh.
Proof.
  apply (proj1 (failed_resolution_or_detail_writes_nothing ascii_lower scenario_ratio
                  braces_dumps utf8_stdout python_3_12 no_coercion unreachable_net always_commits
                  (VStr "The Daily") fresh) VNone);
    reflexivity.
Defined.

Lemma accepted_candidate_witness :
  exists data results items q t,
    the_daily_net (clock fresh) SearchByTerm (VStr "The Daily")
      = Responded false (Some data) /\
    byterm_results data = Ok results /\
    py_iter results = Ok items /\
    In (VDict the_daily_candidate) items /\
    VStr "The Daily" = VStr q /\
    byterm_title (VDict the_daily_candidate) = Ok (VStr t) /\
    match_loop ascii_lower scenario_ratio byterm_title (VStr "The Daily") items
      (VNone, 0%Q)
      = Ok (VDict the_daily_candidate, scenario_ratio (ascii_lower q) (ascii_lower t)) /\
    (4 # 10 <= scenario_ratio (ascii_lower q) (ascii_lower t))%Q.
Proof.
  apply (proj1 (accepted_candidate_scores_at_least_threshold ascii_lower
                  scenario_ratio utf8_stdout the_daily_net (VStr "The Daily") fresh)).
  - reflexivity.
  - discriminate.
Defined.

Lemma loop_selects_first_greatest_witness :
  (exists pre post,
     tie_results = pre ++ VDict the_daily_candidate :: post /\
     candidate_ratio ascii_lower scenario_ratio byterm_title (VStr "The Daily")
       (VDict the_daily_candidate) = Ok (Some 1%Q) /\
     (0 < 1)%Q /\
     (forall x r, In x pre ->
        candidate_ratio ascii_lower scenario_ratio byterm_title (VStr "The Daily") x
          = Ok (Some r) -> (r < 1)%Q) /\
     (forall x r, In x post ->
        candidate_ratio ascii_lower scenario_ratio byterm_title (VStr "The Daily") x
          = Ok (Some r) -> (r <= 1)%Q))
  \/
  (VDict the_daily_candidate = VNone /\
   forall x r, In x tie_results ->
     candidate_ratio ascii_lower scenario_ratio byterm_title (VStr "The Daily") x
       = Ok (Some r) -> (r <= 0)%Q).
Proof.
  apply loop_selects_first_greatest. reflexivity.
Defined.


Lemma last_upsert_wins_witness :
  filter (fun x => Podcasts.podcast_id x =? Podcasts.podcast_id (stamped_row 5))
    (table (final (update_all_podcast_details ascii_lower scenario_ratio braces_dumps utf8_stdout python_3_12
                     no_coercion episodes_down_net always_commits no_chart_table
                     (Some [VStr "The Daily"; VStr "Daily"]) fresh)))
  = [stamped_row 5].
Proof.
  apply (last_upsert_wins ascii_lower scenario_ratio braces_dumps utf8_stdout
           python_3_12 no_coercion episodes_down_net always_commits no_chart_table
           (Some [VStr "The Daily"; VStr "Daily"]) fresh
           [Request SearchByTerm (VStr "The Daily");
            Request PodcastsByFeedId (VInt 1);
            Request EpisodesByFeedId (VInt 1);
            Upsert (stamped_row 1);
            Sleep (3 # 2);
            Request SearchByTerm (VStr "Daily");
            Request PodcastsByFeedId (VInt 1);
            Request EpisodesByFeedId (VInt 1)]
           [Sleep (3 # 2)]
           (stamped_row 5)).
  - vm_compute. reflexivity.
  - intros r' [H | []]. discriminate H.
Defined.

Lemma no_row_without_detail_id_witness :
  res (process_title ascii_lower scenario_ratio braces_dumps utf8_stdout
         python_3_12 no_coercion
         no_id_net always_commits (VStr "The Daily") fresh) = Ok tt /\
  (forall r, ~ In (Upsert r)
     (log (process_title ascii_lower scenario_ratio braces_dumps utf8_stdout
         python_3_12 no_coercion
             no_id_net always_commits (VStr "The Daily") fresh))) /\
  (forall arg, ~ In (Request EpisodesByFeedId arg)
     (log (process_title ascii_lower scenario_ratio braces_dumps utf8_stdout
         python_3_12 no_coercion
             no_id_net always_commits (VStr "The Daily") fresh))) /\
  table (final (process_title ascii_lower scenario_ratio braces_dumps utf8_stdout
         python_3_12 no_coercion
                  no_id_net always_commits (VStr "The Daily") fresh))
  = table fresh.
Proof.
  apply (no_row_without_detail_id ascii_lower scenario_ratio braces_dumps utf8_stdout
         python_3_12 no_coercion
           no_id_net always_commits (VStr "The Daily")
           (VDict the_daily_candidate) [("title", VStr "The Daily")] fresh);
    reflexivity.
Defined.

Lemma stored_row_sources_witness :
  exists c d key info,
    res (search_podcast_combined ascii_lower scenario_ratio utf8_stdout the_daily_net
           (VStr "The Daily") fresh) = Ok (VDict c) /\
    res (get_full_details utf8_stdout python_3_12 the_daily_net (VDict c)
           (final (search_podcast_combined ascii_lower scenario_ratio utf8_stdout the_daily_net
                     (VStr "The Daily") fresh))) = Ok (VDict d) /\
    rowid no_coercion (get_or_none d "id") = Some key /\
    res (get_latest_episode_info utf8_stdout the_daily_net (get_or_none d "id")
           (final (get_full_details utf8_stdout python_3_12 the_daily_net (VDict c)
                     (final (search_podcast_combined ascii_lower scenario_ratio utf8_stdout
                               the_daily_net (VStr "The Daily") fresh)))))
      = Ok info /\
    Podcasts.feed_url the_daily_row = either (get_or_none d "url") (get_or_none c "url") /\
    Podcasts.original_url the_daily_row =
      either (get_or_none d "originalUrl") (get_or_none c "originalUrl") /\
    Podcasts.avg_duration_last_10 the_daily_row = fst info /\
    Podcasts.latest_episode_title the_daily_row = snd info /\
    Podcasts.podcast_id the_daily_row = key /\
    Podcasts.title the_daily_row = get_or_none d "title" /\
    Podcasts.description the_daily_row = get_or_none d "description" /\
    Podcasts.image_url the_daily_row =
      either (get_or_none d "image") (get_or_none d "artwork") /\
    Podcasts.episode_count the_daily_row = get_or_none d "episodeCount" /\
    Podcasts.last_update_time the_daily_row = get_or_none d "lastUpdateTime" /\
    Podcasts.categories the_daily_row =
      categories_to_json braces_dumps (get_or_none d "categories") /\
    Podcasts.podcast_guid the_daily_row = get_or_none d "podcastGuid".
Proof.
  apply (stored_row_sources ascii_lower scenario_ratio braces_dumps utf8_stdout
           python_3_12 no_coercion the_daily_net always_commits (VStr "The Daily")
           fresh the_daily_row).
  vm_compute. auto.
Defined.

(** ** Where the claims as stated fail *)

(** C1 fails on the code: with the episode endpoint down the statistics come
    back as [(None, None)] and the row is written all the same. *)
Lemma failed_episode_stats_still_write_a_row :
  ~ failed_stage_writes_no_row ascii_lower scenario_ratio braces_dumps utf8_stdout
         python_3_12 no_coercion
      episodes_down_net always_commits.
Proof.
  intros H.
  apply (H (VStr "The Daily") fresh
           (or_intror (or_intror
              (ex_intro _ (VDict [("id", VInt 1); ("title", VStr "The Daily")])
                 (ex_intro _ [("id", VInt 1); ("title", VStr "The Daily");
                              ("lastUpdateTime", VInt 1)]
                    (conj eq_refl (conj eq_refl (conj eq_refl
                       (conj eq_refl eq_refl))))))))
           (stamped_row 1)).
  vm_compute. auto.
Qed.


(** C7 fails on the code: a feed URL that is a number, as a search result
    may carry one, makes the fetch by URL raise a [TypeError] at the slice
    of its first print, before its [try]. *)
Lemma numeric_feed_url_is_raised_to_the_caller :
  ~ fetchers_never_raise ascii_lower scenario_ratio utf8_stdout python_3_12
      the_daily_net.
Proof.
  intros H.
  destruct (H (VStr "The Daily") (VInt 1) (VInt 5) fresh)
    as (_ & _ & _ & _ & v & Hv).
  discriminate Hv.
Qed.

(** C8 fails on the code: a title whose search found a candidate and whose
    details could not be fetched is not fully processed, no row is written
    for it, and the pass sleeps 1.5 seconds all the same. *)
Lemma title_without_details_sleeps_the_long_delay :
  ~ pacing_as_stated ascii_lower scenario_ratio braces_dumps utf8_stdout python_3_12
      no_coercion search_only_net always_commits.
Proof.
  intros H.
  destruct (H (VStr "The Daily") fresh eq_refl) as [[_ [r Hin]] | [Hsleeps _]].
  - vm_compute in Hin.
    repeat (destruct Hin as [Hin | Hin]; [discriminate Hin|]). exact Hin.
  - vm_compute in Hsleeps. discriminate Hsleeps.
Qed.

(** C10 fails on the code: the same candidate and the same detail are stored
    with an average of 750 and the latest title "Monday" while the episode
    endpoint answers, and with both absent once it is down. *)
Lemma episode_columns_come_from_the_episodes :
  ~ other_columns_from_detail_only braces_dumps utf8_stdout no_coercion episodes_once_net
      always_commits.
Proof.
  intros H.
  destruct (H the_daily_candidate the_daily_feed fresh {| clock := 1; table := [] |}
              the_daily_row
              (details_row braces_dumps the_daily_candidate the_daily_feed 1
                 (VNone, VNone)))
    as (_ & _ & _ & _ & _ & Havg & _).
  - vm_compute. auto.
  - vm_compute. auto.
  - discriminate Havg.
Qed.

(** * The chart scrapers, verified *)

(** ** Splitting a show URI *)

Lemma py_last_cons {A} (x : A) (l : list A) : py_last (x :: l) = Ok (last l x).
Proof.
  unfold py_last. cbn [rev].
  destruct l as [|y l _] using rev_ind; [reflexivity|].
  rewrite rev_app_distr, last_last. reflexivity.
Qed.

Lemma append_assoc (a b c : string) : ((a ++ b) ++ c = a ++ (b ++ c))%string.
Proof. induction a as [|x a IH]; cbn [String.append]; congruence. Qed.

Lemma append_empty (a : string) : (a ++ "")%string = a.
Proof. induction a as [|x a IH]; cbn [String.append]; congruence. Qed.

(** The pieces of a split hold no separator, and joined by the separator
    they give the string back. *)
Lemma split_on_spec sep s :
  let (piece, pieces) := split_on sep s in
  s = String.concat (String sep "") (piece :: pieces) /\
  Forall (fun x => ~ In sep (list_ascii_of_string x)) (piece :: pieces).
Proof.
  induction s as [|c rest IH]; cbn [split_on].
  - split; [reflexivity|]. repeat constructor. intros [].
  - destruct (split_on sep rest) as [piece pieces]. destruct IH as [Hjoin Hfree].
    destruct (Ascii.eqb_spec c sep) as [-> | Hne].
    + split.
      * cbn [String.concat String.append]. rewrite Hjoin at 1. reflexivity.
      * constructor; [intros []|exact Hfree].
    + split.
      * rewrite Hjoin at 1. cbn [String.concat].
        destruct pieces; reflexivity.
      * inversion Hfree as [|x xs Hpiece Hrest]; subst.
        constructor; [|exact Hrest].
        cbn [list_ascii_of_string]. intros [H | H]; [congruence | contradiction].
Qed.

Lemma last_cons_default {A} (p : A) (ps : list A) (d : A) :
  last (p :: ps) d = last ps p.
Proof.
  revert p d. induction ps as [|q ps IH]; intros p d; [reflexivity|].
  change (last (p :: q :: ps) d) with (last (q :: ps) d).
  rewrite (IH q d), (IH q p). reflexivity.
Qed.

Lemma concat_last sep piece pieces :
  String.concat sep (piece :: pieces) = last pieces piece \/
  exists prefix,
    String.concat sep (piece :: pieces) = (prefix ++ sep ++ last pieces piece)%string.
Proof.
  revert piece. induction pieces as [|p ps IH]; intros piece; [now left|].
  right.
  change (String.concat sep (piece :: p :: ps))
    with (piece ++ sep ++ String.concat sep (p :: ps))%string.
  rewrite last_cons_default.
  destruct (IH p) as [-> | [prefix ->]].
  - exists piece. reflexivity.
  - exists (piece ++ sep ++ prefix)%string. rewrite !append_assoc. reflexivity.
Qed.

Lemma last_segment sep s :
  exists id,
    py_last (py_split sep s) = Ok id /\
    ~ In sep (list_ascii_of_string id) /\
    (s = id \/ exists prefix, s = (prefix ++ String sep id)%string).
Proof.
  unfold py_split. pose proof (split_on_spec sep s) as H.
  destruct (split_on sep s) as [piece pieces]. destruct H as [Hjoin Hfree].
  rewrite py_last_cons. exists (last pieces piece).
  split; [reflexivity|]. split.
  - rewrite Forall_forall in Hfree. apply Hfree.
    destruct pieces as [|p ps] using rev_ind; [now left|].
    rewrite last_last. right. apply in_or_app. right. now left.
  - rewrite Hjoin.
    destruct (concat_last (String sep "") piece pieces) as [-> | [prefix ->]];
      [now left|].
    right. exists prefix. reflexivity.
Qed.

(** X13: the podcast id the Spotify scraper stores is what follows the
    last colon of the show URI, the whole URI when it has no colon; it holds
    no colon itself.  A missing, empty or otherwise falsy URI gives [None],
    and a truthy URI that is no string makes the expression raise. *)
Theorem spotify_podcast_id_is_the_last_segment (show_uri : value) :
  (forall s, show_uri = VStr s -> s <> "" ->
     exists id,
       spotify_podcast_id show_uri = Ok (VStr id) /\
       ~ In ":"%char (list_ascii_of_string id) /\
       (s = id \/ exists prefix, s = (prefix ++ ":" ++ id)%string)) /\
  (truthy show_uri = false -> spotify_podcast_id show_uri = Ok VNone) /\
  (truthy show_uri = true -> (forall s, show_uri <> VStr s) ->
   spotify_podcast_id show_uri = Raise AttributeError).
Proof.
  split; [|split].
  - intros s -> Hs.
    destruct (last_segment ":"%char s) as (id & Hlast & Hfree & Hshape).
    exists id. unfold spotify_podcast_id. cbn [truthy].
    destruct (String.eqb_spec s "") as [-> | _]; [contradiction|].
    cbn [negb]. rewrite Hlast. auto.
  - intros Hf. unfold spotify_podcast_id. rewrite Hf. reflexivity.
  - intros Ht Hns. unfold spotify_podcast_id. rewrite Ht.
    destruct show_uri; try reflexivity. exfalso. eapply Hns. reflexivity.
Qed.

(** ** The loops of the scrapers *)

Lemma spotify_step_entry today records i pod_data :
  spotify_step today records i pod_data =
  (entry <~ entry_of "Spotify" spotify_fields today i pod_data ;;
   Ok (records ++ entry)).
Proof.
  destruct pod_data as [| | | | | |d]; cbn [spotify_step entry_of rbind];
    rewrite ?app_nil_r; try reflexivity.
  unfold spotify_fields.
  destruct (dict_get (VDict d) "showUri" (VStr "")) as [u|e]; cbn [rbind]; [|reflexivity].
  destruct (spotify_podcast_id u) as [p|e]; cbn [rbind]; [|reflexivity].
  destruct (dict_get (VDict d) "showName" VNone) as [t|e]; reflexivity.
Qed.

Lemma apple_step_entry today records i pod_data :
  apple_step today records i pod_data =
  (entry <~ entry_of "Apple" apple_fields today i pod_data ;;
   Ok (records ++ entry)).
Proof.
  destruct pod_data as [| | | | | |d]; cbn [apple_step entry_of rbind];
    rewrite ?app_nil_r; reflexivity.
Qed.

Lemma spotify_loop_entries today items : forall i records,
  spotify_loop today items i records =
  (entries <~ entries_from "Spotify" spotify_fields today items i ;;
   Ok (records ++ entries)).
Proof.
  induction items as [|pod_data rest IH]; intros i records;
    cbn [spotify_loop entries_from rbind]; [rewrite app_nil_r; reflexivity|].
  rewrite spotify_step_entry.
  destruct (entry_of "Spotify" spotify_fields today i pod_data) as [entry|e];
    cbn [rbind]; [|reflexivity].
  rewrite IH.
  destruct (entries_from "Spotify" spotify_fields today rest (i + 1)) as [entries|e];
    cbn [rbind]; [|reflexivity].
  rewrite app_assoc. reflexivity.
Qed.

Lemma apple_loop_entries today items : forall i records,
  apple_loop today items i records =
  (entries <~ entries_from "Apple" apple_fields today items i ;;
   Ok (records ++ entries)).
Proof.
  induction items as [|pod_data rest IH]; intros i records;
    cbn [apple_loop entries_from rbind]; [rewrite app_nil_r; reflexivity|].
  rewrite apple_step_entry.
  destruct (entry_of "Apple" apple_fields today i pod_data) as [entry|e];
    cbn [rbind]; [|reflexivity].
  rewrite IH.
  destruct (entries_from "Apple" apple_fields today rest (i + 1)) as [entries|e];
    cbn [rbind]; [|reflexivity].
  rewrite app_assoc. reflexivity.
Qed.

(** The entries are chart records whose ranks grow strictly, from above
    [i] up to [i] plus the number of items. *)
Lemma entries_ranked platform fields today items : forall i entries,
  entries_from platform fields today items i = Ok entries ->
  exists ranks,
    Forall2 (fun rank r => exists title podcast_id,
               r = chart_record platform rank title podcast_id today) ranks entries /\
    StronglySorted Z.lt ranks /\
    Forall (fun rank => i < rank <= i + Z.of_nat (List.length items)) ranks.
Proof.
  induction items as [|pod_data rest IH]; intros i entries H; cbn [entries_from] in H.
  - injection H as <-. exists []. repeat constructor.
  - destruct (entry_of platform fields today i pod_data) as [entry|e] eqn:He;
      cbn [rbind] in H; [|discriminate H].
    destruct (entries_from platform fields today rest (i + 1)) as [tail|e] eqn:Ht;
      cbn [rbind] in H; [|discriminate H].
    injection H as <-.
    destruct (IH _ _ Ht) as (ranks & Hrec & Hsorted & Hbound).
    assert (Hwider : Forall (fun rank =>
              i < rank <= i + Z.of_nat (List.length (pod_data :: rest))) ranks).
    { eapply Forall_impl; [|exact Hbound]. cbn [List.length]. intros; lia. }
    unfold entry_of in He.
    destruct pod_data as [| | | | | |d];
      try (injection He as <-; exists ranks; auto).
    destruct (fields (VDict d)) as [tp|e]; cbn [rbind] in He; [|discriminate He].
    injection He as <-.
    exists (i + 1 :: ranks). split; [|split].
    + constructor; [eauto | exact Hrec].
    + constructor; [exact Hsorted|].
      eapply Forall_impl; [|exact Hbound]. cbv beta. intros; lia.
    + constructor; [cbn [List.length]; lia | exact Hwider].
Qed.

(** Where each entry comes from, and that every dict among the items has
    its entry. *)
Lemma entries_by_position platform fields today items : forall i entries,
  entries_from platform fields today items i = Ok entries ->
  (forall r, In r entries ->
     exists k d tp,
       nth_error items k = Some (VDict d) /\
       fields (VDict d) = Ok tp /\
       r = chart_record platform (i + Z.of_nat k + 1) (fst tp) (snd tp) today) /\
  (forall k d,
     nth_error items k = Some (VDict d) ->
     exists tp,
       fields (VDict d) = Ok tp /\
       In (chart_record platform (i + Z.of_nat k + 1) (fst tp) (snd tp) today) entries).
Proof.
  induction items as [|pod_data rest IH]; intros i entries H; cbn [entries_from] in H.
  - injection H as <-. split; [intros r []|]. intros [|k] d Hk; discriminate Hk.
  - destruct (entry_of platform fields today i pod_data) as [entry|e] eqn:He;
      cbn [rbind] in H; [|discriminate H].
    destruct (entries_from platform fields today rest (i + 1)) as [tail|e] eqn:Ht;
      cbn [rbind] in H; [|discriminate H].
    injection H as <-.
    destruct (IH _ _ Ht) as (Hfrom & Hall).
    assert (Hshift : forall k, i + 1 + Z.of_nat k + 1 = i + Z.of_nat (S k) + 1) by lia.
    split.
    + intros r Hin. apply in_app_or in Hin as [Hin | Hin].
      * unfold entry_of in He.
        destruct pod_data as [| | | | | |d];
          try (injection He as <-; destruct Hin).
        destruct (fields (VDict d)) as [tp|e] eqn:Hf; cbn [rbind] in He;
          [|discriminate He].
        injection He as <-. destruct Hin as [<- | []].
        exists 0%nat, d, tp. rewrite Z.add_0_r. auto.
      * destruct (Hfrom r Hin) as (k & d & tp & Hk & Hf & ->).
        exists (S k), d, tp. rewrite Hshift. auto.
    + intros [|k] d Hk.
      * injection Hk as ->. unfold entry_of in He.
        destruct (fields (VDict d)) as [tp|e]; cbn [rbind] in He; [|discriminate He].
        injection He as <-. exists tp. split; [reflexivity|].
        rewrite Z.add_0_r. now left.
      * destruct (Hall k d Hk) as (tp & Hf & Hin).
        exists tp. split; [exact Hf|]. rewrite <- Hshift.
        apply in_or_app. now right.
Qed.

(** One dict whose fields cannot be read makes the whole loop raise. *)
Lemma entries_raise platform fields today items x e : forall i,
  In x items ->
  (exists d, x = VDict d) ->
  fields x = Raise e ->
  exists e', entries_from platform fields today items i = Raise e'.
Proof.
  induction items as [|pod_data rest IH]; intros i Hin Hd Hx; [destruct Hin|].
  cbn [entries_from].
  destruct (entry_of platform fields today i pod_data) as [entry|e'] eqn:He;
    cbn [rbind]; [|eauto].
  destruct Hin as [-> | Hin].
  - destruct Hd as [d ->]. unfold entry_of in He. rewrite Hx in He. discriminate He.
  - destruct (IH (i + 1) Hin Hd Hx) as [e'' ->]. cbn [rbind]. eauto.
Qed.

(** A loop whose fields can always be read never raises. *)
Lemma entries_total platform fields today items : forall i,
  (forall d, exists tp, fields (VDict d) = Ok tp) ->
  exists entries, entries_from platform fields today items i = Ok entries.
Proof.
  induction items as [|pod_data rest IH]; intros i Hf; cbn [entries_from]; [eauto|].
  destruct (IH (i + 1) Hf) as [tail ->].
  unfold entry_of. destruct pod_data as [| | | | | |d]; cbn [rbind]; eauto.
  destruct (Hf d) as [tp ->]. cbn [rbind]. eauto.
Qed.

(** The scrapers, computed from the reply. *)
Lemma scrape_spotify_res today reply :
  scrape_spotify_top100 today reply =
  match reply with
  | Responded false (Some (VList l)) =>
      match entries_from "Spotify" spotify_fields today (py_upto 100 l) 0 with
      | Ok entries => entries
      | Raise _ => []
      end
  | _ => []
  end.
Proof.
  unfold scrape_spotify_top100.
  destruct reply as [|[] [data|]]; try reflexivity.
  cbn [chart_json rbind]. destruct data; try reflexivity.
  rewrite spotify_loop_entries.
  destruct (entries_from "Spotify" spotify_fields today (py_upto 100 l) 0);
    reflexivity.
Qed.

Lemma scrape_apple_res today limit reply :
  scrape_apple_top_podcasts today limit reply =
  match reply with
  | Responded false (Some (VDict data)) =>
      match lookup "feed" data with
      | Some (VDict ((_ :: _) as feed_data)) =>
          match lookup "results" feed_data with
          | Some (VList ((_ :: _) as l)) =>
              match entries_from "Apple" apple_fields today (py_upto limit l) 0 with
              | Ok entries => entries
              | Raise _ => []
              end
          | _ => []
          end
      | _ => []
      end
  | _ => []
  end.
Proof.
  unfold scrape_apple_top_podcasts.
  destruct reply as [|[] [data|]]; try reflexivity.
  cbn [chart_json rbind]. destruct data as [| | | | | |data]; try reflexivity.
  cbn [dict_get rbind].
  destruct (lookup "feed" data) as [feed_data|]; [|reflexivity].
  destruct feed_data as [| | | | | |feed_data]; try reflexivity.
  destruct feed_data as [|kv feed_data]; [reflexivity|].
  cbn [dict_get rbind].
  destruct (lookup "results" (kv :: feed_data)) as [results|]; [|reflexivity].
  destruct results as [| | | | |l|]; try reflexivity.
  destruct l as [|x l]; [reflexivity|].
  rewrite apple_loop_entries.
  destruct (entries_from "Apple" apple_fields today (py_upto limit (x :: l)) 0);
    reflexivity.
Qed.

(** ** Slices *)

Lemma py_upto_length stop l :
  (List.length (py_upto stop l) <= List.length l)%nat /\
  (0 <= stop -> Z.of_nat (List.length (py_upto stop l)) <= stop).
Proof.
  unfold py_upto. destruct (Z.leb_spec 0 stop) as [Hle | Hlt];
    rewrite List.length_firstn; split; try lia.
Qed.

Lemma py_upto_nth stop l k x :
  0 <= stop ->
  (nth_error (py_upto stop l) k = Some x <->
   Z.of_nat k < stop /\ nth_error l k = Some x).
Proof.
  intros Hle. unfold py_upto.
  destruct (Z.leb_spec 0 stop) as [_ | Hlt]; [|lia].
  rewrite nth_error_firstn.
  destruct (Nat.ltb_spec k (Z.to_nat stop)) as [Hk | Hk]; split.
  - intros H. split; [lia | exact H].
  - intros [_ H]. exact H.
  - discriminate.
  - intros [H _]. lia.
Qed.

Lemma py_upto_prefix stop l k x :
  nth_error (py_upto stop l) k = Some x -> nth_error l k = Some x.
Proof.
  unfold py_upto. destruct (0 <=? stop); rewrite nth_error_firstn;
    destruct (_ <? _)%nat; congruence.
Qed.

(** ** What the scrapers return *)

Lemma scrapes_ranked
    (today : string) (limit : Z) (reply : http_outcome) :
  (exists ranks,
     Forall2 (fun rank r => exists title podcast_id,
                r = chart_record "Spotify" rank title podcast_id today)
       ranks (scrape_spotify_top100 today reply) /\
     StronglySorted Z.lt ranks /\
     Forall (fun rank => 1 <= rank <= 100) ranks) /\
  (exists ranks,
     Forall2 (fun rank r => exists title podcast_id,
                r = chart_record "Apple" rank title podcast_id today)
       ranks (scrape_apple_top_podcasts today limit reply) /\
     StronglySorted Z.lt ranks /\
     Forall (fun rank => 1 <= rank /\ (0 <= limit -> rank <= limit)) ranks).
Proof.
  assert (Hnone : forall platform bound,
            exists ranks : list Z,
              Forall2 (fun rank r => exists title podcast_id,
                         r = chart_record platform rank title podcast_id today)
                ranks [] /\
              StronglySorted Z.lt ranks /\ Forall bound ranks).
  { intros platform bound. exists []. repeat constructor. }
  split.
  - rewrite scrape_spotify_res.
    destruct reply as [|[] [[| | | | |l|]|]]; try apply Hnone.
    destruct (entries_from "Spotify" spotify_fields today (py_upto 100 l) 0)
      as [entries|e] eqn:He; [|apply Hnone].
    destruct (entries_ranked _ _ _ _ _ _ He) as (ranks & Hrec & Hsorted & Hbound).
    exists ranks. split; [exact Hrec|]. split; [exact Hsorted|].
    eapply Forall_impl; [|exact Hbound]. cbv beta.
    destruct (py_upto_length 100 l) as [_ Hlen]. intros; lia.
  - rewrite scrape_apple_res.
    destruct reply as [|[] [[| | | | | |data]|]]; try apply Hnone.
    destruct (lookup "feed" data) as [[| | | | | |[|kv feed_data]]|]; try apply Hnone.
    destruct (lookup "results" (kv :: feed_data)) as [[| | | | |[|x l]|]|];
      try apply Hnone.
    destruct (entries_from "Apple" apple_fields today (py_upto limit (x :: l)) 0)
      as [entries|e] eqn:He; [|apply Hnone].
    destruct (entries_ranked _ _ _ _ _ _ He) as (ranks & Hrec & Hsorted & Hbound).
    exists ranks. split; [exact Hrec|]. split; [exact Hsorted|].
    eapply Forall_impl; [|exact Hbound]. cbv beta.
    destruct (py_upto_length limit (x :: l)) as [_ Hlen]. intros; lia.
Qed.

(** X14: both scrapers return chart records (the five keys in place,
    their own platform, the date of the day) whose ranks are integers that
    grow strictly along the list, so no two records of a scrape share a
    rank; the ranks of Spotify lie between 1 and 100, those of Apple start
    at 1 and do not exceed a limit that is not negative. *)
Theorem scraped_records_are_ranked
    (today : string) (limit : Z) (reply : http_outcome) :
  (exists ranks,
     Forall2 (fun rank r => exists title podcast_id,
                r = chart_record "Spotify" rank title podcast_id today)
       ranks (scrape_spotify_top100 today reply) /\
     StronglySorted Z.lt ranks /\
     Forall (fun rank => 1 <= rank <= 100) ranks) /\
  (exists ranks,
     Forall2 (fun rank r => exists title podcast_id,
                r = chart_record "Apple" rank title podcast_id today)
       ranks (scrape_apple_top_podcasts today limit reply) /\
     StronglySorted Z.lt ranks /\
     Forall (fun rank => 1 <= rank /\ (0 <= limit -> rank <= limit)) ranks).
Proof. apply scrapes_ranked. Qed.

(** X15: the Spotify scraper takes its records from the first hundred
    items of the reply, by position: the record of rank [k + 1] was built
    from item [k], a dict, with its ["showName"] as title and the last
    segment of its ["showUri"] as podcast id; items that are no dicts leave
    a gap in the ranks.  When every dict among the first hundred items has
    a show URI that is falsy or a string, each of them has its record; as
    soon as one of them has a truthy show URI that is no string, the
    scraper returns no record at all.  It returns none either on a
    transport error, an error status or an undecodable body, and on a reply
    that is no list. *)
Theorem spotify_records_follow_the_reply (today : string) (reply : http_outcome) :
  let records := scrape_spotify_top100 today reply in
  (forall l,
     reply = Responded false (Some (VList l)) ->
     (forall r, In r records ->
        exists k d show_uri podcast_id,
          (k < 100)%nat /\
          nth_error l k = Some (VDict d) /\
          dict_get (VDict d) "showUri" (VStr "") = Ok show_uri /\
          spotify_podcast_id show_uri = Ok podcast_id /\
          r = chart_record "Spotify" (Z.of_nat k + 1) (get_or_none d "showName")
                podcast_id today) /\
     ((forall k d show_uri,
         (k < 100)%nat -> nth_error l k = Some (VDict d) ->
         dict_get (VDict d) "showUri" (VStr "") = Ok show_uri ->
         truthy show_uri = false \/ exists s, show_uri = VStr s) ->
      forall k d,
        (k < 100)%nat -> nth_error l k = Some (VDict d) ->
        exists show_uri podcast_id,
          dict_get (VDict d) "showUri" (VStr "") = Ok show_uri /\
          spotify_podcast_id show_uri = Ok podcast_id /\
          In (chart_record "Spotify" (Z.of_nat k + 1) (get_or_none d "showName")
                podcast_id today) records) /\
     (forall k d show_uri,
        (k < 100)%nat -> nth_error l k = Some (VDict d) ->
        dict_get (VDict d) "showUri" (VStr "") = Ok show_uri ->
        truthy show_uri = true -> (forall s, show_uri <> VStr s) ->
        records = [])) /\
  (error_reply reply = true -> records = []) /\
  (forall data,
     reply = Responded false (Some data) ->
     (forall l, data <> VList l) ->
     records = []).
Proof.
  cbv zeta. split; [|split];
    [intros l ->
    |rewrite scrape_spotify_res; destruct reply as [|[] [data|]];
       try reflexivity; discriminate
    |intros data -> Hnl; rewrite scrape_spotify_res;
       destruct data; try reflexivity; exfalso; eapply Hnl; reflexivity].
  rewrite scrape_spotify_res.
  assert (Hfields : forall d,
            spotify_fields (VDict d) =
            (podcast_id <~ spotify_podcast_id
                             match lookup "showUri" d with
                             | Some v => v
                             | None => VStr ""
                             end ;;
             Ok (get_or_none d "showName", podcast_id))).
  { intros d. unfold spotify_fields. cbn [dict_get rbind].
    destruct (spotify_podcast_id _); reflexivity. }
  assert (Hnth : forall k x, nth_error (py_upto 100 l) k = Some x <->
                             (k < 100)%nat /\ nth_error l k = Some x).
  { intros k x. rewrite py_upto_nth by lia. split; intros [H1 H2]; split; auto; lia. }
  split; [|split].
  - destruct (entries_from "Spotify" spotify_fields today (py_upto 100 l) 0)
      as [entries|e] eqn:He; [|intros r []].
    destruct (entries_by_position _ _ _ _ _ _ He) as [Hfrom _].
    intros r Hin. destruct (Hfrom r Hin) as (k & d & tp & Hk & Hf & ->).
    apply Hnth in Hk as [Hk Hitem]. rewrite Hfields in Hf.
    destruct (spotify_podcast_id _) as [podcast_id|e] eqn:Hid; [|discriminate Hf].
    injection Hf as <-. cbn [fst snd].
    eexists k, d, _, podcast_id.
    repeat split; [exact Hk | exact Hitem | exact Hid].
  - intros Hwell k d Hk Hitem.
    assert (Hok : exists entries,
              entries_from "Spotify" spotify_fields today (py_upto 100 l) 0
                = Ok entries).
    { destruct (entries_from "Spotify" spotify_fields today (py_upto 100 l) 0)
        as [entries|e] eqn:He; [eauto|exfalso].
      assert (Hex : forall items i,
                (forall x, In x items -> forall d', x = VDict d' ->
                   exists tp, spotify_fields x = Ok tp) ->
                exists entries, entries_from "Spotify" spotify_fields today items i
                                = Ok entries).
      { clear. induction items as [|x items IH]; intros i Hall;
          cbn [entries_from]; [eauto|].
        destruct (IH (i + 1)) as [tail ->];
          [intros; eapply Hall; [right|]; eassumption|].
        unfold entry_of. destruct x as [| | | | | |d]; cbn [rbind]; eauto.
        destruct (Hall (VDict d) (or_introl eq_refl) d eq_refl) as [tp ->].
        cbn [rbind]. eauto. }
      destruct (Hex (py_upto 100 l) 0) as [entries He']; [|congruence].
      intros x Hin d' ->. apply In_nth_error in Hin as [k' Hk'].
      apply Hnth in Hk' as [Hk' Hitem']. rewrite Hfields.
      destruct (Hwell k' d' _ Hk' Hitem' eq_refl) as [Hf | [s Hs]].
      - unfold spotify_podcast_id at 1. rewrite Hf. cbn [rbind]. eauto.
      - rewrite Hs. unfold spotify_podcast_id.
        destruct (truthy (VStr s)); [|cbn [rbind]; eauto].
        destruct (last_segment ":"%char s) as (id & -> & _). cbn [rbind]. eauto. }
    destruct Hok as [entries He]. rewrite He.
    destruct (entries_by_position _ _ _ _ _ _ He) as [_ Hall].
    destruct (Hall k d (proj2 (Hnth k _) (conj Hk Hitem))) as (tp & Hf & Hin).
    rewrite Hfields in Hf.
    destruct (spotify_podcast_id _) as [podcast_id|e] eqn:Hid; [|discriminate Hf].
    injection Hf as <-. cbn [fst snd] in Hin.
    eexists _, podcast_id. repeat split; [exact Hid | exact Hin].
  - intros k d show_uri Hk Hitem Huri Ht Hns.
    assert (Hbad : spotify_fields (VDict d) = Raise AttributeError).
    { rewrite Hfields. cbn [dict_get] in Huri. injection Huri as ->.
      unfold spotify_podcast_id. rewrite Ht.
      destruct show_uri; try reflexivity. exfalso. eapply Hns. reflexivity. }
    destruct (entries_raise "Spotify" spotify_fields today (py_upto 100 l)
                (VDict d) AttributeError 0) as [e' ->]; eauto.
    apply nth_error_In with k. apply Hnth. auto.
Qed.

Lemma apple_fields_dict d :
  apple_fields (VDict d) = Ok (get_or_none d "name", get_or_none d "id").
Proof. reflexivity. Qed.

(** X16: the Apple scraper builds one record for each dict among
    [results[:limit]] and for nothing else: the record of rank [k + 1] has
    the ["name"] of item [k] as title and its ["id"] as podcast id; nothing
    in the loop can fail.  For a limit that is not negative the slice is the
    items at the positions below the limit.  The scraper returns no record
    on a transport error, an error status or an undecodable body, on a
    reply that is no object, and when ["feed"] is not a non-empty dict or
    its ["results"] not a non-empty list. *)
Theorem apple_records_follow_the_reply
    (today : string) (limit : Z) (reply : http_outcome) :
  let records := scrape_apple_top_podcasts today limit reply in
  (forall data feed_data l,
     reply = Responded false (Some (VDict data)) ->
     lookup "feed" data = Some (VDict feed_data) -> feed_data <> [] ->
     lookup "results" feed_data = Some (VList l) -> l <> [] ->
     (forall r, In r records <->
        exists k d,
          nth_error (py_upto limit l) k = Some (VDict d) /\
          r = chart_record "Apple" (Z.of_nat k + 1) (get_or_none d "name")
                (get_or_none d "id") today) /\
     (0 <= limit ->
      forall k x, nth_error (py_upto limit l) k = Some x <->
                  Z.of_nat k < limit /\ nth_error l k = Some x)) /\
  (error_reply reply = true -> records = []) /\
  (forall data,
     reply = Responded false (Some data) ->
     (forall d, data <> VDict d) ->
     records = []) /\
  (forall data feed_data,
     reply = Responded false (Some data) ->
     dict_get data "feed" VNone = Ok feed_data ->
     truthy feed_data = false \/ (forall d, feed_data <> VDict d) ->
     records = []) /\
  (forall data feed_data results,
     reply = Responded false (Some data) ->
     dict_get data "feed" VNone = Ok feed_data ->
     dict_get feed_data "results" VNone = Ok results ->
     truthy results = false \/ (forall items, results <> VList items) ->
     records = []).
Proof.
  cbv zeta. rewrite scrape_apple_res. split; [|split; [|split; [|split]]].
  - intros data feed_data l -> Hfeed Hne Hresults Hl.
    rewrite Hfeed. destruct feed_data as [|kv feed_data]; [contradiction|].
    rewrite Hresults. destruct l as [|x l]; [contradiction|].
    split; [|intros Hlimit k y; apply py_upto_nth; exact Hlimit].
    destruct (entries_total "Apple" apple_fields today (py_upto limit (x :: l)) 0)
      as [entries He]; [intros d; rewrite apple_fields_dict; eauto|].
    rewrite He.
    destruct (entries_by_position _ _ _ _ _ _ He) as [Hfrom Hall].
    intros r. split.
    + intros Hin. destruct (Hfrom r Hin) as (k & d & tp & Hk & Hf & ->).
      rewrite apple_fields_dict in Hf. injection Hf as <-. eauto.
    + intros (k & d & Hk & ->).
      destruct (Hall k d Hk) as (tp & Hf & Hin).
      rewrite apple_fields_dict in Hf. injection Hf as <-. exact Hin.
  - destruct reply as [|[] [data|]]; try reflexivity. discriminate.
  - intros data -> Hnd. destruct data; try reflexivity.
    exfalso. eapply Hnd. reflexivity.
  - intros data feed_data -> Hfeed Hbad.
    destruct data as [| | | | | |data]; try reflexivity.
    cbn [dict_get] in Hfeed. injection Hfeed as Hfeed.
    destruct (lookup "feed" data) as [v|]; [|reflexivity]. subst v.
    destruct feed_data as [| | | | | |[|kv d]]; try reflexivity.
    destruct Hbad as [H | H]; [discriminate H | exfalso; eapply H; reflexivity].
  - intros data feed_data results -> Hfeed Hresults Hbad.
    destruct data as [| | | | | |data]; try reflexivity.
    cbn [dict_get] in Hfeed. injection Hfeed as Hfeed.
    destruct (lookup "feed" data) as [v|]; [|reflexivity]. subst v.
    destruct feed_data as [| | | | | |[|kv d]]; try reflexivity.
    unfold dict_get in Hresults.
    destruct (lookup "results" (kv :: d)) as [v|]; [|reflexivity].
    injection Hresults as ->.
    destruct results as [| | | | |[|x l]|]; try reflexivity.
    destruct Hbad as [H | H]; [discriminate H | exfalso; eapply H; reflexivity].
Qed.

(** ** Saving chart records *)

Lemma FOP_snoc {A} (R : A -> A -> Prop) (t : list A) (x : A) :
  ForallOrdPairs R t -> Forall (fun y => R y x) t -> ForallOrdPairs R (t ++ [x]).
Proof.
  induction 1 as [|a l Ha Hl IH]; intros Hx; cbn [app].
  - repeat constructor.
  - inversion Hx as [|y ys Hax Hrest]; subst.
    constructor; [|auto]. apply Forall_app. split; [exact Ha | repeat constructor; exact Hax].
Qed.

Lemma moves_on_refl c : moves_on c c.
Proof.
  exists []. rewrite app_nil_r. cbn [List.length].
  split; [reflexivity|]. split; [lia|]. split; [lia|]. split; [lia | auto].
Qed.

Lemma moves_on_trans c1 c2 c3 : moves_on c1 c2 -> moves_on c2 c3 -> moves_on c1 c3.
Proof.
  intros (a1 & Hr1 & Hn1 & Hg1 & Hc1 & Hk1) (a2 & Hr2 & Hn2 & Hg2 & Hc2 & Hk2).
  exists (a1 ++ a2). rewrite List.length_app.
  split; [rewrite Hr2, Hr1, app_assoc; reflexivity|].
  split; [lia|]. split; [lia|]. split; [lia | auto].
Qed.

Section Saving.

Variable coerce : affinity -> value -> value.
Variable sqlite : nat -> db_call -> call_outcome.

Lemma insert_or_ignore_cases bound t :
  insert_or_ignore coerce bound t = (t, 0) \/
  (insert_or_ignore coerce bound t = (t ++ [stored_row coerce bound], 1) /\
   is_null (Top100Lists.platform (stored_row coerce bound)) = false /\
   is_null (Top100Lists.rank (stored_row coerce bound)) = false /\
   is_null (Top100Lists.date (stored_row coerce bound)) = false /\
   existsb (same_key (stored_row coerce bound)) t = false).
Proof.
  unfold insert_or_ignore. cbv zeta. fold (stored_row coerce bound).
  destruct (is_null (Top100Lists.platform (stored_row coerce bound))); [now left|].
  destruct (is_null (Top100Lists.rank (stored_row coerce bound))); [now left|].
  destruct (is_null (Top100Lists.date (stored_row coerce bound))); [now left|].
  cbn [orb].
  destruct (existsb (same_key (stored_row coerce bound)) t); [now left|].
  right. auto.
Qed.

Lemma constraints_snoc t new :
  constraints_hold t ->
  is_null (Top100Lists.platform new) = false ->
  is_null (Top100Lists.rank new) = false ->
  is_null (Top100Lists.date new) = false ->
  existsb (same_key new) t = false ->
  constraints_hold (t ++ [new]).
Proof.
  intros [Hnn Hu] H1 H2 H3 Hfresh. split.
  - apply Forall_app. split; [exact Hnn | repeat constructor; assumption].
  - apply FOP_snoc; [exact Hu|].
    rewrite Forall_forall. intros y Hy.
    destruct (same_key new y) eqn:E; [|reflexivity].
    exfalso. assert (H : existsb (same_key new) t = true)
      by (apply existsb_exists; eauto).
    congruence.
Qed.

(** One record: the cursor moves on by at most one row or one ignored
    statement. *)
Lemma insert_record_moves params c c' :
  insert_record coerce sqlite params c = Ok c' ->
  moves_on c c' /\
  (insert_count c' + ignore_count c') - (insert_count c + ignore_count c) <= 1.
Proof.
  unfold insert_record.
  destruct params as [bound|e].
  2:{ destruct (caught_in_loop e); [|discriminate].
      intros H. injection H as <-. split; [apply moves_on_refl | lia]. }
  destruct (sqlite (calls c) (InsertOrIgnore bound)) as [|e].
  - destruct (insert_or_ignore_cases bound (rows c))
      as [-> | (-> & H1 & H2 & H3 & Hfresh)]; cbn [Z.ltb Z.compare].
    + intros H. injection H as <-. cbn [insert_count ignore_count]. split; [|lia].
      exists []. cbn [rows insert_count ignore_count calls List.length].
      rewrite app_nil_r.
      split; [reflexivity|]. split; [lia|]. split; [lia|]. split; [lia | auto].
    + intros H. injection H as <-. cbn [insert_count ignore_count]. split; [|lia].
      exists [stored_row coerce bound].
      cbn [rows insert_count ignore_count calls List.length].
      split; [reflexivity|]. split; [lia|]. split; [lia|]. split; [lia|].
      intros Hc. apply constraints_snoc; assumption.
  - destruct (caught_in_loop e); [|discriminate].
    intros H. injection H as <-. cbn [insert_count ignore_count]. split; [|lia].
    exists []. cbn [rows insert_count ignore_count calls List.length].
    rewrite app_nil_r.
    split; [reflexivity|]. split; [lia|]. split; [lia|]. split; [lia | auto].
Qed.

Lemma save_to_db_step_moves c r c' :
  save_to_db_step coerce sqlite c r = Ok c' ->
  moves_on c c' /\
  (insert_count c' + ignore_count c') - (insert_count c + ignore_count c) <= 1.
Proof. apply insert_record_moves. Qed.

Lemma save_chart_data_step_moves c r c' :
  save_chart_data_step coerce sqlite c r = Ok c' ->
  moves_on c c' /\
  (insert_count c' + ignore_count c') - (insert_count c + ignore_count c) <= 1.
Proof.
  unfold save_chart_data_step.
  destruct (py_all_in ["platform"; "rank"; "date"] r) as [[]|e]; cbn [rbind negb];
    [apply insert_record_moves| |discriminate].
  intros H. injection H as <-. split; [apply moves_on_refl | lia].
Qed.

Lemma save_loop_moves step records :
  (forall c r c', step c r = Ok c' ->
     moves_on c c' /\
     (insert_count c' + ignore_count c') - (insert_count c + ignore_count c) <= 1) ->
  forall c c',
    save_loop step records c = Ok c' ->
    moves_on c c' /\
    (insert_count c' + ignore_count c') - (insert_count c + ignore_count c)
      <= Z.of_nat (List.length records).
Proof.
  intros Hstep. induction records as [|r rest IH]; intros c c' H; cbn [save_loop] in H.
  - injection H as <-. split; [apply moves_on_refl | cbn; lia].
  - destruct (step c r) as [c1|e] eqn:H1; cbn [rbind] in H; [|discriminate H].
    destruct (Hstep _ _ _ H1) as [Hm1 Hn1].
    destruct (IH _ _ H) as [Hm2 Hn2].
    split; [eapply moves_on_trans; eassumption|].
    cbn [List.length]. lia.
Qed.

(** What a save does to the table, whichever of the two it is. *)
Lemma save_with_store step last_log records t :
  (forall c r c', step c r = Ok c' ->
     moves_on c c' /\
     (insert_count c' + ignore_count c') - (insert_count c + ignore_count c) <= 1) ->
  let o := save_with sqlite step last_log records t in
  (store o = t \/ store o = Some (rows_of t) \/
   exists added inserted ignored,
     store o = Some (rows_of t ++ added) /\
     returned o = Ok tt /\
     counts o = Some (inserted, ignored) /\
     Z.of_nat (List.length added) = inserted /\
     0 <= ignored /\
     inserted + ignored <= Z.of_nat (List.length records) /\
     (constraints_hold (rows_of t) -> constraints_hold (rows_of t ++ added))) /\
  (forall inserted ignored,
     counts o = Some (inserted, ignored) ->
     0 <= inserted /\ 0 <= ignored /\
     inserted + ignored <= Z.of_nat (List.length records)).
Proof.
  intros Hstep. cbv zeta. unfold save_with.
  destruct records as [|r rest]; [split; [now left | discriminate]|].
  destruct (sqlite 0%nat Connect); [|split; [now left | discriminate]].
  destruct (sqlite 1%nat CreateTableIfNotExists); [|split; [now left | discriminate]].
  fold (rows_of t).
  destruct (save_loop step (r :: rest)
              {| rows := rows_of t; calls := 2; insert_count := 0; ignore_count := 0 |})
    as [c|e] eqn:Hloop; cbn [rbind].
  2:{ split; [right; now left | discriminate]. }
  destruct (save_loop_moves step (r :: rest) Hstep _ _ Hloop)
    as [(added & Hrows & Hins & Hign & _ & Hkeep) Hcount].
  cbn [rows insert_count ignore_count] in *.
  destruct (last_log (r :: rest)) as [[]|e]; cbn [rbind].
  2:{ split; [right; now left | discriminate]. }
  assert (Hbounds : 0 <= insert_count c /\ 0 <= ignore_count c /\
                    insert_count c + ignore_count c
                      <= Z.of_nat (List.length (r :: rest))) by lia.
  destruct (sqlite (calls c) Commit); cbn [store returned counts].
  - split.
    + right. right. exists added, (insert_count c), (ignore_count c).
      split; [rewrite Hrows; reflexivity|]. split; [reflexivity|].
      split; [reflexivity|]. split; [lia|]. split; [lia|]. split; [lia|].
      rewrite <- Hrows. exact Hkeep.
    + intros inserted ignored H. injection H as <- <-. exact Hbounds.
  - split; [right; now left|].
    intros inserted ignored H. injection H as <- <-. exact Hbounds.
Qed.

(** X17: neither save ever changes or removes a row of [Top100Lists]:
    afterwards the table is as it was (nothing was done, or only the table
    was created, or the inserts were rolled back), or it is the table before
    with rows added at its end.  In that last case the save returned
    normally, the added rows are as many as the last log line reports as
    inserted, the two counts are not negative and add up to no more than the
    number of records, and a table that kept its NOT NULL and UNIQUE
    constraints before keeps them. *)
Theorem saves_only_add_rows (records : list value) (t : option (list Top100Lists.row)) :
  Forall (fun o =>
            (store o = t \/ store o = Some (rows_of t) \/
             exists added inserted ignored,
               store o = Some (rows_of t ++ added) /\
               returned o = Ok tt /\
               counts o = Some (inserted, ignored) /\
               Z.of_nat (List.length added) = inserted /\
               0 <= ignored /\
               inserted + ignored <= Z.of_nat (List.length records) /\
               (constraints_hold (rows_of t) ->
                constraints_hold (rows_of t ++ added))) /\
            (forall inserted ignored,
               counts o = Some (inserted, ignored) ->
               0 <= inserted /\ 0 <= ignored /\
               inserted + ignored <= Z.of_nat (List.length records)))
    [save_to_db coerce sqlite records t;
     save_chart_data_to_db coerce sqlite records t].
Proof.
  repeat apply Forall_cons; [| |apply Forall_nil].
  - apply save_with_store, save_to_db_step_moves.
  - apply save_with_store, save_chart_data_step_moves.
Qed.

(** ** Records that hold their keys *)

Lemma py_getitem_present d key :
  lookup key d <> None -> py_getitem (VDict d) key = Ok (get_or_none d key).
Proof.
  unfold py_getitem, get_or_none. destruct (lookup key d); [reflexivity | contradiction].
Qed.

Lemma complete_params d :
  (forall key, In key ["platform"; "rank"; "title"; "podcast_id"; "date"] ->
               lookup key d <> None) ->
  spotify_params (VDict d) = Ok (params_of d) /\
  apple_params (VDict d) = Ok (params_of d) /\
  py_all_in ["platform"; "rank"; "date"] (VDict d) = Ok true /\
  py_getitem (VDict d) "platform" = Ok (get_or_none d "platform").
Proof.
  intros H.
  assert (H1 : lookup "platform" d <> None) by (apply H; simpl; auto).
  assert (H2 : lookup "rank" d <> None) by (apply H; simpl; auto).
  assert (H3 : lookup "title" d <> None) by (apply H; simpl; auto 6).
  assert (H4 : lookup "podcast_id" d <> None) by (apply H; simpl; auto 6).
  assert (H5 : lookup "date" d <> None) by (apply H; simpl; auto 6).
  unfold spotify_params, apple_params.
  rewrite !py_getitem_present by assumption. cbn [rbind dict_get].
  repeat split.
  cbn [py_all_in py_contains].
  destruct (lookup "platform" d); [|contradiction].
  destruct (lookup "rank" d); [|contradiction].
  destruct (lookup "date" d); [|contradiction].
  reflexivity.
Qed.

Lemma steps_agree_on_complete c r :
  complete r ->
  exists d,
    r = VDict d /\
    save_to_db_step coerce sqlite c r = insert_record coerce sqlite (Ok (params_of d)) c /\
    save_chart_data_step coerce sqlite c r
      = insert_record coerce sqlite (Ok (params_of d)) c.
Proof.
  intros (d & -> & Hkeys). exists d.
  destruct (complete_params d Hkeys) as (Hs & Ha & Hall & _).
  unfold save_to_db_step, save_chart_data_step.
  rewrite Hs, Ha, Hall. auto.
Qed.

Lemma loops_agree_on_complete records : forall c,
  Forall complete records ->
  save_loop (save_chart_data_step coerce sqlite) records c =
  save_loop (save_to_db_step coerce sqlite) records c.
Proof.
  induction records as [|r rest IH]; intros c Hall; [reflexivity|].
  inversion Hall as [|x xs Hr Hrest]; subst.
  cbn [save_loop].
  destruct (steps_agree_on_complete c r Hr) as (d & _ & -> & ->).
  destruct (insert_record coerce sqlite (Ok (params_of d)) c); cbn [rbind];
    [apply IH; exact Hrest | reflexivity].
Qed.

Lemma saves_agree_on_complete records t :
  Forall complete records ->
  save_chart_data_to_db coerce sqlite records t = save_to_db coerce sqlite records t.
Proof.
  intros Hall. unfold save_chart_data_to_db, save_to_db, save_with.
  destruct records as [|r rest]; [reflexivity|].
  destruct (sqlite 0%nat Connect); [|reflexivity].
  destruct (sqlite 1%nat CreateTableIfNotExists); [|reflexivity].
  rewrite (loops_agree_on_complete (r :: rest) _ Hall).
  inversion Hall as [|x xs (d & -> & Hkeys) Hrest]; subst.
  destruct (complete_params d Hkeys) as (_ & _ & _ & Hp).
  cbn [py_first rbind]. rewrite Hp. reflexivity.
Qed.

(** X18: on records that hold the five keys, as the records of both
    scrapers do, [save_chart_data_to_db] and [save_to_db] do the same,
    whatever the database does: the same calls with the same values, the
    same rows, the same counts, the same result. *)
Theorem the_two_saves_agree_on_complete_records
    (records : list value) (t : option (list Top100Lists.row)) :
  Forall complete records ->
  save_chart_data_to_db coerce sqlite records t = save_to_db coerce sqlite records t.
Proof. apply saves_agree_on_complete. Qed.

(** ** Where the two saves differ *)

Lemma caught_or_not_sqlite e : caught_in_loop e = false -> sqlite_error e = false.
Proof. destruct e; try reflexivity; discriminate. Qed.

Lemma py_all_in_raises keys r e : py_all_in keys r = Raise e -> e = TypeError.
Proof.
  induction keys as [|key rest IH]; cbn [py_all_in]; [discriminate|].
  destruct (py_contains key r) as [[]|e'] eqn:Hc; cbn [rbind]; try discriminate.
  - exact IH.
  - intros H. injection H as <-.
    destruct r; try discriminate Hc; cbn [py_contains] in Hc; congruence.
Qed.

Lemma insert_record_raises params c e :
  insert_record coerce sqlite params c = Raise e -> caught_in_loop e = false.
Proof.
  unfold insert_record. destruct params as [bound|e'].
  - destruct (sqlite (calls c) (InsertOrIgnore bound)) as [|e'].
    + destruct (insert_or_ignore coerce bound (rows c)) as [t' n].
      destruct (0 <? n); discriminate.
    + destruct (caught_in_loop e') eqn:E; [discriminate|].
      intros H. injection H as <-. exact E.
  - destruct (caught_in_loop e') eqn:E; [discriminate|].
    intros H. injection H as <-. exact E.
Qed.

Lemma save_loop_raises step records :
  (forall c r e, step c r = Raise e -> sqlite_error e = false) ->
  forall c e, save_loop step records c = Raise e -> sqlite_error e = false.
Proof.
  intros Hstep. induction records as [|r rest IH]; intros c e H; cbn [save_loop] in H;
    [discriminate H|].
  destruct (step c r) as [c'|e'] eqn:Hs; cbn [rbind] in H.
  - eapply IH; eassumption.
  - injection H as <-. eapply Hstep; eassumption.
Qed.

Lemma save_chart_data_step_raises c r e :
  save_chart_data_step coerce sqlite c r = Raise e -> sqlite_error e = false.
Proof.
  unfold save_chart_data_step.
  destruct (py_all_in ["platform"; "rank"; "date"] r) as [[]|e'] eqn:Hall;
    cbn [rbind negb]; try discriminate.
  - intros H. apply caught_or_not_sqlite. eapply insert_record_raises; eassumption.
  - intros H. injection H as <-. apply py_all_in_raises in Hall as ->. reflexivity.
Qed.

(** X19: [save_chart_data_to_db] loses the whole batch when its first
    record is a dict without a ["platform"]: the loop gives that record up
    and inserts the others, but the last log line formats
    [records[0]['platform']] inside the [with] block, so once the connection
    is open and the table created the function raises (a [KeyError], unless
    the loop has raised before), the inserts are rolled back, and no row is
    added whatever the other records are. *)
Theorem first_record_without_platform_loses_the_batch
    (d : list (string * value)) (rest : list value)
    (t : option (list Top100Lists.row)) :
  lookup "platform" d = None ->
  let o := save_chart_data_to_db coerce sqlite (VDict d :: rest) t in
  (store o = t \/ store o = Some (rows_of t)) /\
  counts o = None /\
  (sqlite 0%nat Connect = Executed ->
   sqlite 1%nat CreateTableIfNotExists = Executed ->
   exists e, returned o = Raise e /\ sqlite_error e = false).
Proof.
  intros Hmissing. cbv zeta. unfold save_chart_data_to_db, save_with.
  destruct (sqlite 0%nat Connect) as [|e0];
    [|split; [now left|]; split; [reflexivity | discriminate]].
  destruct (sqlite 1%nat CreateTableIfNotExists) as [|e1];
    [|split; [now left|]; split; [reflexivity | discriminate]].
  fold (rows_of t).
  destruct (save_loop (save_chart_data_step coerce sqlite) (VDict d :: rest) _)
    as [c|e] eqn:Hloop; cbn [rbind store counts returned].
  - cbn [py_first rbind py_getitem]. rewrite Hmissing. cbn [rbind store counts returned].
    split; [now right|]. split; [reflexivity|].
    intros _ _. exists KeyError. auto.
  - split; [now right|]. split; [reflexivity|].
    intros _ _. exists e.
    assert (Hsql : sqlite_error e = false).
    { eapply save_loop_raises; [|exact Hloop].
      intros c' r' e'. apply save_chart_data_step_raises. }
    unfold after_outer_handler. rewrite Hsql. auto.
Qed.

(** ** Saving the records of a scraper to a database without faults *)

Lemma scraped_is_complete platform today r : scraped platform today r -> complete r.
Proof.
  intros (rank & title & podcast_id & ->). eexists. split; [reflexivity|].
  intros key [<- | [<- | [<- | [<- | [<- | []]]]]]; discriminate.
Qed.

Lemma same_key_row_of platform rank title podcast_id title' podcast_id' today :
  same_key (row_of platform rank title podcast_id today coerce)
           (row_of platform rank title' podcast_id' today coerce) = true.
Proof.
  unfold same_key, row_of. cbn. rewrite !String.eqb_refl, Z.eqb_refl. reflexivity.
Qed.

(** A scraped record on a database that executes its statement: ignored
    when its key is there, appended otherwise. *)
Lemma scraped_step platform rank title podcast_id today c :
  never_fails sqlite ->
  let r := chart_record platform rank title podcast_id today in
  let new := row_of platform rank title podcast_id today coerce in
  let c' := if existsb (same_key new) (rows c)
            then {| rows := rows c; calls := S (calls c);
                    insert_count := insert_count c;
                    ignore_count := ignore_count c + 1 |}
            else {| rows := rows c ++ [new]; calls := S (calls c);
                    insert_count := insert_count c + 1;
                    ignore_count := ignore_count c |} in
  save_to_db_step coerce sqlite c r = Ok c' /\
  save_chart_data_step coerce sqlite c r = Ok c'.
Proof.
  intros Hdb. cbv zeta.
  assert (Hc : complete (chart_record platform rank title podcast_id today)).
  { eapply scraped_is_complete. exists rank, title, podcast_id. reflexivity. }
  destruct (steps_agree_on_complete c _ Hc) as (d & Hd & -> & ->).
  unfold chart_record in Hd. injection Hd as <-.
  unfold insert_record. rewrite Hdb.
  change (insert_or_ignore coerce (params_of _) (rows c))
    with (if existsb (same_key (row_of platform rank title podcast_id today coerce))
               (rows c)
          then (rows c, 0)
          else (rows c ++ [row_of platform rank title podcast_id today coerce], 1)).
  destruct (existsb (same_key (row_of platform rank title podcast_id today coerce))
              (rows c)); auto.
Qed.

Lemma has_key_later platform today t added r :
  has_key coerce platform today t r -> has_key coerce platform today (t ++ added) r.
Proof.
  intros (rank & title & podcast_id & -> & H).
  exists rank, title, podcast_id. split; [reflexivity|].
  rewrite existsb_app, H. reflexivity.
Qed.

(** The first save of scraped records: the loop ends normally, every
    statement is counted, and every record has its key in the table. *)
Lemma save_loop_stores platform today records : forall c,
  never_fails sqlite ->
  Forall (scraped platform today) records ->
  forall step,
    step = save_to_db_step coerce sqlite \/
    step = save_chart_data_step coerce sqlite ->
    exists c',
      save_loop step records c = Ok c' /\
      moves_on c c' /\
      Forall (has_key coerce platform today (rows c')) records /\
      insert_count c' + ignore_count c'
        = insert_count c + ignore_count c + Z.of_nat (List.length records).
Proof.
  induction records as [|r rest IH]; intros c Hdb Hall step Hstep.
  - exists c. cbn [save_loop List.length]. split; [reflexivity|].
    split; [apply moves_on_refl|]. split; [constructor | lia].
  - inversion Hall as [|x xs (rank & title & podcast_id & ->) Hrest]; subst.
    destruct (scraped_step platform rank title podcast_id today c Hdb) as [H1 H2].
    cbv zeta in H1, H2. cbn [save_loop].
    set (new := row_of platform rank title podcast_id today coerce) in *.
    set (c1 := if existsb (same_key new) (rows c)
               then {| rows := rows c; calls := S (calls c);
                       insert_count := insert_count c;
                       ignore_count := ignore_count c + 1 |}
               else {| rows := rows c ++ [new]; calls := S (calls c);
                       insert_count := insert_count c + 1;
                       ignore_count := ignore_count c |}) in *.
    assert (Hs : step c (chart_record platform rank title podcast_id today) = Ok c1)
      by (destruct Hstep as [-> | ->]; assumption).
    rewrite Hs. cbn [rbind].
    destruct (IH c1 Hdb Hrest step Hstep) as (c' & Hloop & Hmoves & Hkeys & Hcount).
    exists c'. split; [exact Hloop|].
    assert (Hm1 : moves_on c c1).
    { destruct Hstep as [-> | ->];
        [eapply save_to_db_step_moves | eapply save_chart_data_step_moves];
        eassumption. }
    split; [eapply moves_on_trans; eassumption|].
    assert (Hnow : has_key coerce platform today (rows c1)
                     (chart_record platform rank title podcast_id today)).
    { exists rank, title, podcast_id. split; [reflexivity|]. fold new.
      subst c1. destruct (existsb (same_key new) (rows c)) eqn:E; cbn [rows].
      - exact E.
      - rewrite existsb_app. cbn [existsb]. unfold new.
        rewrite same_key_row_of, orb_true_r. reflexivity. }
    split.
    + constructor; [|exact Hkeys].
      destruct Hmoves as (added & -> & _). apply has_key_later. exact Hnow.
    + rewrite Hcount. cbn [List.length].
      subst c1. destruct (existsb (same_key new) (rows c));
        cbn [insert_count ignore_count]; lia.
Qed.

(** Saving records whose keys are all in the table: every statement is
    ignored and no row is added. *)
Lemma save_loop_ignores platform today records : forall c,
  never_fails sqlite ->
  Forall (has_key coerce platform today (rows c)) records ->
  forall step,
    step = save_to_db_step coerce sqlite \/
    step = save_chart_data_step coerce sqlite ->
    exists c',
      save_loop step records c = Ok c' /\
      rows c' = rows c /\
      insert_count c' = insert_count c /\
      ignore_count c' = ignore_count c + Z.of_nat (List.length records).
Proof.
  induction records as [|r rest IH]; intros c Hdb Hall step Hstep.
  - exists c. cbn [save_loop List.length]. repeat split; lia.
  - inversion Hall as [|x xs (rank & title & podcast_id & -> & Hkey) Hrest]; subst.
    destruct (scraped_step platform rank title podcast_id today c Hdb) as [H1 H2].
    cbv zeta in H1, H2. rewrite Hkey in H1, H2. cbn [save_loop].
    assert (Hs : step c (chart_record platform rank title podcast_id today)
                 = Ok {| rows := rows c; calls := S (calls c);
                         insert_count := insert_count c;
                         ignore_count := ignore_count c + 1 |})
      by (destruct Hstep as [-> | ->]; assumption).
    rewrite Hs. cbn [rbind].
    destruct (IH {| rows := rows c; calls := S (calls c);
                    insert_count := insert_count c;
                    ignore_count := ignore_count c + 1 |} Hdb Hrest step Hstep)
      as (c' & Hloop & Hrows & Hins & Hign).
    exists c'. cbn [rows insert_count ignore_count] in *.
    repeat split; auto. cbn [List.length]. lia.
Qed.

(** X20: on a database without faults, saving the records of a scrape a
    second time adds nothing, with either save: both saves return normally,
    the table after the second is the table after the first, and the last
    log line of the second reports no insert and as many ignored statements
    as there are records. *)
Theorem saving_twice_adds_nothing
    (platform today : string) (records : list value)
    (t : option (list Top100Lists.row)) :
  never_fails sqlite ->
  Forall (scraped platform today) records ->
  forall save,
    save = save_to_db coerce sqlite \/ save = save_chart_data_to_db coerce sqlite ->
    let first := save records t in
    let second := save records (store first) in
    returned first = Ok tt /\
    returned second = Ok tt /\
    store second = store first /\
    (records <> [] -> counts second = Some (0, Z.of_nat (List.length records))).
Proof.
  intros Hdb Hall save Hsave. cbv zeta.
  assert (Hcomplete : Forall complete records).
  { eapply Forall_impl; [|exact Hall]. apply scraped_is_complete. }
  assert (Hsame : forall t', save records t' = save_to_db coerce sqlite records t').
  { intros t'. destruct Hsave as [-> | ->];
      [reflexivity | apply saves_agree_on_complete; exact Hcomplete]. }
  rewrite !Hsame. clear Hsame Hsave save.
  unfold save_to_db, save_with.
  destruct records as [|r rest]; [cbn; repeat split; auto; congruence|].
  rewrite !Hdb. fold (rows_of t).
  destruct (save_loop_stores platform today (r :: rest)
              {| rows := rows_of t; calls := 2; insert_count := 0; ignore_count := 0 |}
              Hdb Hall _ (or_introl eq_refl))
    as (c1 & Hloop1 & _ & Hkeys & _).
  rewrite Hloop1. cbn [rbind]. rewrite Hdb. cbn [store returned counts].
  destruct (save_loop_ignores platform today (r :: rest)
              {| rows := rows c1; calls := 2; insert_count := 0; ignore_count := 0 |}
              Hdb Hkeys _ (or_introl eq_refl))
    as (c2 & Hloop2 & Hrows & Hins & Hign).
  cbn [rows insert_count ignore_count] in *.
  rewrite Hloop2. cbn [rbind]. rewrite Hdb. cbn [store returned counts].
  rewrite Hrows, Hins, Hign. repeat split.
Qed.

Lemma chart_record_rank platform rank title podcast_id rank' title' podcast_id' today :
  chart_record platform rank title podcast_id today
    = chart_record platform rank' title' podcast_id' today ->
  rank = rank' /\ title = title' /\ podcast_id = podcast_id'.
Proof. unfold chart_record. intros H. injection H as -> -> ->. auto. Qed.

Lemma same_key_other_rank platform rank rank' title title' podcast_id podcast_id' today :
  rank <> rank' ->
  same_key (row_of platform rank title podcast_id today coerce)
           (row_of platform rank' title' podcast_id' today coerce) = false.
Proof.
  intros Hne. unfold same_key, row_of. cbn.
  destruct (Z.eqb_spec rank rank'); [contradiction|].
  rewrite andb_false_r. reflexivity.
Qed.

(** Records of strictly growing ranks: one that finds no row of its key
    is stored as it is, the earlier records of the batch not being in its
    way. *)
Lemma save_loop_stores_fresh platform today ranks records :
  never_fails sqlite ->
  Forall2 (fun rank r => exists title podcast_id,
             r = chart_record platform rank title podcast_id today) ranks records ->
  StronglySorted Z.lt ranks ->
  forall step,
    step = save_to_db_step coerce sqlite \/
    step = save_chart_data_step coerce sqlite ->
    forall c c',
      save_loop step records c = Ok c' ->
      forall rank title podcast_id,
        In (chart_record platform rank title podcast_id today) records ->
        existsb (same_key (row_of platform rank title podcast_id today coerce)) (rows c)
          = false ->
        In (row_of platform rank title podcast_id today coerce) (rows c').
Proof.
  intros Hdb Hrec. induction Hrec as [|k r ranks records (t0 & p0 & ->) Hrest IH];
    intros Hsorted step Hstep c c' Hloop rank title podcast_id Hin Hfresh;
    [destruct Hin|].
  inversion Hsorted as [|k' ranks' Hsorted' Hlt]; subst.
  destruct (scraped_step platform k t0 p0 today c Hdb) as [H1 H2].
  cbv zeta in H1, H2. cbn [save_loop] in Hloop.
  set (new := row_of platform k t0 p0 today coerce) in *.
  set (c1 := if existsb (same_key new) (rows c)
             then {| rows := rows c; calls := S (calls c);
                     insert_count := insert_count c;
                     ignore_count := ignore_count c + 1 |}
             else {| rows := rows c ++ [new]; calls := S (calls c);
                     insert_count := insert_count c + 1;
                     ignore_count := ignore_count c |}) in *.
  assert (Hs : step c (chart_record platform k t0 p0 today) = Ok c1)
    by (destruct Hstep as [-> | ->]; assumption).
  rewrite Hs in Hloop. cbn [rbind] in Hloop.
  assert (Hmoves : moves_on c1 c').
  { eapply save_loop_moves; [|exact Hloop].
    destruct Hstep as [-> | ->];
      [apply save_to_db_step_moves | apply save_chart_data_step_moves]. }
  destruct Hin as [Heq | Hin].
  - apply chart_record_rank in Heq as (<- & <- & <-). fold new in Hfresh.
    destruct Hmoves as (added & -> & _). apply in_or_app. left.
    subst c1. rewrite Hfresh. cbn [rows]. apply in_or_app. right. now left.
  - apply (IH Hsorted' step Hstep c1 c' Hloop rank title podcast_id Hin).
    assert (Hne : rank <> k).
    { assert (Hr : In rank ranks).
      { clear - Hrest Hin. induction Hrest as [|k' r' ks rs (t' & p' & ->) _ IH];
          [destruct Hin|].
        destruct Hin as [Heq | Hin]; [|right; auto].
        apply chart_record_rank in Heq as (<- & _). now left. }
      rewrite Forall_forall in Hlt. specialize (Hlt _ Hr). lia. }
    subst c1. destruct (existsb (same_key new) (rows c)); cbn [rows]; [exact Hfresh|].
    rewrite existsb_app, Hfresh. cbn [existsb orb]. unfold new.
    rewrite same_key_other_rank by exact Hne. reflexivity.
Qed.

(** What a save of ranked records leaves, with either save. *)
Lemma ranked_records_are_stored platform today ranks records t :
  never_fails sqlite ->
  Forall2 (fun rank r => exists title podcast_id,
             r = chart_record platform rank title podcast_id today) ranks records ->
  StronglySorted Z.lt ranks ->
  records <> [] ->
  forall save,
    save = save_to_db coerce sqlite \/ save = save_chart_data_to_db coerce sqlite ->
    returned (save records t) = Ok tt /\
    forall rank title podcast_id,
      In (chart_record platform rank title podcast_id today) records ->
      (exists row,
         In row (rows_of (store (save records t))) /\
         same_key (row_of platform rank title podcast_id today coerce) row = true) /\
      (existsb (same_key (row_of platform rank title podcast_id today coerce))
         (rows_of t) = false ->
       In (row_of platform rank title podcast_id today coerce)
          (rows_of (store (save records t)))).
Proof.
  intros Hdb Hrec Hsorted Hne save Hsave.
  assert (Hall : Forall (scraped platform today) records).
  { clear - Hrec. induction Hrec as [|k r ks rs (t0 & p0 & ->) _ IH]; constructor; auto.
    exists k, t0, p0. reflexivity. }
  assert (Hcomplete : Forall complete records).
  { eapply Forall_impl; [|exact Hall]. apply scraped_is_complete. }
  assert (Hsame : save records t = save_to_db coerce sqlite records t).
  { destruct Hsave as [-> | ->];
      [reflexivity | apply saves_agree_on_complete; exact Hcomplete]. }
  rewrite Hsame. clear Hsame Hsave save.
  unfold save_to_db, save_with.
  destruct records as [|r rest]; [contradiction|].
  rewrite !Hdb. fold (rows_of t).
  destruct (save_loop_stores platform today (r :: rest)
              {| rows := rows_of t; calls := 2; insert_count := 0; ignore_count := 0 |}
              Hdb Hall _ (or_introl eq_refl))
    as (c1 & Hloop & _ & Hkeys & _).
  rewrite Hloop. cbn [rbind]. rewrite Hdb. cbn [store returned rows_of].
  split; [reflexivity|].
  intros rank title podcast_id Hin. split.
  - rewrite Forall_forall in Hkeys.
    destruct (Hkeys _ Hin) as (rank' & title' & podcast_id' & Heq & Hex).
    apply chart_record_rank in Heq as (<- & <- & <-).
    apply existsb_exists in Hex as (row & Hrow & Hkey). eauto.
  - intros Hfresh.
    apply (save_loop_stores_fresh platform today ranks (r :: rest) Hdb Hrec Hsorted
             _ (or_introl eq_refl) _ _ Hloop rank title podcast_id Hin Hfresh).
Qed.

(** X21: on a database without faults, running a scraper script leaves
    every record it scraped in the table: the script returns normally, and
    for each scraped record the table holds a row of its platform, rank and
    date; when no row of that key was there before, it is the record
    itself, with the title and the podcast id that were scraped; when one
    was, the record is ignored (the first chart saved on a day is the one
    that stays). *)
Theorem what_was_scraped_is_stored
    (today : string) (reply : http_outcome) (t : option (list Top100Lists.row)) :
  never_fails sqlite ->
  (returned (spotify_main coerce sqlite today reply t) = Ok tt /\
   forall rank title podcast_id,
     In (chart_record "Spotify" rank title podcast_id today)
        (scrape_spotify_top100 today reply) ->
     (exists row,
        In row (rows_of (store (spotify_main coerce sqlite today reply t))) /\
        same_key (row_of "Spotify" rank title podcast_id today coerce) row = true) /\
     (existsb (same_key (row_of "Spotify" rank title podcast_id today coerce))
        (rows_of t) = false ->
      In (row_of "Spotify" rank title podcast_id today coerce)
         (rows_of (store (spotify_main coerce sqlite today reply t))))) /\
  (returned (apple_main coerce sqlite today reply t) = Ok tt /\
   forall rank title podcast_id,
     In (chart_record "Apple" rank title podcast_id today)
        (scrape_apple_top_podcasts today 100 reply) ->
     (exists row,
        In row (rows_of (store (apple_main coerce sqlite today reply t))) /\
        same_key (row_of "Apple" rank title podcast_id today coerce) row = true) /\
     (existsb (same_key (row_of "Apple" rank title podcast_id today coerce))
        (rows_of t) = false ->
      In (row_of "Apple" rank title podcast_id today coerce)
         (rows_of (store (apple_main coerce sqlite today reply t))))).
Proof.
  intros Hdb.
  destruct (scrapes_ranked today 100 reply)
    as [(ranks1 & Hrec1 & Hsorted1 & _) (ranks2 & Hrec2 & Hsorted2 & _)].
  split.
  - unfold spotify_main.
    destruct (scrape_spotify_top100 today reply) as [|r rest] eqn:Hscrape.
    + split; [reflexivity|]. intros rank title podcast_id [].
    + apply (ranked_records_are_stored "Spotify" today ranks1 (r :: rest) t
               Hdb Hrec1 Hsorted1); [discriminate | now left].
  - unfold apple_main.
    destruct (scrape_apple_top_podcasts today 100 reply) as [|r rest] eqn:Hscrape.
    + split; [reflexivity|]. intros rank title podcast_id [].
    + apply (ranked_records_are_stored "Apple" today ranks2 (r :: rest) t
               Hdb Hrec2 Hsorted2); [discriminate | now right].
Qed.

(** ** Records that lack a key *)

Lemma save_loop_app step l1 l2 c :
  save_loop step (l1 ++ l2) c = (c1 <~ save_loop step l1 c ;; save_loop step l2 c1).
Proof.
  revert c. induction l1 as [|r l1 IH]; intros c; cbn [app save_loop rbind];
    [reflexivity|].
  destruct (step c r) as [c'|e]; cbn [rbind]; [apply IH | reflexivity].
Qed.

Lemma save_loop_skips step l1 r l2 c :
  (forall c', step c' r = Ok c') ->
  save_loop step (l1 ++ r :: l2) c = save_loop step (l1 ++ l2) c.
Proof.
  intros Hskip. rewrite !save_loop_app.
  destruct (save_loop step l1 c) as [c1|e]; cbn [rbind save_loop]; [|reflexivity].
  rewrite Hskip. reflexivity.
Qed.

Lemma spotify_params_incomplete d :
  (exists key, In key ["platform"; "rank"; "title"; "podcast_id"; "date"] /\
               lookup key d = None) ->
  spotify_params (VDict d) = Raise KeyError.
Proof.
  intros (key & Hin & Hnone). unfold spotify_params, py_getitem.
  destruct Hin as [<- | [<- | [<- | [<- | [<- | []]]]]]; rewrite Hnone;
    repeat (match goal with
            | |- context [lookup ?k d] => destruct (lookup k d)
            end; cbn [rbind]); reflexivity.
Qed.

Lemma apple_check_incomplete d :
  (exists key, In key ["platform"; "rank"; "date"] /\ lookup key d = None) ->
  py_all_in ["platform"; "rank"; "date"] (VDict d) = Ok false.
Proof.
  intros (key & Hin & Hnone). cbn [py_all_in py_contains].
  destruct Hin as [<- | [<- | [<- | []]]]; rewrite Hnone;
    repeat (match goal with
            | |- context [lookup ?k d] => destruct (lookup k d)
            end; cbn [rbind]); reflexivity.
Qed.

(** X22: a record that lacks a key is given up without a word to the
    database, and the save goes on as if it were not in the list:
    [save_to_db] gives up a dict that lacks any of the five keys,
    [save_chart_data_to_db] one that lacks ["platform"], ["rank"] or
    ["date"] (and stands behind the first record, see X19); a dict that
    lacks only ["title"] or ["podcast_id"] is bound by
    [save_chart_data_to_db] with [None] in that place. *)
Theorem records_that_lack_a_key_are_given_up
    (d : list (string * value)) (pre post : list value)
    (t : option (list Top100Lists.row)) :
  ((exists key, In key ["platform"; "rank"; "title"; "podcast_id"; "date"] /\
                lookup key d = None) ->
   pre ++ post <> [] ->
   save_to_db coerce sqlite (pre ++ VDict d :: post) t
     = save_to_db coerce sqlite (pre ++ post) t) /\
  ((exists key, In key ["platform"; "rank"; "date"] /\ lookup key d = None) ->
   pre <> [] ->
   save_chart_data_to_db coerce sqlite (pre ++ VDict d :: post) t
     = save_chart_data_to_db coerce sqlite (pre ++ post) t) /\
  (lookup "platform" d <> None -> lookup "rank" d <> None ->
   lookup "date" d <> None ->
   forall c,
     save_chart_data_step coerce sqlite c (VDict d)
       = insert_record coerce sqlite (Ok (params_of d)) c).
Proof.
  split; [|split].
  - intros Hmissing Hne.
    assert (Hskip : forall c', save_to_db_step coerce sqlite c' (VDict d) = Ok c').
    { intros c'. unfold save_to_db_step.
      rewrite (spotify_params_incomplete d Hmissing). reflexivity. }
    unfold save_to_db, save_with.
    rewrite (save_loop_skips _ pre (VDict d) post _ Hskip).
    destruct pre as [|x pre]; [|reflexivity].
    destruct post as [|y post]; [contradiction | reflexivity].
  - intros Hmissing Hne.
    assert (Hskip : forall c', save_chart_data_step coerce sqlite c' (VDict d) = Ok c').
    { intros c'. unfold save_chart_data_step.
      rewrite (apple_check_incomplete d Hmissing). reflexivity. }
    unfold save_chart_data_to_db, save_with.
    rewrite (save_loop_skips _ pre (VDict d) post _ Hskip).
    destruct pre as [|x pre]; [contradiction | reflexivity].
  - intros H1 H2 H3 c. unfold save_chart_data_step, apple_params.
    rewrite !py_getitem_present by assumption.
    cbn [py_all_in py_contains dict_get rbind].
    destruct (lookup "platform" d); [|contradiction].
    destruct (lookup "rank" d); [|contradiction].
    destruct (lookup "date" d); [|contradiction].
    reflexivity.
Qed.

End Saving.

(** * Further sample runs *)

(** ** The update script *)

(** A feed URL that is a number ends the run at the first title: the
    second title is never searched. *)
Example numeric_url_ends_the_run :
  let o := update_all_podcast_details ascii_lower scenario_ratio braces_dumps utf8_stdout python_3_12
             no_coercion numeric_url_net always_commits no_chart_table
             (Some [VStr "The Daily"; VStr "Up First"]) fresh in
  res o = Raise TypeError /\ log o = [Request SearchByTerm (VStr "The Daily")].
Proof. vm_compute. auto. Qed.

(** A feed payload that is a list ends it with an [AttributeError]. *)
Example list_payload_ends_the_run :
  res (update_all_podcast_details ascii_lower scenario_ratio braces_dumps utf8_stdout python_3_12
         no_coercion list_payload_net always_commits no_chart_table
         (Some [VStr "The Daily"; VStr "Up First"]) fresh)
  = Raise AttributeError.
Proof. vm_compute. reflexivity. Qed.

(** A database that refuses every write leaves the table empty and the
    run goes through both titles. *)
Example refused_writes_run :
  let o := update_all_podcast_details ascii_lower scenario_ratio braces_dumps utf8_stdout python_3_12
             no_coercion episodes_down_net always_refuses no_chart_table
             (Some [VStr "The Daily"; VStr "Daily"]) fresh in
  res o = Ok tt /\ table (final o) = [] /\ sleeps_of (log o) = [3 # 2; 3 # 2].
Proof. vm_compute. auto. Qed.

(** ** The chart scrapers *)

Example spotify_chart_is_scraped :
  scrape_spotify_top100 a_day spotify_reply
  = [chart_record "Spotify" 1 (VStr "The Daily") (VStr "3IM0lmZxpFAY7CwMuv9H4g") a_day;
     chart_record "Spotify" 3 (VStr "Up First") VNone a_day].
Proof. vm_compute. reflexivity. Qed.

Example apple_chart_is_scraped :
  scrape_apple_top_podcasts a_day 100 apple_reply
  = [chart_record "Apple" 1 (VStr "The Daily") (VStr "1200361736") a_day;
     chart_record "Apple" 2 (VStr "Up First") (VStr "1222114325") a_day].
Proof. vm_compute. reflexivity. Qed.

(** A limit of 1 keeps the first show, a limit of -1 drops the last. *)
Example apple_limits :
  scrape_apple_top_podcasts a_day 1 apple_reply
    = [chart_record "Apple" 1 (VStr "The Daily") (VStr "1200361736") a_day] /\
  scrape_apple_top_podcasts a_day (-1) apple_reply
    = [chart_record "Apple" 1 (VStr "The Daily") (VStr "1200361736") a_day].
Proof. vm_compute. auto. Qed.

(** One show URI that is a number, and the chart is lost. *)
Example numeric_show_uri_loses_the_chart :
  scrape_spotify_top100 a_day
    (Responded false (Some (VList (spotify_chart ++ [VDict [("showUri", VInt 7)]]))))
  = [].
Proof. vm_compute. reflexivity. Qed.

(** The first record lacks its platform: [save_to_db] gives it up and
    stores the second, [save_chart_data_to_db] raises and stores nothing. *)
Example headless_batch_saved_both_ways :
  save_to_db as_bound faultless headless_batch None
    = {| returned := Ok tt;
         store := Some [row_of "Apple" 2 (VStr "Up First") (VStr "1222114325")
                          a_day as_bound];
         counts := Some (1, 0) |} /\
  save_chart_data_to_db as_bound faultless headless_batch None
    = {| returned := Raise KeyError; store := Some []; counts := None |}.
Proof. vm_compute. auto. Qed.

(** * The further properties on sample runs *)


Lemma failed_write_witness :
  res (process_title ascii_lower scenario_ratio braces_dumps utf8_stdout
         python_3_12 no_coercion
         the_daily_net always_refuses (VStr "The Daily") fresh) = Ok tt /\
  (forall r, ~ In (Upsert r)
     (log (process_title ascii_lower scenario_ratio braces_dumps utf8_stdout
         python_3_12 no_coercion
             the_daily_net always_refuses (VStr "The Daily") fresh))) /\
  table (final (process_title ascii_lower scenario_ratio braces_dumps utf8_stdout
         python_3_12 no_coercion
                  the_daily_net always_refuses (VStr "The Daily") fresh))
    = table fresh /\
  sleeps_of (log (process_title ascii_lower scenario_ratio braces_dumps utf8_stdout
         python_3_12 no_coercion
                    the_daily_net always_refuses (VStr "The Daily") fresh))
    = [3 # 2].
Proof.
  apply (failed_write_skips_the_row_only ascii_lower scenario_ratio braces_dumps
           utf8_stdout python_3_12 no_coercion the_daily_net always_refuses
           (VStr "The Daily") the_daily_candidate the_daily_feed
           (VInt 750, VStr "Monday") fresh).
  - vm_compute. reflexivity.
  - vm_compute. reflexivity.
  - reflexivity.
  - reflexivity.
  - vm_compute. reflexivity.
  - vm_compute. reflexivity.
  - right. exists 1, SqliteError.
    repeat split; vm_compute; reflexivity.
Defined.

Lemma malformed_result_witness :
  res (search_byterm ascii_lower scenario_ratio utf8_stdout noisy_net (VStr "The Daily") fresh)
  = Ok VNone.
Proof.
  apply (proj1 (one_malformed_result_discards_the_search ascii_lower scenario_ratio
                  utf8_stdout noisy_net (VStr "The Daily") fresh)
           (VDict [("feeds", VList noisy_results)]) (VList noisy_results)
           noisy_results (VInt 7)).
  - reflexivity.
  - reflexivity.
  - reflexivity.
  - right. now left.
  - left. intros d. discriminate.
Defined.

Lemma title_that_is_no_string_witness :
  res (process_title ascii_lower scenario_ratio braces_dumps utf8_stdout
         python_3_12 no_coercion
         the_daily_net always_commits VNone fresh) = Ok tt /\
  log (process_title ascii_lower scenario_ratio braces_dumps utf8_stdout
         python_3_12 no_coercion
         the_daily_net always_commits VNone fresh)
    = [Request SearchByTerm VNone; Request SearchByTitle VNone; Sleep 1] /\
  table (final (process_title ascii_lower scenario_ratio braces_dumps utf8_stdout
         python_3_12 no_coercion
                  the_daily_net always_commits VNone fresh))
    = table fresh.
Proof.
  apply (title_that_is_no_string_never_resolves ascii_lower scenario_ratio
           braces_dumps utf8_stdout python_3_12 no_coercion the_daily_net always_commits VNone fresh).
  intros q. discriminate.
Defined.


Lemma stored_rows_witness :
  (exists title s',
     In title [VStr "The Daily"] /\
     In (Upsert the_daily_row)
        (log (process_title ascii_lower scenario_ratio braces_dumps utf8_stdout
         python_3_12 no_coercion
                the_daily_net always_commits title s'))) /\
  (Podcasts.categories the_daily_row = VNone \/
   exists text, Podcasts.categories the_daily_row = VStr text) /\
  (Podcasts.avg_duration_last_10 the_daily_row = VNone \/
   exists z, Podcasts.avg_duration_last_10 the_daily_row = VInt z).
Proof.
  apply (stored_rows_hold_text_and_integers ascii_lower scenario_ratio braces_dumps
           utf8_stdout python_3_12 no_coercion the_daily_net always_commits
           no_chart_table [VStr "The Daily"] fresh the_daily_row).
  vm_compute. left. reflexivity.
Defined.

Lemma the_two_saves_agree_witness :
  save_chart_data_to_db as_bound faultless
    (scrape_apple_top_podcasts a_day 100 apple_reply) None
  = save_to_db as_bound faultless
      (scrape_apple_top_podcasts a_day 100 apple_reply) None.
Proof.
  apply (the_two_saves_agree_on_complete_records as_bound faultless).
  repeat apply Forall_cons; try apply Forall_nil;
    (eexists; split; [reflexivity|]);
    intros key [<- | [<- | [<- | [<- | [<- | []]]]]]; discriminate.
Defined.

Lemma first_record_without_platform_witness :
  (store (save_chart_data_to_db as_bound faultless headless_batch None) = None \/
   store (save_chart_data_to_db as_bound faultless headless_batch None)
     = Some (rows_of None)) /\
  counts (save_chart_data_to_db as_bound faultless headless_batch None) = None /\
  (faultless 0%nat Connect = Executed ->
   faultless 1%nat CreateTableIfNotExists = Executed ->
   exists e,
     returned (save_chart_data_to_db as_bound faultless headless_batch None) = Raise e /\
     sqlite_error e = false).
Proof.
  apply (first_record_without_platform_loses_the_batch as_bound faultless
           [("rank", VInt 1); ("title", VStr "The Daily"); ("podcast_id", VNone);
            ("date", VStr a_day)]
           [chart_record "Apple" 2 (VStr "Up First") (VStr "1222114325") a_day]
           None).
  reflexivity.
Defined.

Lemma saving_twice_witness :
  returned (save_to_db as_bound faultless
              (scrape_spotify_top100 a_day spotify_reply) None) = Ok tt /\
  returned (save_to_db as_bound faultless
              (scrape_spotify_top100 a_day spotify_reply)
              (store (save_to_db as_bound faultless
                        (scrape_spotify_top100 a_day spotify_reply) None))) = Ok tt /\
  store (save_to_db as_bound faultless
           (scrape_spotify_top100 a_day spotify_reply)
           (store (save_to_db as_bound faultless
                     (scrape_spotify_top100 a_day spotify_reply) None)))
    = store (save_to_db as_bound faultless
               (scrape_spotify_top100 a_day spotify_reply) None) /\
  (scrape_spotify_top100 a_day spotify_reply <> [] ->
   counts (save_to_db as_bound faultless
             (scrape_spotify_top100 a_day spotify_reply)
             (store (save_to_db as_bound faultless
                       (scrape_spotify_top100 a_day spotify_reply) None)))
     = Some (0, Z.of_nat (List.length (scrape_spotify_top100 a_day spotify_reply)))).
Proof.
  apply (saving_twice_adds_nothing as_bound faultless "Spotify" a_day
           (scrape_spotify_top100 a_day spotify_reply) None).
  - intros now call. reflexivity.
  - repeat apply Forall_cons; try apply Forall_nil;
      eexists; eexists; eexists; reflexivity.
  - left. reflexivity.
Defined.

Lemma what_was_scraped_witness :
  In (row_of "Spotify" 1 (VStr "The Daily") (VStr "3IM0lmZxpFAY7CwMuv9H4g") a_day
        as_bound)
     (rows_of (store (spotify_main as_bound faultless a_day spotify_reply None))).
Proof.
  apply (proj2 (proj1 (what_was_scraped_is_stored as_bound faultless a_day
                         spotify_reply None (fun _ _ => eq_refl)))).
  - vm_compute. left. reflexivity.
  - reflexivity.
Defined.
